(** * Automation instance lifecycle and multi-strategy screen capture

    A shallow embedding of the handle registry, the window locator, the
    window positioner and the capture strategy chain of
    [office-server/server.py] and [browser-server/server.py].

    The Python functions talk to the outside world (COM, user32/GDI, mss,
    PIL, pyautogui, Selenium, Flask) on almost every line.  They are
    embedded as programs of a small free monad: every external call is a
    node of the program, the interpreter [run] asks an arbitrary
    environment for the answer and records the call in a trace, Python
    exceptions are a [Raise] node caught by [catch], and the module-level
    globals ([office_apps], [browser], [browser_type]) are the state read
    and written through [Get] and [Put].  Theorems quantify over every
    environment unless they say otherwise. *)

From Stdlib Require Import ZArith List String Ascii Bool Lia.
From stdpp Require Import base gmap strings list fin_maps.
From Equations Require Import Equations.
Import ListNotations.
Local Open Scope Z_scope.
Local Open Scope string_scope.

(** ** Python values shared by both servers *)

(** Exceptions deriving from [Exception].  [ImportError] is told apart
    because [capture_window_screenshot] has a handler of its own for it.
    Exceptions outside [Exception] (KeyboardInterrupt, SystemExit) are
    signals to the process and are not modelled. *)
Inductive Exc : Type :=
| ImportError (module : string)
| KeyError (k : string)
| IndexError
| Error (msg : string).

(** [str(e)] *)
Definition exc_str (e : Exc) : string :=
  match e with
  | ImportError m => "No module named '" ++ m ++ "'"
  | KeyError k => "'" ++ k ++ "'"
  | IndexError => "list index out of range"
  | Error msg => msg
  end.

Inductive res (A : Type) : Type :=
| Ok (a : A)
| Err (e : Exc).
Arguments Ok {A} a.
Arguments Err {A} e.

Definition is_ok {A} (r : res A) : bool :=
  match r with Ok _ => true | Err _ => false end.

(** JSON values as far as the endpoints look at them. *)
Inductive JVal : Type :=
| JNull
| JBool (b : bool)
| JInt (z : Z)
| JStr (s : string).

(** Python truthiness *)
Definition truthy (v : JVal) : bool :=
  match v with
  | JNull => false
  | JBool b => b
  | JInt z => negb (Z.eqb z 0)
  | JStr s => negb (String.eqb s "")
  end.

(** [v == s] for a string literal [s] *)
Definition is_str (v : JVal) (s : string) : bool :=
  match v with JStr s' => String.eqb s' s | _ => false end.

(** A Python dict with string keys, in insertion order. *)
Definition Dict := list (string * JVal).

Fixpoint dict_get (d : Dict) (k : string) (dflt : JVal) : JVal :=
  match d with
  | [] => dflt
  | (k', v) :: d' => if String.eqb k' k then v else dict_get d' k dflt
  end.

Fixpoint dict_set (d : Dict) (k : string) (v : JVal) : Dict :=
  match d with
  | [] => [(k, v)]
  | (k', v') :: d' =>
      if String.eqb k' k then (k', v) :: d' else (k', v') :: dict_set d' k v
  end.

(** [d.update(data)] *)
Definition dict_update (d data : Dict) : Dict :=
  fold_left (fun acc kv => dict_set acc (fst kv) (snd kv)) data d.

(** [get_error_response(message, details)] *)
Definition get_error_response (message : string) (details : option string) : Dict :=
  let response := [("success", JBool false); ("error", JStr message)] in
  match details with
  | Some d => if String.eqb d "" then response
              else dict_set response "details" (JStr d)
  | None => response
  end.

(** [get_success_response(message, data)]; [data = None] and [data = {}]
    are both falsy and are the empty list here. *)
Definition get_success_response (message : string) (data : Dict) : Dict :=
  let response := [("success", JBool true); ("message", JStr message)] in
  match data with
  | [] => response
  | _ => dict_update response data
  end.

Definition is_success (r : Dict) : bool :=
  match dict_get r "success" JNull with JBool true => true | _ => false end.

(** the endpoint returned a success response *)
Definition succeeded (r : res Dict) : bool :=
  match r with Ok d => is_success d | Err _ => false end.

(** ** Geometry and images *)

Record Rect : Type := mkRect
  { r_left : Z; r_top : Z; r_right : Z; r_bottom : Z }.

Definition rect_width (r : Rect) : Z := r_right r - r_left r.
Definition rect_height (r : Rect) : Z := r_bottom r - r_top r.

(** An mss monitor dict: keys "left", "top", "width", "height". *)
Record Monitor : Type := mkMonitor
  { m_left : Z; m_top : Z; m_width : Z; m_height : Z }.

(** A PIL image: its size and its pixel data. *)
Record Image : Type := mkImage
  { img_size : Z * Z; img_data : list Byte.byte }.

(** An mss [ScreenShot]: its [size] and its raw [bgra] bytes. *)
Record ScreenShot : Type := mkScreenShot
  { shot_size : Z * Z; shot_bgra : list Byte.byte }.

(** ** External calls *)

Definition HWND := Z.
Definition Handle := Z.
Definition Session := Z.
Definition Doc := Z.

(** The calls the two servers make to the outside.  [Print] carries the
    literal part of the message only; the values formatted into it are
    left out. *)
Inductive Call : Type :=
(* interpreter and Flask *)
| Print (msg : string)
| Sleep (ms : Z)
| ImportModule (name : string)
| RequestJson
| RequestArg (key : string)
| WerkzeugShutdownFunc
| CallShutdownFunc
(* win32com *)
| Dispatch (progid : string)
| GetVisible (app : Handle)
| SetVisible (app : Handle) (v : bool)
| DocsCount (app : Handle)
| DocsAdd (app : Handle)
| DocsList (app : Handle)
| DocSave (d : Doc)
| Quit (app : Handle)
(* user32 through ctypes and win32gui *)
| ShowWindow (hwnd : HWND) (cmd : Z)
| GetWindowRect (hwnd : HWND)
| SetWindowPos (hwnd after : HWND) (x y cx cy flags : Z)
| SetForegroundWindow (hwnd : HWND)
| FindWindow (class_name : string)
| EnumWindows
| IsWindowVisible (hwnd : HWND)
| GetWindowText (hwnd : HWND)
| GetClassName (hwnd : HWND)
| IsIconic (hwnd : HWND)
| BringWindowToTop (hwnd : HWND)
| GetForegroundWindow
| GetWindowThreadProcessId (hwnd : HWND)
| AttachThreadInput (id_attach id_to : Z) (attach : bool)
(* GDI through win32gui and win32ui *)
| GetWindowDC (hwnd : HWND)
| CreateDCFromHandle (dc : Z)
| CreateCompatibleDC (mfc_dc : Z)
| CreateBitmap
| CreateCompatibleBitmap (bmp mfc_dc w h : Z)
| SelectObject (dc bmp : Z)
| GetSafeHdc (dc : Z)
| PrintWindow (hwnd : HWND) (hdc flags : Z)
| BitBlt (dst w h src rop : Z)
| GetInfo (bmp : Z)
| GetBitmapBits (bmp : Z)
| GetHandle (bmp : Z)
| DeleteObject (obj : Z)
| DeleteDC (dc : Z)
| ReleaseDC (hwnd : HWND) (dc : Z)
(* mss *)
| MssOpen
| MssMonitors
| MssGrab (m : Monitor)
| MssClose
(* PIL *)
| ImageFromBytes (size : Z * Z) (data : list Byte.byte)
| ImageFromBuffer (size : Z * Z) (data : list Byte.byte)
| ImageSavePNG (img : Image)
(* pyautogui *)
| PyAutoGuiSize
| PyAutoGuiScreenshot (region : Z * Z * Z * Z)
(* os.path *)
| ExpandVars (p : string)
| PathExists (p : string)
(* selenium *)
| WebdriverChrome (args : list string)
| WebdriverEdge (args : list string)
| BrowserQuit (s : Session)
| ExecuteScript (s : Session) (js : string)
| SetWindowSize (s : Session) (w h : Z)
| GetScreenshotAsBase64 (s : Session)
| CurrentUrl (s : Session)
| Title (s : Session).

(** What each call answers.  A call that can raise answers a [res]. *)
Definition Resp (c : Call) : Type :=
  match c with
  | Print _ | Sleep _ | MssClose => unit
  | WerkzeugShutdownFunc => bool
  | ImportModule _ | CallShutdownFunc => res unit
  | RequestJson => res (option Dict)
  | RequestArg _ => res (option string)
  | Dispatch _ => res Handle
  | GetVisible _ => res bool
  | SetVisible _ _ | DocsAdd _ | DocSave _ | Quit _ => res unit
  | DocsCount _ => res Z
  | DocsList _ => res (list Doc)
  | ShowWindow _ _ | SetWindowPos _ _ _ _ _ _ _ | PrintWindow _ _ _ => res Z
  | GetWindowRect _ => res Rect
  | SetForegroundWindow _ | BringWindowToTop _ | AttachThreadInput _ _ _ => res unit
  | FindWindow _ | GetForegroundWindow => res HWND
  | EnumWindows => res (list HWND)
  | IsWindowVisible _ | IsIconic _ => res bool
  | GetWindowText _ | GetClassName _ => res string
  | GetWindowThreadProcessId _ => res (Z * Z)
  | GetWindowDC _ | CreateDCFromHandle _ | CreateCompatibleDC _ | CreateBitmap
  | GetSafeHdc _ | GetHandle _ => res Z
  | CreateCompatibleBitmap _ _ _ _ | SelectObject _ _ | BitBlt _ _ _ _ _
  | DeleteObject _ | DeleteDC _ | ReleaseDC _ _ => res unit
  | GetInfo _ => res (Z * Z)
  | GetBitmapBits _ => res (list Byte.byte)
  | MssOpen => res unit
  | MssMonitors => res (list Monitor)
  | MssGrab _ => res ScreenShot
  | ImageFromBytes _ _ | ImageFromBuffer _ _ => res (list Byte.byte)
  | ImageSavePNG _ => res (list Byte.byte)
  | PyAutoGuiSize => res (Z * Z)
  | PyAutoGuiScreenshot _ => res Image
  | ExpandVars _ => string
  | PathExists _ => bool
  | WebdriverChrome _ | WebdriverEdge _ => res Session
  | BrowserQuit _ | SetWindowSize _ _ _ => res unit
  | ExecuteScript _ _ => res Z
  | GetScreenshotAsBase64 _ | CurrentUrl _ | Title _ => res string
  end.

(** ** Programs *)

(** A program over globals of type [S] returning an [A]. *)
Inductive Prog (S A : Type) : Type :=
| Ret (a : A)
| Raise (e : Exc)
| Get (k : S -> Prog S A)
| Put (s : S) (k : Prog S A)
| Vis (c : Call) (k : Resp c -> Prog S A).
Arguments Ret {S A} a.
Arguments Raise {S A} e.
Arguments Get {S A} k.
Arguments Put {S A} s k.
Arguments Vis {S A} c k.

Fixpoint bind {S A B} (p : Prog S A) (f : A -> Prog S B) : Prog S B :=
  match p with
  | Ret a => f a
  | Raise e => Raise e
  | Get k => Get (fun s => bind (k s) f)
  | Put s k => Put s (bind k f)
  | Vis c k => Vis c (fun x => bind (k x) f)
  end.

(** [try: p  except Exception as e: handler e] *)
Fixpoint catch {S A} (p : Prog S A) (handler : Exc -> Prog S A) : Prog S A :=
  match p with
  | Ret a => Ret a
  | Raise e => handler e
  | Get k => Get (fun s => catch (k s) handler)
  | Put s k => Put s (catch k handler)
  | Vis c k => Vis c (fun x => catch (k x) handler)
  end.

Declare Scope prog_scope.
Delimit Scope prog_scope with prog.
Notation "x <- p ;; q" := (bind p (fun x => q))
  (at level 100, p at next level, right associativity) : prog_scope.
Notation "p ;;; q" := (bind p (fun _ => q))
  (at level 100, right associativity) : prog_scope.
Local Open Scope prog_scope.

(** Runs [p] and hands back its result or its exception as a value. *)
Definition attempt {S A} (p : Prog S A) : Prog S (res A) :=
  catch (x <- p ;; Ret (Ok x)) (fun e => Ret (Err e)).

Definition lift {S A} (r : res A) : Prog S A :=
  match r with Ok a => Ret a | Err e => Raise e end.

(** A call that can raise, and one that cannot. *)
Abbreviation call c := (Vis c lift) (only parsing).
Abbreviation call_ c := (Vis c Ret) (only parsing).

Definition get_state {S} : Prog S S := Get Ret.

(** [for x in l: body x] *)
Fixpoint for_each {S A} (l : list A) (body : A -> Prog S unit) : Prog S unit :=
  match l with
  | [] => Ret tt
  | x :: l' => body x ;;; for_each l' body
  end.

(** ** Running a program in an environment *)

Record Outcome (S A W : Type) : Type := mkOutcome
  { out_res : res A;        (* value returned or exception raised *)
    out_state : S;          (* globals afterwards *)
    out_world : W;          (* environment afterwards *)
    out_trace : list Call   (* external calls made, in order *) }.
Arguments mkOutcome {S A W}.
Arguments out_res {S A W}.
Arguments out_state {S A W}.
Arguments out_world {S A W}.
Arguments out_trace {S A W}.

Definition Env (W : Type) : Type := forall c : Call, W -> Resp c * W.

Definition logged {S A W} (c : Call) (o : Outcome S A W) : Outcome S A W :=
  mkOutcome (out_res o) (out_state o) (out_world o) (c :: out_trace o).

Fixpoint run {S A W} (env : Env W) (p : Prog S A) (s : S) (w : W)
  : Outcome S A W :=
  match p with
  | Ret a => mkOutcome (Ok a) s w []
  | Raise e => mkOutcome (Err e) s w []
  | Get k => run env (k s) s w
  | Put s' k => run env k s' w
  | Vis c k => logged c (run env (k (fst (env c w))) s (snd (env c w)))
  end.

(** the outcome [o] of a program followed by the outcome [o'] of what
    runs next *)
Definition and_then {S A B W} (o : Outcome S A W) (o' : Outcome S B W)
  : Outcome S B W :=
  mkOutcome (out_res o') (out_state o') (out_world o')
            (out_trace o ++ out_trace o')%list.

Definition raised {S A B W} (o : Outcome S A W) (e : Exc) : Outcome S B W :=
  mkOutcome (Err e) (out_state o) (out_world o) (out_trace o).

(** ** Strings as Python compares them *)

(** [str.lower] of the interpreter is the lower-case mapping of Unicode.
    It is taken as given: the code is written over a [str_lower], and
    what is proved of a comparison without regard to case holds whatever
    that mapping is. *)
Class StrLower : Type := str_lower : string -> string.

(** The mapping on the ASCII letters, other characters left as they
    are.  It is the [str.lower] of the scripted runs, and it decides
    [s.lower() == 'true']: the only characters Unicode lowers to t, r, u
    or e are those letters and their ASCII capitals. *)
Definition lower_ascii (c : ascii) : ascii :=
  let n := N_of_ascii c in
  if (N.leb 65 n && N.leb n 90)%bool then ascii_of_N (n + 32) else c.

Fixpoint lower (s : string) : string :=
  match s with
  | EmptyString => EmptyString
  | String c s' => String (lower_ascii c) (lower s')
  end.

(** [needle in hay] *)
Fixpoint contains (needle hay : string) : bool :=
  (String.prefix needle hay ||
   match hay with
   | EmptyString => false
   | String _ hay' => contains needle hay'
   end)%bool.

(** [needle.lower() in hay.lower()] *)
Definition contains_ci {casing : StrLower} (needle hay : string) : bool :=
  contains (str_lower needle) (str_lower hay).

(** [str.lower] on ASCII text *)
Definition ascii_lower : StrLower := lower.

(** ** base64

    [base64.b64encode(bs).decode('utf-8')] *)

Definition b64_alphabet : string :=
  "ABCDEFGHIJKLMNOPQRSTUVWXYZabcdefghijklmnopqrstuvwxyz0123456789+/".

Definition b64_char (n : N) : ascii :=
  match String.get (N.to_nat n) b64_alphabet with
  | Some c => c
  | None => "="%char
  end.

Fixpoint b64encode (bs : list Byte.byte) : string :=
  match bs with
  | [] => ""
  | [a] =>
      let x := Byte.to_N a in
      String (b64_char (x / 4))
        (String (b64_char ((x mod 4) * 16)) "==")
  | [a; b] =>
      let x := Byte.to_N a in
      let y := Byte.to_N b in
      String (b64_char (x / 4))
        (String (b64_char ((x mod 4) * 16 + y / 16))
           (String (b64_char ((y mod 16) * 4)) "="))
  | a :: b :: c :: rest =>
      let x := Byte.to_N a in
      let y := Byte.to_N b in
      let z := Byte.to_N c in
      String (b64_char (x / 4))
        (String (b64_char ((x mod 4) * 16 + y / 16))
           (String (b64_char ((y mod 16) * 4 + z / 64))
              (String (b64_char (z mod 64)) (b64encode rest))))
  end%N.

(** ** Window enumeration *)

(** [win32gui.EnumWindows(callback, results)]: the callback is run on every
    top-level window in the order the system lists them; it always returns
    [True], so the enumeration is never cut short. *)
Fixpoint enum_loop {S} (callback : HWND -> list HWND -> Prog S (list HWND))
  (hwnds : list HWND) (results : list HWND) : Prog S (list HWND) :=
  match hwnds with
  | [] => Ret results
  | hwnd :: rest =>
      results' <- callback hwnd results ;;
      enum_loop callback rest results'
  end.

Definition enum_windows {S} (callback : HWND -> list HWND -> Prog S (list HWND))
  : Prog S (list HWND) :=
  hwnds <- call EnumWindows ;;
  enum_loop callback hwnds [].

(** ** Handle registry of the Office server *)

Module Office.

Inductive Kind : Type := Word | Excel | PowerPoint.

#[global] Instance Kind_eq_dec : EqDecision Kind.
Proof. solve_decision. Defined.

(** key of the kind's slot in [office_apps] *)
Definition key (k : Kind) : string :=
  match k with Word => "word" | Excel => "excel" | PowerPoint => "powerpoint" end.

Definition progid (k : Kind) : string :=
  match k with
  | Word => "Word.Application"
  | Excel => "Excel.Application"
  | PowerPoint => "PowerPoint.Application"
  end.

Definition title (k : Kind) : string :=
  match k with Word => "Word" | Excel => "Excel" | PowerPoint => "PowerPoint" end.

(** [office_apps]: one entry per kind, [None] when no instance is held. *)
Definition office_apps_init : gmap string (option Handle) :=
  <["word" := None]> (<["excel" := None]> (<["powerpoint" := None]> ∅)).

Abbreviation Registry := (gmap string (option Handle)).

(** [office_apps[key]]: a missing key raises KeyError *)
Definition slot_get (key : string) : Prog Registry (option Handle) :=
  Get (fun apps : Registry =>
         match apps !! key with
         | Some v => Ret v
         | None => Raise (KeyError key)
         end).

(** [office_apps[key] = v] *)
Definition slot_set (key : string) (v : option Handle) : Prog Registry unit :=
  Get (fun apps : Registry => Put (<[key := v]> apps) (Ret tt)).

(** The tail of the three [get_or_create_*] functions:
    [office_apps[key] = win32com.client.Dispatch(progid)] and the return
    of the slot just written. *)
Definition create (k : Kind) : Prog Registry Handle :=
  app <- call (Dispatch (progid k)) ;;
  slot_set (key k) (Some app) ;;;
  Ret app.

(** [get_or_create_word], [get_or_create_excel], [get_or_create_powerpoint]:
    the three functions differ in the key and the ProgID only.  The early
    [return office_apps[key]] reads the slot the probe was just made on;
    it is the [Some app] the [attempt] hands back. *)
Definition get_or_create (k : Kind) : Prog Registry Handle :=
  r <- attempt (v <- slot_get (key k) ;;
                match v with
                | Some app => call (GetVisible app) ;;; Ret (Some app)
                | None => Ret None
                end) ;;
  match r with
  | Ok (Some app) => Ret app
  | Ok None => create k
  | Err _ => slot_set (key k) None ;;; create k
  end.

Definition get_or_create_word := get_or_create Word.
Definition get_or_create_excel := get_or_create Excel.
Definition get_or_create_powerpoint := get_or_create PowerPoint.

(** [word_launch], [excel_launch], [powerpoint_launch] *)
Definition launch (k : Kind) : Prog Registry Dict :=
  catch (app <- get_or_create k ;;
         call (SetVisible app true) ;;;
         n <- call (DocsCount app) ;;
         (if Z.eqb n 0 then call (DocsAdd app) else Ret tt) ;;;
         Ret (get_success_response (title k ++ " launched successfully") []))
        (fun e => Ret (get_error_response ("Failed to launch " ++ title k)
                                          (Some (exc_str e)))).

Definition word_launch := launch Word.
Definition excel_launch := launch Excel.
Definition powerpoint_launch := launch PowerPoint.

(** the [if save:] block of the [*_close] endpoints *)
Definition save_all (app : Handle) (data : Dict) : Prog Registry unit :=
  if truthy (dict_get data "save" (JBool false))
  then docs <- call (DocsList app) ;;
       for_each docs (fun d => call (DocSave d))
  else Ret tt.

(** The body of [if office_apps[key]:] in the [*_close] endpoints.
    [request.json] is read only here; a body that is not a JSON object
    makes [data.get] raise and is an [Err] answer of [RequestJson]. *)
Definition release (k : Kind) (app : Handle) : Prog Registry unit :=
  body <- call RequestJson ;;
  save_all app (match body with Some d => d | None => [] end) ;;;
  call (Quit app) ;;;
  slot_set (key k) None.

(** [word_close], [excel_close], [powerpoint_close].  A COM object is
    always truthy, so [if office_apps[key]:] tests for [None]. *)
Definition close (k : Kind) : Prog Registry Dict :=
  catch (v <- slot_get (key k) ;;
         match v with
         | Some app => release k app
         | None => Ret tt
         end ;;;
         Ret (get_success_response (title k ++ " closed") []))
        (fun e => Ret (get_error_response ("Failed to close " ++ title k)
                                          (Some (exc_str e)))).

Definition word_close := close Word.
Definition excel_close := close Excel.
Definition powerpoint_close := close PowerPoint.

(** One turn of the loop of [shutdown]. *)
Definition shutdown_app (app_name : string) : Prog Registry unit :=
  catch (v <- slot_get app_name ;;
         match v with
         | Some app => call (Quit app) ;;; slot_set app_name None
         | None => Ret tt
         end)
        (fun _ => Ret tt).

(** [shutdown] *)
Definition shutdown : Prog Registry Dict :=
  for_each ["word"; "excel"; "powerpoint"] shutdown_app ;;;
  func <- call_ WerkzeugShutdownFunc ;;
  (if (func : bool) then call CallShutdownFunc else Ret tt) ;;;
  Ret [("success", JBool true); ("message", JStr "Server shutting down")].

(** The requests that assign [office_apps].  Every other endpoint of the
    server starts with [get_or_create_*] and never names [office_apps]
    again, so [OpAcquire] stands for all of them; [health_check] only
    reads the slots. *)
Inductive Op : Type :=
| OpAcquire (k : Kind)
| OpLaunch (k : Kind)
| OpClose (k : Kind)
| OpShutdown.

(** the kind a request is about; [shutdown] is about all of them *)
Definition op_kind (op : Op) : option Kind :=
  match op with
  | OpAcquire k | OpLaunch k | OpClose k => Some k
  | OpShutdown => None
  end.

Definition exec (op : Op) : Prog Registry unit :=
  match op with
  | OpAcquire k => get_or_create k ;;; Ret tt
  | OpLaunch k => launch k ;;; Ret tt
  | OpClose k => close k ;;; Ret tt
  | OpShutdown => shutdown ;;; Ret tt
  end.

(** *** Window locator, positioner and capture chain

    These functions do not touch [office_apps]; they are written for any
    globals [S]. *)

(** the [enum_callback] of [find_window_by_class_or_title]; an empty or
    missing pattern is falsy and never matches *)
Definition enum_callback {casing : StrLower} {S} (class_name : string)
  (title_pattern : option string) (hwnd : HWND) (results : list HWND)
  : Prog S (list HWND) :=
  visible <- call (IsWindowVisible hwnd) ;;
  if (visible : bool)
  then window_title <- call (GetWindowText hwnd) ;;
       window_class <- call (GetClassName hwnd) ;;
       if (negb (String.eqb class_name "") && contains_ci class_name window_class)%bool
       then Ret (results ++ [hwnd])%list
       else
         match title_pattern with
         | Some t =>
             if (negb (String.eqb t "") && contains_ci t window_title)%bool
             then Ret (results ++ [hwnd])%list
             else Ret results
         | None => Ret results
         end
  else Ret results.

(** [find_window_by_class_or_title] *)
Definition find_window_by_class_or_title {casing : StrLower} {S}
  (class_name : string) (title_pattern : option string) : Prog S (option HWND) :=
  hwnd <- call (FindWindow class_name) ;;
  if negb (Z.eqb hwnd 0) then Ret (Some hwnd)
  else
    result <- enum_windows (enum_callback class_name title_pattern) ;;
    match result with
    | first :: _ => Ret (Some first)
    | [] => Ret None
    end.

Definition SW_MAXIMIZE : Z := 3.
Definition SW_RESTORE : Z := 9.
Definition SWP_SHOWWINDOW : Z := 64.
Definition SRCCOPY : Z := 13369376.

(** [buffer = io.BytesIO(); img.save(buffer, format='PNG');
     return base64.b64encode(buffer.getvalue()).decode('utf-8')] *)
Definition save_png_base64 {S} (img : Image) : Prog S string :=
  png <- call (ImageSavePNG img) ;;
  Ret (b64encode png).

(** The positioning at the head of [capture_window_screenshot], lines
    117-154, block by block. *)

(** "Restore window if minimized" *)
Definition restore_window {S} (hwnd : HWND) : Prog S unit :=
  call (ImportModule "ctypes") ;;;
  call (ShowWindow hwnd SW_RESTORE) ;;;
  call_ (Sleep 100).

(** "Move window to primary monitor" *)
Definition move_to_primary {S} (hwnd : HWND) : Prog S unit :=
  r0 <- call (GetWindowRect hwnd) ;;
  let width := rect_width r0 in
  let height := rect_height r0 in
  call (SetWindowPos hwnd 0 50 50 (Z.min width 1600) (Z.min height 900)
                     SWP_SHOWWINDOW) ;;;
  call_ (Sleep 200).

(** "Now maximize on primary monitor" *)
Definition maximize_window {S} (hwnd : HWND) : Prog S unit :=
  call (ShowWindow hwnd SW_MAXIMIZE) ;;;
  call_ (Sleep 300).

(** "Bring window to front" *)
Definition bring_to_front {S} (hwnd : HWND) : Prog S unit :=
  catch (call (SetForegroundWindow hwnd)) (fun _ => Ret tt) ;;;
  call_ (Sleep 500).

(** The blocks in order, with the rectangle read after maximizing and the
    one read last.  [None] is the early [return None] on invalid
    dimensions. *)
Definition make_capturable {S} (hwnd : HWND) : Prog S (option Rect) :=
  restore_window hwnd ;;;
  move_to_primary hwnd ;;;
  maximize_window hwnd ;;;
  r1 <- call (GetWindowRect hwnd) ;;
  if (Z.leb (rect_width r1) 0 || Z.leb (rect_height r1) 0)%bool
  then call_ (Print "Invalid window dimensions") ;;; Ret None
  else
    bring_to_front hwnd ;;;
    r2 <- call (GetWindowRect hwnd) ;;
    Ret (Some r2).

(** [left >= 0 and top >= 0 and right <= primary["width"] and
     bottom <= primary["height"]] *)
Definition within_primary (rect : Rect) (primary : Monitor) : bool :=
  (Z.leb 0 (r_left rect) && Z.leb 0 (r_top rect) &&
   Z.leb (r_right rect) (m_width primary) &&
   Z.leb (r_bottom rect) (m_height primary))%bool.

(** the [monitor] strategy 1 grabs *)
Definition mss_region (rect : Rect) (primary : Monitor) : Monitor :=
  if within_primary rect primary
  then mkMonitor (r_left rect) (r_top rect) (rect_width rect) (rect_height rect)
  else primary.

(** [sct.monitors[1]] *)
Definition second {S} (monitors : list Monitor) : Prog S Monitor :=
  match monitors with
  | _ :: primary :: _ => Ret primary
  | _ => Raise IndexError
  end.

(** The body of [with mss.mss() as sct:].  The image is built with
    [Image.frombytes("RGB", sct_img.size, sct_img.bgra, "raw", "BGRX")],
    from the size and the bytes of the screenshot mss hands back. *)
Definition mss_capture {S} (rect : Rect) : Prog S string :=
  monitors <- call MssMonitors ;;
  primary <- second monitors ;;
  let monitor := mss_region rect primary in
  call_ (Print "MSS capturing") ;;;
  sct_img <- call (MssGrab monitor) ;;
  pixels <- call (ImageFromBytes (shot_size sct_img) (shot_bgra sct_img)) ;;
  save_png_base64 (mkImage (shot_size sct_img) pixels).

(** Strategy 1, the body of the first inner [try]: mss.  [with] closes
    the session on every way out. *)
Definition strategy_mss {S} (rect : Rect) : Prog S string :=
  call (ImportModule "mss") ;;;
  call MssOpen ;;;
  r <- attempt (mss_capture rect) ;;
  call_ MssClose ;;;
  lift r.

(** Strategy 2, the body of the second inner [try]: pyautogui. *)
Definition strategy_pyautogui {S} (rect : Rect) : Prog S string :=
  call (ImportModule "pyautogui") ;;;
  screen <- call PyAutoGuiSize ;;
  let screen_width := fst (screen : Z * Z) in
  let screen_height := snd (screen : Z * Z) in
  let cap_left := Z.max 0 (r_left rect) in
  let cap_top := Z.max 0 (r_top rect) in
  let cap_width := Z.min (rect_width rect) (screen_width - cap_left) in
  let cap_height := Z.min (rect_height rect) (screen_height - cap_top) in
  screenshot <- call (PyAutoGuiScreenshot (cap_left, cap_top, cap_width, cap_height)) ;;
  save_png_base64 screenshot.

(** Strategy 3, the code after the two inner [try] statements:
    PrintWindow, and BitBlt when it refuses or raises. *)
Definition strategy_printwindow {S} (hwnd : HWND) (rect : Rect) : Prog S string :=
  let width := rect_width rect in
  let height := rect_height rect in
  hwnd_dc <- call (GetWindowDC hwnd) ;;
  mfc_dc <- call (CreateDCFromHandle hwnd_dc) ;;
  save_dc <- call (CreateCompatibleDC mfc_dc) ;;
  save_bitmap <- call CreateBitmap ;;
  call (CreateCompatibleBitmap save_bitmap mfc_dc width height) ;;;
  call (SelectObject save_dc save_bitmap) ;;;
  catch (hdc <- call (GetSafeHdc save_dc) ;;
         result <- call (PrintWindow hwnd hdc 2) ;;
         if Z.eqb result 0
         then call (BitBlt save_dc width height mfc_dc SRCCOPY)
         else Ret tt)
        (fun _ => call (BitBlt save_dc width height mfc_dc SRCCOPY)) ;;;
  bmp_info <- call (GetInfo save_bitmap) ;;
  bmp_str <- call (GetBitmapBits save_bitmap) ;;
  pixels <- call (ImageFromBuffer bmp_info bmp_str) ;;
  handle <- call (GetHandle save_bitmap) ;;
  call (DeleteObject handle) ;;;
  call (DeleteDC save_dc) ;;;
  call (DeleteDC mfc_dc) ;;;
  call (ReleaseDC hwnd hwnd_dc) ;;;
  save_png_base64 (mkImage bmp_info pixels).

(** what the handlers of the first inner [try] print *)
Definition mss_failed {S} (e : Exc) : Prog S unit :=
  match e with
  | ImportError _ => call_ (Print "mss not available, trying pyautogui")
  | _ => call_ (Print "mss screenshot failed") ;;; call_ (Print "traceback")
  end.

(** Lines 156-245 of [capture_window_screenshot]: the three strategies in
    order.  An exception of the third leaves the chain and reaches the
    outer handler of the function. *)
Definition capture_chain {S} (hwnd : HWND) (rect : Rect) : Prog S string :=
  r1 <- attempt (strategy_mss rect) ;;
  match r1 with
  | Ok image => Ret image
  | Err e1 =>
      mss_failed e1 ;;;
      r2 <- attempt (strategy_pyautogui rect) ;;
      match r2 with
      | Ok image => Ret image
      | Err _ =>
          call_ (Print "pyautogui screenshot failed") ;;;
          strategy_printwindow hwnd rect
      end
  end.

(** the outer [except Exception as e] of [capture_window_screenshot] *)
Definition screenshot_error {S} (e : Exc) : Prog S (option string) :=
  call_ (Print "Screenshot error") ;;; call_ (Print "traceback") ;;; Ret None.

(** The capture of a rectangle already read: the chain under the outer
    handler. *)
Definition capture {S} (hwnd : HWND) (rect : Rect) : Prog S (option string) :=
  catch (image <- capture_chain hwnd rect ;; Ret (Some image)) screenshot_error.

(** [capture_window_screenshot] *)
Definition capture_window_screenshot {S} (hwnd : HWND) : Prog S (option string) :=
  catch (r <- make_capturable hwnd ;;
         match r with
         | None => Ret None
         | Some rect => image <- capture_chain hwnd rect ;; Ret (Some image)
         end)
        screenshot_error.

End Office.

(** ** Browser server *)

Module Browser.

(** The module globals [browser], [browser_type] and [HAS_WIN32] (set once
    when the module is imported). *)
Record Globals : Type := mkGlobals
  { browser : option Session;
    browser_type : string;
    HAS_WIN32 : bool }.

Definition globals_init (has_win32 : bool) : Globals :=
  mkGlobals None "chrome" has_win32.

Definition set_browser (b : option Session) : Prog Globals unit :=
  Get (fun g => Put (mkGlobals b (browser_type g) (HAS_WIN32 g)) (Ret tt)).

Definition set_browser_type (t : string) : Prog Globals unit :=
  Get (fun g => Put (mkGlobals (browser g) t (HAS_WIN32 g)) (Ret tt)).

(** [for path in paths: if os.path.exists(path): return path] *)
Fixpoint first_existing {S} (paths : list string) : Prog S (option string) :=
  match paths with
  | [] => Ret None
  | p :: ps =>
      e <- call_ (PathExists p) ;;
      if (e : bool) then Ret (Some p) else first_existing ps
  end.

(** [find_chrome_path] *)
Definition find_chrome_path {S} : Prog S (option string) :=
  p1 <- call_ (ExpandVars "%ProgramFiles%\Google\Chrome\Application\chrome.exe") ;;
  p2 <- call_ (ExpandVars "%ProgramFiles(x86)%\Google\Chrome\Application\chrome.exe") ;;
  p3 <- call_ (ExpandVars "%LocalAppData%\Google\Chrome\Application\chrome.exe") ;;
  first_existing [p1 : string; p2 : string; p3 : string].

(** [find_edge_path] *)
Definition find_edge_path {S} : Prog S (option string) :=
  p1 <- call_ (ExpandVars "%ProgramFiles%\Microsoft\Edge\Application\msedge.exe") ;;
  p2 <- call_ (ExpandVars "%ProgramFiles(x86)%\Microsoft\Edge\Application\msedge.exe") ;;
  first_existing [p1 : string; p2 : string].

(** truthiness of an [Optional[str]] *)
Definition path_truthy (p : option string) : bool :=
  match p with Some s => negb (String.eqb s "") | None => false end.

(** the [callback] of [bring_window_to_front] *)
Definition title_callback {casing : StrLower} {S}
  (window_title_contains : string) (hwnd : HWND) (results : list HWND) : Prog S (list HWND) :=
  visible <- call (IsWindowVisible hwnd) ;;
  if (visible : bool)
  then t <- call (GetWindowText hwnd) ;;
       if contains_ci window_title_contains t
       then Ret (results ++ [hwnd])%list
       else Ret results
  else Ret results.

Definition SW_SHOW : Z := 5.
Definition SW_RESTORE : Z := 9.

(** the [if foreground_thread != target_thread:] of "Method 3" *)
Definition foreground_from {S} (foreground_thread target_thread : Z)
  (hwnd : HWND) : Prog S unit :=
  if negb (Z.eqb foreground_thread target_thread)
  then call (AttachThreadInput foreground_thread target_thread true) ;;;
       call (SetForegroundWindow hwnd) ;;;
       call (AttachThreadInput foreground_thread target_thread false)
  else call (SetForegroundWindow hwnd).

(** the body of the inner [try] of "Method 3", the thread attach trick *)
Definition attach_trick {S} (hwnd : HWND) : Prog S unit :=
  call (ImportModule "win32process") ;;;
  call (ImportModule "win32api") ;;;
  foreground_hwnd <- call GetForegroundWindow ;;
  fg <- call (GetWindowThreadProcessId foreground_hwnd) ;;
  tg <- call (GetWindowThreadProcessId hwnd) ;;
  foreground_from (fst (fg : Z * Z)) (fst (tg : Z * Z)) hwnd.

(** "Method 3" of [bring_window_to_front]: the trick, and the plain
    SetForegroundWindow when anything in it raises. *)
Definition set_foreground_attached {S} (hwnd : HWND) : Prog S unit :=
  catch (attach_trick hwnd) (fun _ => call (SetForegroundWindow hwnd)).

(** the body of [if results:] in [bring_window_to_front] *)
Definition raise_window {S} (hwnd : HWND) : Prog S bool :=
  catch (iconic <- call (IsIconic hwnd) ;;
         (if (iconic : bool)
          then call (ShowWindow hwnd SW_RESTORE) ;;; Ret tt
          else Ret tt) ;;;
         call (ShowWindow hwnd SW_SHOW) ;;;
         call (BringWindowToTop hwnd) ;;;
         set_foreground_attached hwnd ;;;
         Ret true)
        (fun _ => call_ (Print "[bring_window_to_front] Error") ;;; Ret false).

(** [bring_window_to_front] *)
Definition bring_window_to_front {casing : StrLower}
  (window_title_contains : string) : Prog Globals bool :=
  g <- get_state ;;
  if negb (HAS_WIN32 g) then Ret false
  else
    results <- enum_windows (title_callback window_title_contains) ;;
    match results with
    | hwnd :: _ => raise_window hwnd
    | [] => Ret false
    end.

Definition chrome_args (headless : bool) : list string :=
  ((if headless then ["--headless=new"] else []) ++
   ["--no-first-run"; "--no-default-browser-check"; "--disable-popup-blocking";
    "--disable-extensions"; "--start-maximized"; "--disable-gpu";
    "--disable-dev-shm-usage"; "--no-sandbox"])%list.

Definition edge_args (headless : bool) : list string :=
  ((if headless then ["--headless=new"] else []) ++
   ["--no-first-run"; "--no-default-browser-check"; "--disable-popup-blocking";
    "--start-maximized"; "--disable-gpu"])%list.

(** [str.title] of the two values [browser_type] takes *)
Definition type_title (t : string) : string :=
  if String.eqb t "chrome" then "Chrome" else "Edge".

(** the end of [browser_launch], after a browser was started *)
Definition launched {casing : StrLower} (headless : JVal) : Prog Globals Dict :=
  (if negb (truthy headless)
   then call_ (Sleep 500) ;;;
        g <- get_state ;;
        bring_window_to_front
          (if String.eqb (browser_type g) "chrome" then "Chrome" else "Edge") ;;;
        Ret tt
   else Ret tt) ;;;
  g <- get_state ;;
  Ret (get_success_response (type_title (browser_type g) ++ " launched successfully")
         [("browser", JStr (browser_type g)); ("headless", headless)]).

(** [browser_launch].  The logging capabilities set on the options are
    left out of the constructor calls. *)
Definition browser_launch {casing : StrLower} : Prog Globals Dict :=
  catch (body <- call RequestJson ;;
         let data := match body with Some d => d | None => [] end in
         let headless := dict_get data "headless" (JBool false) in
         let preferred_browser := dict_get data "browser" (JStr "chrome") in
         call_ (Print "[launch] Starting browser launch") ;;;
         g <- get_state ;;
         match browser g with
         | Some b => catch (call (BrowserQuit b)) (fun _ => Ret tt) ;;;
                     set_browser None
         | None => Ret tt
         end ;;;
         chrome <- (if is_str preferred_browser "chrome"
                    then p <- find_chrome_path ;; Ret (path_truthy p)
                    else Ret false) ;;
         if (chrome : bool)
         then call_ (Print "[launch] Chrome found, setting up options...") ;;;
              call_ (Print
                "[launch] Starting Chrome browser (Selenium built-in driver manager)...") ;;;
              b <- call (WebdriverChrome (chrome_args (truthy headless))) ;;
              set_browser (Some b) ;;;
              set_browser_type "chrome" ;;;
              call_ (Print "[launch] Chrome started successfully!") ;;;
              launched headless
         else
           p <- find_edge_path ;;
           if path_truthy p
           then b <- call (WebdriverEdge (edge_args (truthy headless))) ;;
                set_browser (Some b) ;;;
                set_browser_type "edge" ;;;
                launched headless
           else Ret (get_error_response "No browser found"
                       (Some "Neither Chrome nor Edge is installed")))
        (fun e => Ret (get_error_response "Failed to launch browser"
                                          (Some (exc_str e)))).

(** [browser_close] *)
Definition browser_close : Prog Globals Dict :=
  catch (g <- get_state ;;
         match browser g with
         | Some b => call (BrowserQuit b) ;;; set_browser None
         | None => Ret tt
         end ;;;
         Ret (get_success_response "Browser closed" []))
        (fun e => Ret (get_error_response "Failed to close browser"
                                          (Some (exc_str e)))).

(** the [if full_page:] block of [browser_screenshot] *)
Definition resize_to_page (b : Session) : Prog Globals unit :=
  total_height <- call (ExecuteScript b "return document.body.scrollHeight") ;;
  total_width <- call (ExecuteScript b "return document.body.scrollWidth") ;;
  call (SetWindowSize b (Z.max total_width 1920) (Z.max total_height 1080)) ;;;
  call_ (Sleep 500) ;;;
  Ret tt.

(** "Take screenshot" and the response, the end of [browser_screenshot] *)
Definition take_screenshot (b : Session) : Prog Globals Dict :=
  screenshot_base64 <- call (GetScreenshotAsBase64 b) ;;
  url <- call (CurrentUrl b) ;;
  t <- call (Title b) ;;
  Ret (get_success_response "Screenshot captured"
         [("image", JStr screenshot_base64); ("format", JStr "png");
          ("encoding", JStr "base64"); ("url", JStr url);
          ("title", JStr t)]).

(** [request.args.get('full_page', 'false').lower() == 'true'] *)
Definition is_full_page (arg : option string) : bool :=
  String.eqb (lower (match arg with Some a => a | None => "false" end)) "true".

(** [browser_screenshot] *)
Definition browser_screenshot : Prog Globals Dict :=
  catch (g <- get_state ;;
         match browser g with
         | None => Ret (get_error_response "Browser not running"
                          (Some "Use /browser/launch first"))
         | Some b =>
             arg <- call (RequestArg "full_page") ;;
             (if is_full_page arg then resize_to_page b else Ret tt) ;;;
             take_screenshot b
         end)
        (fun e => Ret (get_error_response "Failed to take screenshot"
                                          (Some (exc_str e)))).

End Browser.

(** ** A scripted environment

    One concrete environment, to run the programs on.  Its world counts
    the handles it has given out and keeps the size of the browser
    window;
    the rectangle of the Office window follows [SetWindowPos]
    and maximizing; everything else is answered from the script. *)

Record Script : Type := mkScript
  { sc_stale : Handle -> bool;        (* reading [Visible] raises *)
    sc_quit_fails : Handle -> bool;   (* [Quit] raises *)
    sc_save_fails : bool;             (* [Save] raises *)
    sc_dispatch_fails : bool;
    sc_json : option Dict;            (* [request.json] *)
    sc_arg : option string;           (* [request.args.get] *)
    sc_docs : list Doc;
    sc_foreground_fails : bool;       (* [SetForegroundWindow] raises *)
    sc_windows : list (HWND * (string * string * bool)); (* class, title, visible *)
    sc_find : string -> HWND;         (* [FindWindow] *)
    sc_threads : HWND -> Z;
    sc_modules : string -> bool;      (* importable *)
    sc_monitors : list Monitor;
    sc_grab_fails : bool;
    sc_gdi_fails : bool;              (* [GetWindowDC] raises *)
    sc_png : list Byte.byte;          (* what the PNG encoder writes *)
    sc_screen : Z * Z;
    sc_paths : string -> bool;        (* [os.path.exists] *)
    sc_scroll : Z * Z }.              (* scrollWidth, scrollHeight *)

Record World : Type := mkWorld
  { next_id : Z;
    window_size : Z * Z;   (* of the browser window *)
    window_rect : Rect }.  (* of the Office window *)

Definition fresh (w : World) : World :=
  mkWorld (next_id w + 1) (window_size w) (window_rect w).

Fixpoint window_info (ws : list (HWND * (string * string * bool))) (hwnd : HWND)
  : option (string * string * bool) :=
  match ws with
  | [] => None
  | (h, info) :: ws' => if Z.eqb h hwnd then Some info else window_info ws' hwnd
  end.

Definition or_error {A} (fails : bool) (a : A) : res A :=
  if fails then Err (Error "failed") else Ok a.

Definition sim (sc : Script) : Env World :=
  fun c w =>
    match c as c0 return Resp c0 * World with
    | Print _ | Sleep _ | MssClose => (tt, w)
    | WerkzeugShutdownFunc => (false, w)
    | ImportModule m =>
        (if sc_modules sc m then Ok tt else Err (ImportError m), w)
    | CallShutdownFunc => (Ok tt, w)
    | RequestJson => (Ok (sc_json sc), w)
    | RequestArg _ => (Ok (sc_arg sc), w)
    | Dispatch _ => (or_error (sc_dispatch_fails sc) (next_id w), fresh w)
    | GetVisible app => (or_error (sc_stale sc app) true, w)
    | SetVisible app _ | DocsAdd app => (or_error (sc_stale sc app) tt, w)
    | DocSave _ => (or_error (sc_save_fails sc) tt, w)
    | Quit app => (or_error (sc_quit_fails sc app) tt, w)
    | DocsCount app => (or_error (sc_stale sc app) (Z.of_nat (List.length (sc_docs sc))), w)
    | DocsList app => (or_error (sc_stale sc app) (sc_docs sc), w)
    | ShowWindow _ cmd =>
        (Ok 1, if Z.eqb cmd 3
               then mkWorld (next_id w) (window_size w)
                      (mkRect 0 0 (fst (sc_screen sc)) (snd (sc_screen sc)))
               else w)
    | SetWindowPos _ _ x y cx cy _ =>
        (Ok 1, mkWorld (next_id w) (window_size w) (mkRect x y (x + cx) (y + cy)))
    | PrintWindow _ _ _ => (Ok 1, w)
    | GetWindowRect _ => (Ok (window_rect w), w)
    | SetForegroundWindow _ => (or_error (sc_foreground_fails sc) tt, w)
    | BringWindowToTop _ | AttachThreadInput _ _ _ => (Ok tt, w)
    | FindWindow cls => (Ok (sc_find sc cls), w)
    | GetForegroundWindow => (Ok 0, w)
    | EnumWindows => (Ok (map fst (sc_windows sc)), w)
    | IsWindowVisible hwnd =>
        (Ok (match window_info (sc_windows sc) hwnd with
             | Some (_, _, v) => v | None => false end), w)
    | IsIconic _ => (Ok false, w)
    | GetWindowText hwnd =>
        (Ok (match window_info (sc_windows sc) hwnd with
             | Some (_, t, _) => t | None => "" end), w)
    | GetClassName hwnd =>
        (match window_info (sc_windows sc) hwnd with
         | Some (cls, _, _) => Ok cls
         | None => Err (Error "Invalid window handle") end, w)
    | GetWindowThreadProcessId hwnd => (Ok (sc_threads sc hwnd, 0), w)
    | GetWindowDC _ => (or_error (sc_gdi_fails sc) (next_id w), fresh w)
    | CreateDCFromHandle _ | CreateCompatibleDC _ | CreateBitmap
    | GetSafeHdc _ | GetHandle _ => (Ok (next_id w), fresh w)
    | CreateCompatibleBitmap _ _ _ _ | SelectObject _ _ | BitBlt _ _ _ _ _
    | DeleteObject _ | DeleteDC _ | ReleaseDC _ _ => (Ok tt, w)
    | GetInfo _ => (Ok (rect_width (window_rect w), rect_height (window_rect w)), w)
    | GetBitmapBits _ => (Ok [], w)
    | MssOpen => (Ok tt, w)
    | MssMonitors => (Ok (sc_monitors sc), w)
    | MssGrab m =>
        (or_error (sc_grab_fails sc) (mkScreenShot (m_width m, m_height m) []), w)
    | ImageFromBytes _ data | ImageFromBuffer _ data => (Ok data, w)
    | ImageSavePNG _ => (Ok (sc_png sc), w)
    | PyAutoGuiSize => (Ok (sc_screen sc), w)
    | PyAutoGuiScreenshot (_, _, cw, ch) => (Ok (mkImage (cw, ch) []), w)
    | ExpandVars p => (p, w)
    | PathExists p => (sc_paths sc p, w)
    | WebdriverChrome _ | WebdriverEdge _ => (Ok (next_id w), fresh w)
    | BrowserQuit _ => (Ok tt, w)
    | SetWindowSize _ width height =>
        (Ok tt, mkWorld (next_id w) (width, height) (window_rect w))
    | ExecuteScript _ js =>
        (Ok (if String.eqb js "return document.body.scrollWidth"
             then fst (sc_scroll sc) else snd (sc_scroll sc)), w)
    | GetScreenshotAsBase64 _ => (Ok (b64encode (sc_png sc)), w)
    | CurrentUrl _ => (Ok "about:blank", w)
    | Title _ => (Ok "", w)
    end.

(** the first eight bytes of every PNG file *)
Definition png_signature : list Byte.byte :=
  [Byte.x89; Byte.x50; Byte.x4e; Byte.x47; Byte.x0d; Byte.x0a; Byte.x1a; Byte.x0a].

(** a script for a 1920x1080 primary display, in which the listed things
    go wrong *)
Definition script (stale quit_fails : Handle -> bool) (save_fails : bool)
  (json : option Dict) (arg : option string) (docs : list Doc)
  (foreground_fails : bool) (modules : string -> bool)
  (grab_fails gdi_fails : bool) : Script :=
  {| sc_stale := stale;
     sc_quit_fails := quit_fails;
     sc_save_fails := save_fails;
     sc_dispatch_fails := false;
     sc_json := json;
     sc_arg := arg;
     sc_docs := docs;
     sc_foreground_fails := foreground_fails;
     sc_windows := [(11, ("Shell_TrayWnd", "", true));
                    (12, ("OpusApp", "Report.docx - Word", true))];
     sc_find := fun _ => 0;
     sc_threads := fun hwnd => hwnd;
     sc_modules := modules;
     sc_monitors := [mkMonitor 0 0 3840 1080; mkMonitor 0 0 1920 1080];
     sc_grab_fails := grab_fails;
     sc_gdi_fails := gdi_fails;
     sc_png := png_signature;
     sc_screen := (1920, 1080);
     sc_paths := fun _ => true;
     sc_scroll := (1200, 5000) |}.

Definition nobody : Handle -> bool := fun _ => false.
Definition everything : string -> bool := fun _ => true.
Definition inside : Rect := mkRect 100 100 1380 820.

(** nothing goes wrong *)
Definition calm : Script :=
  script nobody nobody false None None [] false everything false false.

(** the application behind handle 7 has been killed *)
Definition killed7 : Script :=
  script (Z.eqb 7) (Z.eqb 7) false None None [] false everything false false.

(** the document of the running application cannot be saved, and the
    request asks to save *)
Definition unsaved : Script :=
  script nobody nobody true (Some [("save", JBool true)]) None [3]
         false everything false false.

(** mss is not installed *)
Definition without_mss : Script :=
  script nobody nobody false None None [] false
         (fun m => negb (String.eqb m "mss")) false false.

(** win32process is not installed *)
Definition without_win32process : Script :=
  script nobody nobody false None None [] false
         (fun m => negb (String.eqb m "win32process")) false false.

(** no capture library is installed and the window gives no device
    context *)
Definition blind : Script :=
  script nobody nobody false None None [] false
         (fun m => negb (String.eqb m "mss" || String.eqb m "pyautogui")) false true.

(** the request asks for a full-page screenshot *)
Definition full_page : Script :=
  script nobody nobody false None (Some "True") [] false everything false false.

(** a 1280x720 window inside the primary display *)
Definition world0 : World := mkWorld 1 (1280, 720) inside.

(** [office_apps] with handle 7 in the slot of Word *)
Definition apps7 : gmap string (option Handle) :=
  <["word" := Some 7]> Office.office_apps_init.

(** ** Vocabulary of the statements *)

(** [p] has no assignment to a global on any path *)
Fixpoint keeps_state {S A} (p : Prog S A) : Prop :=
  match p with
  | Ret _ | Raise _ => True
  | Get k => forall s, keeps_state (k s)
  | Put _ _ => False
  | Vis c k => forall x, keeps_state (k x)
  end.

(** [apps'] is [apps] or [apps] with the slot [key] assigned *)
Definition slot_written (key : string) (apps apps' : gmap string (option Handle))
  : Prop :=
  apps' = apps \/ exists v, apps' = <[key := v]> apps.

(** the PNG encoder of the environment never writes an empty file (a
    PNG file starts with its eight-byte signature) *)
Definition writes_png {W} (env : Env W) : Prop :=
  forall (img : Image) (w : W) (png : list Byte.byte),
    fst (env (ImageSavePNG img) w) = Ok png -> png <> [].

(** The capture chain as the specification words it: the strategies are
    tried in order, each with what is logged when it fails; the first one
    that produces a non-empty image ends the chain, and the capture fails
    when none is left. *)
Fixpoint try_in_order {S} (strategies : list (Prog S string * (Exc -> Prog S unit)))
  : Prog S (option string) :=
  match strategies with
  | [] => Ret None
  | (strategy, log) :: rest =>
      r <- attempt strategy ;;
      match r with
      | Ok image => if String.eqb image "" then try_in_order rest
                    else Ret (Some image)
      | Err e => log e ;;; try_in_order rest
      end
  end.

(** the three strategies of [capture_window_screenshot] and their
    handlers *)
Definition strategies {S} (hwnd : HWND) (rect : Rect)
  : list (Prog S string * (Exc -> Prog S unit)) :=
  [(Office.strategy_mss rect, Office.mss_failed);
   (Office.strategy_pyautogui rect,
    fun _ => call_ (Print "pyautogui screenshot failed"));
   (Office.strategy_printwindow hwnd rect,
    fun _ => call_ (Print "Screenshot error") ;;; call_ (Print "traceback"))].

(** every result [p] can return satisfies [Q] *)
Definition returns {S A W} (env : Env W) (Q : A -> Prop) (p : Prog S A) : Prop :=
  forall (s : S) (w : W) (a : A), out_res (run env p s w) = Ok a -> Q a.

(** the calls that construct an application instance *)
Definition constructs (c : Call) : bool :=
  match c with
  | Dispatch _ | WebdriverChrome _ | WebdriverEdge _ => true
  | _ => false
  end.

(** the calls of the thread attach trick *)
Definition attaches (c : Call) : bool :=
  match c with
  | AttachThreadInput _ _ _ => true
  | _ => false
  end.

Definition sets_foreground (c : Call) : bool :=
  match c with
  | SetForegroundWindow _ => true
  | _ => false
  end.

(** a 1920x1080 window that fills the primary display *)
Definition full_hd : World := mkWorld 1 (1280, 720) (mkRect 0 0 1920 1080).

(** What the window manager shows while a lookup runs: the top-level
    windows in the order it lists them, and the visibility, title and
    class name of each. *)
Record Desktop : Type := mkDesktop
  { top_level : list HWND;
    visible : HWND -> bool;
    title_of : HWND -> string;
    class_of : HWND -> string }.

(** the environment answers the window queries from [d], in every world *)
Definition shows {W} (env : Env W) (d : Desktop) : Prop :=
  (forall w, fst (env EnumWindows w) = Ok (top_level d)) /\
  (forall hwnd w, In hwnd (top_level d) ->
     fst (env (IsWindowVisible hwnd) w) = Ok (visible d hwnd) /\
     fst (env (GetWindowText hwnd) w) = Ok (title_of d hwnd) /\
     fst (env (GetClassName hwnd) w) = Ok (class_of d hwnd)).

(** a pattern that was supplied: neither missing nor empty *)
Definition supplied (pattern : string) : bool := negb (String.eqb pattern "").

(** The match of the specification: a visible window whose class name or
    title contains the supplied pattern, whatever the case of the
    letters. *)
Definition matches {casing : StrLower} (d : Desktop) (class_name : string)
  (title_pattern : option string) (hwnd : HWND) : bool :=
  (visible d hwnd &&
   ((supplied class_name && contains_ci class_name (class_of d hwnd)) ||
    match title_pattern with
    | Some t => supplied t && contains_ci t (title_of d hwnd)
    | None => false
    end))%bool.

(** the desktop of the scripted environment *)
Definition desktop_of (sc : Script) : Desktop :=
  mkDesktop (map fst (sc_windows sc))
    (fun hwnd => match window_info (sc_windows sc) hwnd with
                 | Some (_, _, v) => v | None => false end)
    (fun hwnd => match window_info (sc_windows sc) hwnd with
                 | Some (_, t, _) => t | None => "" end)
    (fun hwnd => match window_info (sc_windows sc) hwnd with
                 | Some (cls, _, _) => cls | None => "" end).

(** the calls that resize the browser window *)
Definition resizes (c : Call) : bool :=
  match c with
  | SetWindowSize _ _ _ => true
  | _ => false
  end.

(** the calls that quit one *)
Definition quits (c : Call) : bool :=
  match c with
  | Quit _ | BrowserQuit _ => true
  | _ => false
  end.

(** ** The other endpoints of the browser server *)

Module BrowserEndpoints.
Import Browser.

(** what every page endpoint answers while [browser] is [None] *)
Definition not_running : Dict :=
  get_error_response "Browser not running" (Some "Use /browser/launch first").

(** [shutdown] of the browser server.  A WebDriver object is always
    truthy, so [if browser:] tests for [None]. *)
Definition shutdown : Prog Globals Dict :=
  catch (g <- get_state ;;
         match browser g with
         | Some b => call (BrowserQuit b) ;;; set_browser None
         | None => Ret tt
         end)
        (fun _ => Ret tt) ;;;
  func <- call_ WerkzeugShutdownFunc ;;
  (if (func : bool) then call CallShutdownFunc else Ret tt) ;;;
  Ret [("success", JBool true); ("message", JStr "Server shutting down")].

(** [browser_get_info] *)
Definition browser_get_info : Prog Globals Dict :=
  catch (g <- get_state ;;
         match browser g with
         | None => Ret not_running
         | Some b =>
             url <- call (CurrentUrl b) ;;
             t <- call (Title b) ;;
             Ret (get_success_response "Page info retrieved"
                    [("url", JStr url); ("title", JStr t)])
         end)
        (fun e => Ret (get_error_response "Failed to get page info"
                                          (Some (exc_str e)))).

(** [browser_focus] *)
Definition browser_focus {casing : StrLower} : Prog Globals Dict :=
  catch (g <- get_state ;;
         match browser g with
         | None => Ret not_running
         | Some _ =>
             let window_name :=
               if String.eqb (browser_type g) "chrome" then "Chrome" else "Edge" in
             success <- bring_window_to_front window_name ;;
             if (success : bool)
             then Ret (get_success_response "Browser window focused" [])
             else Ret (get_error_response "Failed to focus window"
                         (Some "Window not found or win32gui not available"))
         end)
        (fun e => Ret (get_error_response "Failed to focus browser"
                                          (Some (exc_str e)))).

End BrowserEndpoints.

(** ** Formatting code of the Office endpoints

    The pieces of the document endpoints that compute rather than call:
    the colour conversion of the [*_set_font], [excel_set_border],
    [excel_set_fill] and [powerpoint_set_background] endpoints, the column
    arithmetic of [excel_delete_column], [normalize_text], and the loops
    over the cells of [word_add_table] and [excel_write_range]. *)

(** an exception of the first computation ends the second *)
Definition res_bind {A B} (r : res A) (f : A -> res B) : res B :=
  match r with Ok a => f a | Err e => Err e end.

Module Formatting.

Section Colors.

(** [int(s, base)] of the interpreter on a string: the number [s] writes
    in that base, or ValueError. *)
Variable int_of_str : string -> Z -> res Z.

(** [s.lstrip('#')] *)
Fixpoint lstrip_hash (s : string) : string :=
  match s with
  | String "#" s' => lstrip_hash s'
  | _ => s
  end.

(** [tuple(int(hex_color[i:i+2], 16) for i in (0, 2, 4))]; a slice that
    reaches beyond the end is cut short, as [substring] is *)
Definition rgb (hex_color : string) : res (Z * Z * Z) :=
  res_bind (int_of_str (substring 0 2 hex_color) 16) (fun r =>
  res_bind (int_of_str (substring 2 2 hex_color) 16) (fun g =>
  res_bind (int_of_str (substring 4 2 hex_color) 16) (fun b =>
  Ok (r, g, b)))).

(** [int(color)] *)
Definition int_of (color : JVal) : res Z :=
  match color with
  | JInt z => Ok z
  | JBool b => Ok (if b then 1 else 0)
  | JStr s => int_of_str s 10
  | JNull => Err (Error "int() argument must be a string, a bytes-like object or a real number, not 'NoneType'")
  end.

(** [isinstance(color, str) and color.startswith('#')] *)
Definition is_hex (color : JVal) : option string :=
  match color with
  | JStr s => if String.prefix "#" s then Some s else None
  | _ => None
  end.

(** [color_int] of [word_set_font], [excel_set_font], [excel_set_border]
    and [excel_set_fill] *)
Definition color_int (color : JVal) : res Z :=
  match is_hex color with
  | Some s =>
      res_bind (rgb (lstrip_hash s)) (fun '(r, g, b) =>
      Ok (r + Z.shiftl g 8 + Z.shiftl b 16))
  | None => int_of color
  end.

(** [color_int] of [powerpoint_set_font] and [powerpoint_set_background] *)
Definition powerpoint_color_int (color : JVal) : res Z :=
  match is_hex color with
  | Some s =>
      res_bind (rgb (lstrip_hash s)) (fun '(r, g, b) =>
      Ok (b + Z.shiftl g 8 + Z.shiftl r 16))
  | None => int_of color
  end.

End Colors.

(** [str.upper] on the ASCII letters *)
Definition upper_ascii (c : ascii) : ascii :=
  let n := N_of_ascii c in
  if (N.leb 97 n && N.leb n 122)%bool then ascii_of_N (n - 32) else c.

Fixpoint upper (s : string) : string :=
  match s with
  | EmptyString => EmptyString
  | String c s' => String (upper_ascii c) (upper s')
  end.

Definition ord (c : ascii) : Z := Z.of_N (N_of_ascii c).
Definition chr (n : Z) : ascii := ascii_of_N (Z.to_N n).

(** [for char in chars: col_num = col_num * 26 + (ord(char) - ord('A') + 1)] *)
Fixpoint col_num_loop (chars : string) (col_num : Z) : Z :=
  match chars with
  | EmptyString => col_num
  | String char rest =>
      col_num_loop rest (col_num * 26 + (ord char - ord "A" + 1))
  end.

(** [while end_col_num > 0:
       end_col_num, remainder = divmod(end_col_num - 1, 26)
       end_col = chr(65 + remainder) + end_col] *)
Equations end_col_loop (end_col_num : Z) (end_col : string) : string
  by wf (Z.to_nat end_col_num) lt :=
end_col_loop n acc with Z_lt_dec 0 n := {
  | left _ => end_col_loop ((n - 1) / 26)
                (String (chr (65 + (n - 1) mod 26)) acc)
  | right _ => acc }.
Next Obligation.
  intros. assert ((n - 1) / 26 < n) by (apply Z.div_lt_upper_bound; lia).
  assert (0 <= (n - 1) / 26) by (apply Z.div_pos; lia). lia.
Qed.

(** "Convert column letter to end column" of [excel_delete_column]: the
    [end_col] of the range [column:end_col] that is deleted *)
Definition end_col (column : string) (count : Z) : string :=
  let col_num := col_num_loop (upper column) 0 in
  let end_col_num := col_num + count - 1 in
  end_col_loop end_col_num "".

(** [s.replace(old, new)] for an [old] of the two characters [a], [b]
    and a [new] of one: the occurrences are taken from the left and do
    not overlap *)
Fixpoint replace2 (a b new : ascii) (s : string) : string :=
  match s with
  | EmptyString => EmptyString
  | String c s' =>
      match s' with
      | String c' s'' =>
          if (Ascii.eqb c a && Ascii.eqb c' b)%bool
          then String new (replace2 a b new s'')
          else String c (replace2 a b new s')
      | EmptyString => String c EmptyString
      end
  end.

Section Cells.
Context {S : Type}.

(** [html.unescape] and [str] of the interpreter *)
Variable html_unescape : string -> string.
Variable str : JVal -> string.

(** [normalize_text]: backslash followed by n, t or r becomes the
    character it names, then the HTML entities are decoded *)
Definition normalize_text (text : string) : string :=
  html_unescape
    (replace2 "\" "r" "013"
       (replace2 "\" "t" "009"
          (replace2 "\" "n" "010" text))).

(** [table.Cell(row, col).Range.Text = text], a COM assignment *)
Variable set_cell_text : Z -> Z -> string -> Prog S unit.

(** the inner loop of "Fill in values if provided" in [word_add_table],
    entered at column index [j] *)
Fixpoint fill_row (cols i j : Z) (row_data : list JVal) : Prog S unit :=
  match row_data with
  | [] => Ret tt
  | cell_value :: rest =>
      if Z.geb j cols then Ret tt
      else set_cell_text (i + 1) (j + 1) (normalize_text (str cell_value)) ;;;
           fill_row cols i (j + 1) rest
  end.

(** the outer loop, entered at row index [i] *)
Fixpoint fill_rows (rows cols i : Z) (values : list (list JVal)) : Prog S unit :=
  match values with
  | [] => Ret tt
  | row_data :: rest =>
      if Z.geb i rows then Ret tt
      else fill_row cols i 0 row_data ;;;
           fill_rows rows cols (i + 1) rest
  end.

(** "Fill in values if provided" of [word_add_table], for [values] a
    list of lists; a missing or empty [values] is falsy *)
Definition fill_table (rows cols : Z) (values : list (list JVal)) : Prog S unit :=
  match values with
  | [] => Ret tt
  | _ => fill_rows rows cols 0 values
  end.

(** [start_range = ws.Range(start_cell)] with its [Row] and [Column],
    and [ws.Cells(row, col).Value = value] *)
Variable range_row_column : string -> Prog S (Z * Z).
Variable set_cell_value : Z -> Z -> JVal -> Prog S unit.

Fixpoint write_row (start_row start_col i j : Z) (row_data : list JVal)
  : Prog S unit :=
  match row_data with
  | [] => Ret tt
  | value :: rest =>
      set_cell_value (start_row + i) (start_col + j) value ;;;
      write_row start_row start_col i (j + 1) rest
  end.

Fixpoint write_rows (start_row start_col i : Z) (values : list (list JVal))
  : Prog S unit :=
  match values with
  | [] => Ret tt
  | row_data :: rest =>
      write_row start_row start_col i 0 row_data ;;;
      write_rows start_row start_col (i + 1) rest
  end.

(** The part of [excel_write_range] from [rows = len(values)] to the
    loops, for [values] a list of lists; it hands back the [rows] and
    [cols] the response reports. *)
Definition write_range (start_cell : string) (values : list (list JVal))
  : Prog S (Z * Z) :=
  let rows := Z.of_nat (List.length values) in
  let cols := match values with
              | first :: _ => Z.of_nat (List.length first)
              | [] => 0
              end in
  (if (Z.ltb 0 rows && Z.ltb 0 cols)%bool
   then start <- range_row_column start_cell ;;
        write_rows (fst start) (snd start) 0 values
   else Ret tt) ;;;
  Ret (rows, cols).

End Cells.

End Formatting.

(** ** More of the scripted environment *)

(** the scripted environment with a window that has no extent, whatever
    is done to it *)
Definition collapsed (sc : Script) : Env World :=
  fun c w =>
    match c as c0 return Resp c0 * World with
    | GetWindowRect _ => (Ok (mkRect 0 0 0 0), w)
    | c' => sim sc c' w
    end.

(** the value of a hexadecimal digit *)
Definition hex_value (c : ascii) : option Z :=
  let n := N_of_ascii c in
  if (N.leb 48 n && N.leb n 57)%bool then Some (Z.of_N (n - 48))
  else if (N.leb 97 n && N.leb n 102)%bool then Some (Z.of_N (n - 87))
  else if (N.leb 65 n && N.leb n 70)%bool then Some (Z.of_N (n - 55))
  else None.

(** an [int(s, base)] that reads two hexadecimal digits and nothing
    else *)
Definition int_hex_pair (s : string) (base : Z) : res Z :=
  match s with
  | String a (String b EmptyString) =>
      match hex_value a, hex_value b with
      | Some x, Some y =>
          if Z.eqb base 16 then Ok (16 * x + y)
          else Err (Error "invalid literal for int()")
      | _, _ => Err (Error "invalid literal for int()")
      end
  | _ => Err (Error "invalid literal for int()")
  end.

(** a table kept as the list of the assignments made to its cells *)
Definition assign_cell {A} (row col : Z) (v : A) : Prog (list (Z * Z * A)) unit :=
  Get (fun cells => Put (cells ++ [(row, col, v)])%list (Ret tt)).

(** Chrome is installed under Program Files (x86) only *)
Definition chrome_x86 : Script :=
  {| sc_stale := nobody;
     sc_quit_fails := nobody;
     sc_save_fails := false;
     sc_dispatch_fails := false;
     sc_json := Some [("headless", JBool true)];
     sc_arg := None;
     sc_docs := [];
     sc_foreground_fails := false;
     sc_windows := [(21, ("Chrome_WidgetWin_1", "New Tab - Google Chrome", true))];
     sc_find := fun _ => 0;
     sc_threads := fun hwnd => hwnd;
     sc_modules := everything;
     sc_monitors := [mkMonitor 0 0 1920 1080; mkMonitor 0 0 1920 1080];
     sc_grab_fails := false;
     sc_gdi_fails := false;
     sc_png := png_signature;
     sc_screen := (1920, 1080);
     sc_paths :=
       String.eqb "%ProgramFiles(x86)%\Google\Chrome\Application\chrome.exe";
     sc_scroll := (1200, 5000) |}.

(** ** More vocabulary *)

(** What the environment may answer to each call. *)
Definition Answers : Type := forall c : Call, Resp c -> Prop.

Definition any_answer : Answers := fun _ _ => True.

(** every answer of [env], in every world, is one that [R] allows *)
Definition obeys {W} (env : Env W) (R : Answers) : Prop :=
  forall (c : Call) (w : W), R c (fst (env c w)).

(** [always R p Q s tr]: started with globals [s] after the calls [tr],
    and whatever the environment answers within [R], [p] ends with a
    result, globals and calls made so far that satisfy [Q]. *)
Fixpoint always {S A} (R : Answers) (p : Prog S A)
    (Q : res A -> S -> list Call -> Prop) (s : S) (tr : list Call) : Prop :=
  match p with
  | Ret a => Q (Ok a) s tr
  | Raise e => Q (Err e) s tr
  | Get k => always R (k s) Q s tr
  | Put s' k => always R k Q s' tr
  | Vis c k => forall x : Resp c, R c x -> always R (k x) Q s (tr ++ [c])%list
  end.

(** the files of the machine: what [os.path.expandvars] makes of a path
    and which paths exist *)
Definition filesystem (expand : string -> string) (exists_ : string -> bool)
  : Answers :=
  fun c =>
    match c as c0 return Resp c0 -> Prop with
    | ExpandVars p => fun x => x = expand p
    | PathExists p => fun x => x = exists_ p
    | _ => fun _ => True
    end.

(** the window [hwnd] has no extent: every rectangle read for it has a
    width or a height that is not positive *)
Definition no_extent (hwnd : HWND) : Answers :=
  fun c =>
    match c as c0 return Resp c0 -> Prop with
    | GetWindowRect h =>
        fun x => h = hwnd ->
                 forall r, x = Ok r -> rect_width r <= 0 \/ rect_height r <= 0
    | _ => fun _ => True
    end.

(** the screen pyautogui reports *)
Definition screen_size (size : Z * Z) : Answers :=
  fun c =>
    match c as c0 return Resp c0 -> Prop with
    | PyAutoGuiSize => fun x => x = Ok size
    | _ => fun _ => True
    end.

(** the window manager shows [d] *)
Definition desktop (d : Desktop) : Answers :=
  fun c =>
    match c as c0 return Resp c0 -> Prop with
    | EnumWindows => fun x => x = Ok (top_level d)
    | IsWindowVisible hwnd =>
        fun x => In hwnd (top_level d) -> x = Ok (visible d hwnd)
    | GetWindowText hwnd =>
        fun x => In hwnd (top_level d) -> x = Ok (title_of d hwnd)
    | GetClassName hwnd =>
        fun x => In hwnd (top_level d) -> x = Ok (class_of d hwnd)
    | _ => fun _ => True
    end.

(** no application refuses to quit *)
Definition quit_succeeds : Answers :=
  fun c =>
    match c as c0 return Resp c0 -> Prop with
    | Quit _ | BrowserQuit _ => fun x => x = Ok tt
    | _ => fun _ => True
    end.

(** the request body *)
Definition request_json (body : option Dict) : Answers :=
  fun c =>
    match c as c0 return Resp c0 -> Prop with
    | RequestJson => fun x => x = Ok body
    | _ => fun _ => True
    end.

(** mss lists the monitors [ms] *)
Definition monitors_listed (ms : list Monitor) : Answers :=
  fun c =>
    match c as c0 return Resp c0 -> Prop with
    | MssMonitors => fun x => x = Ok ms
    | _ => fun _ => True
    end.

(** a screenshot of mss has the size of the region asked for *)
Definition grab_sized : Answers :=
  fun c =>
    match c as c0 return Resp c0 -> Prop with
    | MssGrab m =>
        fun x => forall shot, x = Ok shot ->
                              shot_size shot = (m_width m, m_height m)
    | _ => fun _ => True
    end.

(** mss can be imported and opened *)
Definition mss_available : Answers :=
  fun c =>
    match c as c0 return Resp c0 -> Prop with
    | ImportModule name => fun x => name = "mss" -> x = Ok tt
    | MssOpen => fun x => x = Ok tt
    | _ => fun _ => True
    end.

(** the handles [office_apps] holds under [keys], in that order *)
Definition held (apps : gmap string (option Handle)) (keys : list string)
  : list Handle :=
  omap (fun key => match apps !! key with
                   | Some (Some app) => Some app
                   | _ => None
                   end) keys.

(** the calls that take pixels *)
Definition takes_pixels (c : Call) : bool :=
  match c with
  | MssGrab _ | PyAutoGuiScreenshot _ | PrintWindow _ _ _ | BitBlt _ _ _ _ _ => true
  | _ => false
  end.

(** the calls that look at or act on the windows of the desktop *)
Definition on_desktop (c : Call) : bool :=
  match c with
  | EnumWindows | IsWindowVisible _ | GetWindowText _ | IsIconic _
  | ShowWindow _ _ | BringWindowToTop _ | SetForegroundWindow _
  | GetForegroundWindow | GetWindowThreadProcessId _
  | AttachThreadInput _ _ _ => true
  | _ => false
  end.

(** the calls that show or raise the window [hwnd] *)
Definition raises (hwnd : HWND) (c : Call) : bool :=
  match c with
  | ShowWindow h _ | BringWindowToTop h | SetForegroundWindow h => Z.eqb h hwnd
  | _ => false
  end.

(** the window [bring_window_to_front] looks for: visible, with a title
    that contains the pattern whatever the case of the letters *)
Definition titled {casing : StrLower} (d : Desktop) (pattern : string) (hwnd : HWND)
  : bool :=
  (visible d hwnd && contains_ci pattern (title_of d hwnd))%bool.

(** two hexadecimal digits read as one number *)
Definition reads_hex_pairs (int_of_str : string -> Z -> res Z) : Prop :=
  forall (a b : ascii) (x y : Z),
    hex_value a = Some x -> hex_value b = Some y ->
    int_of_str (String a (String b "")) 16 = Ok (16 * x + y).

(** six characters followed by [rest] *)
Definition hex6 (r1 r2 g1 g2 b1 b2 : ascii) (rest : string) : string :=
  String r1 (String r2 (String g1 (String g2 (String b1 (String b2 rest))))).

(** [s] behind [n] hash signs *)
Fixpoint hashes (n : nat) (s : string) : string :=
  match n with O => s | S n' => String "#" (hashes n' s) end.

Definition is_letter (c : ascii) : bool :=
  let n := N_of_ascii c in
  ((N.leb 65 n && N.leb n 90) || (N.leb 97 n && N.leb n 122))%bool.

Fixpoint letters_only (s : string) : bool :=
  match s with
  | EmptyString => true
  | String c s' => (is_letter c && letters_only s')%bool
  end.

(** a capital letter, A to Z *)
Definition is_capital (c : ascii) : bool :=
  let n := N_of_ascii c in (N.leb 65 n && N.leb n 90)%bool.

Fixpoint capitals_only (s : string) : bool :=
  match s with
  | EmptyString => true
  | String c s' => (is_capital c && capitals_only s')%bool
  end.

(** the cells of the first [rows] rows and [cols] columns of [values],
    row by row, numbered from [(r0, c0)] *)
Definition cells_from {A} (r0 c0 : Z) (values : list (list A))
  : list (Z * Z * A) :=
  concat (imap (fun i row =>
                  imap (fun j v => (r0 + Z.of_nat i, c0 + Z.of_nat j, v)) row)
               values).

Definition table_cells {A} (rows cols : Z) (values : list (list A))
  : list (Z * Z * A) :=
  cells_from 1 1 (map (take (Z.to_nat cols)) (take (Z.to_nat rows) values)).

(** no path of [p] makes a call that [P] selects *)
Fixpoint never_calls {S A} (P : Call -> bool) (p : Prog S A) : Prop :=
  match p with
  | Ret _ | Raise _ => True
  | Get k => forall s, never_calls P (k s)
  | Put _ k => never_calls P k
  | Vis c k => P c = false /\ forall x, never_calls P (k x)
  end.

(** [tr'] is [tr] followed by calls that [P] does not select *)
Definition extends (P : Call -> bool) (tr tr' : list Call) : Prop :=
  exists ext, tr' = (tr ++ ext)%list /\ existsb P ext = false.

(** What a run of [browser_launch] from the globals [g] leaves: the
    response [resp], the globals [g'] and the calls [tr]. *)
Definition launch_outcome (g : Browser.Globals) (resp : Dict)
    (g' : Browser.Globals) (tr : list Call) : Prop :=
  Browser.HAS_WIN32 g' = Browser.HAS_WIN32 g /\
  (List.length (List.filter constructs tr) <= 1)%nat /\
  (is_success resp = true ->
   existsb constructs tr = true /\ exists b, Browser.browser g' = Some b) /\
  (forall b0, Browser.browser g = Some b0 ->
   existsb constructs tr = true ->
   [RequestJson; Print "[launch] Starting browser launch"; BrowserQuit b0]
     `prefix_of` tr) /\
  (resp = get_error_response "No browser found"
            (Some "Neither Chrome nor Edge is installed") ->
   Browser.browser g' = None).

(** the calls so far hold no constructor, and the session held at the
    start, if any, was asked to quit *)
Definition quit_first (g : Browser.Globals) (tr : list Call) : Prop :=
  existsb constructs tr = false /\
  forall b0, Browser.browser g = Some b0 ->
    [RequestJson; Print "[launch] Starting browser launch"; BrowserQuit b0]
      `prefix_of` tr.

(** the calls made for the window of the browser: the wait and the calls
    on the desktop *)
Definition window_step (c : Call) : bool :=
  match c with
  | Sleep _ => true
  | _ => on_desktop c
  end.

(** what the loop of [shutdown] has done once it is through the keys
    [done] *)
Definition quit_done (R : Answers) (apps : gmap string (option Handle)) (done : list string)
    (apps' : gmap string (option Handle)) (tr : list Call) : Prop :=
  List.filter quits tr = map Quit (held apps done) /\
  (forall key, ~ In key done -> apps' !! key = apps !! key) /\
  (forall key, apps' !! key = apps !! key \/
               apps' !! key = Some None /\ exists app, apps !! key = Some (Some app)) /\
  ((forall app x, R (Quit app) x -> x = Ok tt) ->
   forall key, In key done -> apps !! key <> None -> apps' !! key = Some None).

(** the window refuses to print itself: [PrintWindow] answers 0 or
    raises *)
Definition print_refused (hwnd : HWND) : Answers :=
  fun c =>
    match c as c0 return Resp c0 -> Prop with
    | PrintWindow h _ _ => fun x => h = hwnd -> x = Ok 0 \/ exists e, x = Err e
    | _ => fun _ => True
    end.

(** the paths [find_chrome_path] and [find_edge_path] try, before
    [os.path.expandvars] *)
Definition chrome_candidates : list string :=
  ["%ProgramFiles%\Google\Chrome\Application\chrome.exe";
   "%ProgramFiles(x86)%\Google\Chrome\Application\chrome.exe";
   "%LocalAppData%\Google\Chrome\Application\chrome.exe"].

Definition edge_candidates : list string :=
  ["%ProgramFiles%\Microsoft\Edge\Application\msedge.exe";
   "%ProgramFiles(x86)%\Microsoft\Edge\Application\msedge.exe"].

(** the scripted environment with a [FindWindow] that raises *)
Definition lookup_raises (sc : Script) : Env World :=
  fun c w =>
    match c as c0 return Resp c0 * World with
    | FindWindow _ => (Err (Error "FindWindow"), w)
    | c' => sim sc c' w
    end.

(** the queries [find_window_by_class_or_title] makes *)
Definition window_query (c : Call) : bool :=
  match c with
  | FindWindow _ | EnumWindows | IsWindowVisible _ | GetWindowText _
  | GetClassName _ => true
  | _ => false
  end.

(** the scripted environment with a window that refuses to print
    itself *)
Definition refusing (sc : Script) : Env World :=
  fun c w =>
    match c as c0 return Resp c0 * World with
    | PrintWindow _ _ _ => (Ok 0, w)
    | c' => sim sc c' w
    end.

(** the answers [env] gives, in some world *)
Definition answers_of {W} (env : Env W) : Answers :=
  fun c x => exists w, x = fst (env c w).

(** the paths of [paths] up to the first that exists *)
Fixpoint until_found (exists_ : string -> bool) (paths : list string)
  : list string :=
  match paths with
  | [] => []
  | p :: ps => p :: (if exists_ p then [] else until_found exists_ ps)
  end.

(** the assignment the loops of [word_add_table] make to one cell, and
    the one the loops of [excel_write_range] make *)
Definition set_text {S} (html_unescape : string -> string) (str : JVal -> string)
    (set_cell_text : Z -> Z -> string -> Prog S unit) (cell : Z * Z * JVal)
  : Prog S unit :=
  let '(r, c, v) := cell in
  set_cell_text r c (Formatting.normalize_text html_unescape (str v)).

Definition set_value {S} (set_cell_value : Z -> Z -> JVal -> Prog S unit)
    (cell : Z * Z * JVal) : Prog S unit :=
  let '(r, c, v) := cell in set_cell_value r c v.

(** [a] followed by [b] occurs in [s] *)
Fixpoint has_pair (a b : ascii) (s : string) : bool :=
  match s with
  | String c s' =>
      (match s' with
       | String c' _ => Ascii.eqb c a && Ascii.eqb c' b
       | EmptyString => false
       end || has_pair a b s')%bool
  | EmptyString => false
  end.

(** One pass over [s] from the left that puts a line feed, a tab or a
    carriage return in place of each backslash followed by n, t or r,
    and copies every other character. *)
Fixpoint unescaped (s : string) : string :=
  match s with
  | EmptyString => EmptyString
  | String c s' =>
      match s' with
      | String c' s'' =>
          if (Ascii.eqb c "\" && Ascii.eqb c' "n")%bool
          then String "010" (unescaped s'')
          else if (Ascii.eqb c "\" && Ascii.eqb c' "t")%bool
          then String "009" (unescaped s'')
          else if (Ascii.eqb c "\" && Ascii.eqb c' "r")%bool
          then String "013" (unescaped s'')
          else String c (unescaped s')
      | EmptyString => String c EmptyString
      end
  end.

(** [c] occurs in [s] *)
Fixpoint has_char (c : ascii) (s : string) : bool :=
  match s with
  | String c' s' => (Ascii.eqb c' c || has_char c s')%bool
  | EmptyString => false
  end.

(** * Properties *)

(** ** The interpreter *)

Section RunFacts.
Context {W : Type} (env : Env W).

Lemma run_bind {S A B} (p : Prog S A) (f : A -> Prog S B) (s : S) (w : W) :
  run env (bind p f) s w =
  let o := run env p s w in
  match out_res o with
  | Ok a => and_then o (run env (f a) (out_state o) (out_world o))
  | Err e => raised o e
  end.
Proof.
  revert s w.
  induction p as [a|e|k IH|s' k IH|c k IH]; intros s w; simpl.
  - destruct (run env (f a) s w); reflexivity.
  - reflexivity.
  - apply IH.
  - apply IH.
  - rewrite IH. simpl.
    destruct (out_res (run env (k (fst (env c w))) s (snd (env c w))));
      reflexivity.
Qed.

Lemma run_catch {S A} (p : Prog S A) (handler : Exc -> Prog S A) (s : S) (w : W) :
  run env (catch p handler) s w =
  let o := run env p s w in
  match out_res o with
  | Ok a => o
  | Err e => and_then o (run env (handler e) (out_state o) (out_world o))
  end.
Proof.
  revert s w.
  induction p as [a|e|k IH|s' k IH|c k IH]; intros s w; simpl.
  - reflexivity.
  - destruct (run env (handler e) s w); reflexivity.
  - apply IH.
  - apply IH.
  - rewrite IH. simpl.
    destruct (out_res (run env (k (fst (env c w))) s (snd (env c w))));
      reflexivity.
Qed.

Lemma run_attempt {S A} (p : Prog S A) (s : S) (w : W) :
  run env (attempt p) s w =
  let o := run env p s w in
  mkOutcome (Ok (out_res o)) (out_state o) (out_world o) (out_trace o).
Proof.
  unfold attempt. rewrite run_catch, run_bind. simpl.
  destruct (run env p s w) as [[a|e] s1 w1 tr]; simpl;
    unfold and_then; simpl; rewrite app_nil_r; reflexivity.
Qed.

(** a handler that cannot raise makes the whole [try] unable to raise *)
Lemma catch_total {S A} (p : Prog S A) (handler : Exc -> Prog S A) (s : S) (w : W) :
  (forall e s' w', is_ok (out_res (run env (handler e) s' w')) = true) ->
  is_ok (out_res (run env (catch p handler) s w)) = true.
Proof.
  intros Hh. rewrite run_catch. simpl.
  destruct (out_res (run env p s w)) eqn:E.
  - rewrite E. reflexivity.
  - simpl. apply Hh.
Qed.

Lemma keeps_state_run {S A} (p : Prog S A) (s : S) (w : W) :
  keeps_state p -> out_state (run env p s w) = s.
Proof.
  revert s w.
  induction p as [a|e|k IH|s' k IH|c k IH]; intros s w Hp; simpl in *.
  - reflexivity.
  - reflexivity.
  - apply IH, Hp.
  - contradiction.
  - apply IH, Hp.
Qed.

Lemma keeps_state_bind {S A B} (p : Prog S A) (f : A -> Prog S B) :
  keeps_state p -> (forall a, keeps_state (f a)) -> keeps_state (bind p f).
Proof.
  intros Hp Hf.
  induction p as [a|e|k IH|s' k IH|c k IH]; simpl in *; auto.
Qed.

Lemma keeps_state_catch {S A} (p : Prog S A) (handler : Exc -> Prog S A) :
  keeps_state p -> (forall e, keeps_state (handler e)) ->
  keeps_state (catch p handler).
Proof.
  intros Hp Hh.
  induction p as [a|e|k IH|s' k IH|c k IH]; simpl in *; auto.
Qed.

Lemma keeps_state_lift {S A} (r : res A) : keeps_state (@lift S A r).
Proof. destruct r; exact I. Qed.

Lemma keeps_state_for_each {S A} (l : list A) (body : A -> Prog S unit) :
  (forall x, keeps_state (body x)) -> keeps_state (for_each l body).
Proof.
  intros Hb. induction l as [|x l IH]; simpl.
  - exact I.
  - apply keeps_state_bind; auto.
Qed.

End RunFacts.

(** ** Handle registry *)

Section Registry.
Import Office.
Context {W : Type} (env : Env W).

Lemma key_inj (k k' : Kind) : key k = key k' -> k = k'.
Proof. destruct k, k'; simpl; intros H; try reflexivity; discriminate H. Qed.

Lemma run_create (k : Kind) (apps : Registry) (w : W) :
  run env (create k) apps w =
  let w' := snd (env (Dispatch (progid k)) w) in
  match fst (env (Dispatch (progid k)) w) with
  | Ok app => mkOutcome (Ok app) (<[key k := Some app]> apps) w' [Dispatch (progid k)]
  | Err e => mkOutcome (Err e) apps w' [Dispatch (progid k)]
  end.
Proof.
  unfold create. simpl.
  destruct (env (Dispatch (progid k)) w) as [[app|e] w']; reflexivity.
Qed.

(** [get_or_create_*] case by case *)
Lemma run_get_or_create (k : Kind) (apps : Registry) (w : W) :
  run env (get_or_create k) apps w =
  match apps !! key k with
  | Some (Some app) =>
      match fst (env (GetVisible app) w) with
      | Ok _ => mkOutcome (Ok app) apps (snd (env (GetVisible app) w))
                          [GetVisible app]
      | Err _ => logged (GetVisible app)
                   (run env (create k) (<[key k := None]> apps)
                        (snd (env (GetVisible app) w)))
      end
  | Some None => run env (create k) apps w
  | None => run env (create k) (<[key k := None]> apps) w
  end.
Proof.
  unfold get_or_create. rewrite run_bind, run_attempt. simpl.
  destruct (apps !! key k) as [[app|]|] eqn:Hk; simpl.
  - destruct (env (GetVisible app) w) as [[v|e] w1]; simpl.
    + reflexivity.
    + destruct (env (Dispatch (progid k)) w1) as [[app'|e'] w2]; reflexivity.
  - destruct (env (Dispatch (progid k)) w) as [[app'|e'] w2]; reflexivity.
  - destruct (env (Dispatch (progid k)) w) as [[app'|e'] w2]; reflexivity.
Qed.

(** a handle that [get_or_create_*] returns is the one in the slot *)
Lemma get_or_create_stores (k : Kind) (apps : Registry) (w : W) (app : Handle) :
  out_res (run env (get_or_create k) apps w) = Ok app ->
  out_state (run env (get_or_create k) apps w) !! key k = Some (Some app).
Proof.
  rewrite run_get_or_create.
  destruct (apps !! key k) as [[app0|]|] eqn:Hk; rewrite ?run_create.
  - destruct (env (GetVisible app0) w) as [[v|e] w1]; simpl.
    + intros [= ->]. exact Hk.
    + destruct (env (Dispatch (progid k)) w1) as [[app'|e'] w2];
        simpl; intros [= ->]. apply lookup_insert_eq.
  - simpl. destruct (env (Dispatch (progid k)) w) as [[app'|e'] w2];
      simpl; intros [= ->]. apply lookup_insert_eq.
  - simpl. destruct (env (Dispatch (progid k)) w) as [[app'|e'] w2];
      simpl; intros [= ->]. apply lookup_insert_eq.
Qed.

Lemma run_launch_create_fails (k : Kind) (apps : Registry) (w : W) (e : Exc) :
  out_res (run env (get_or_create k) apps w) = Err e ->
  out_res (run env (launch k) apps w) =
  Ok (get_error_response ("Failed to launch " ++ title k) (Some (exc_str e))).
Proof.
  intros H. unfold launch. rewrite run_catch. cbv zeta.
  rewrite run_bind. cbv zeta. rewrite H. unfold raised. simpl.
  reflexivity.
Qed.

(** C3, for the three Office kinds: when [get_or_create_*] has returned
    a handle and reading [Visible] of that handle still succeeds, the
    next call returns the same handle after that one probe, calls
    [Dispatch] not at all and leaves [office_apps] as it is. *)
Theorem acquire_twice_reuses_handle (k : Kind) (apps : Registry) (w : W)
    (app : Handle) :
  let o1 := run env (get_or_create k) apps w in
  out_res o1 = Ok app ->
  is_ok (fst (env (GetVisible app) (out_world o1))) = true ->
  let o2 := run env (get_or_create k) (out_state o1) (out_world o1) in
  out_res o2 = Ok app /\
  out_trace o2 = [GetVisible app] /\
  out_state o2 = out_state o1.
Proof.
  intros o1 Hres Hprobe o2. subst o2.
  pose proof (get_or_create_stores k apps w app Hres) as Hslot.
  fold o1 in Hslot. rewrite run_get_or_create, Hslot.
  destruct (fst (env (GetVisible app) (out_world o1))); [|discriminate Hprobe].
  simpl. auto.
Qed.

(** C4: when the slot holds a handle whose [Visible] cannot be read,
    [get_or_create_*] makes exactly two calls, the probe and a
    [Dispatch]; it returns the new handle and stores it, or raises the
    exception of [Dispatch] (never the one of the probe) with the slot
    cleared, and the launch endpoint turns that exception into its
    "Failed to launch" response. *)
Theorem stale_handle_is_replaced (k : Kind) (apps : Registry) (w : W)
    (app : Handle) (e : Exc) :
  apps !! key k = Some (Some app) ->
  fst (env (GetVisible app) w) = Err e ->
  let w1 := snd (env (GetVisible app) w) in
  let o := run env (get_or_create k) apps w in
  out_trace o = [GetVisible app; Dispatch (progid k)] /\
  match fst (env (Dispatch (progid k)) w1) with
  | Ok new =>
      out_res o = Ok new /\ out_state o = <[key k := Some new]> apps
  | Err e' =>
      out_res o = Err e' /\ out_state o = <[key k := None]> apps /\
      out_res (run env (launch k) apps w) =
      Ok (get_error_response ("Failed to launch " ++ title k)
                             (Some (exc_str e')))
  end.
Proof.
  intros Hslot Hprobe. cbv zeta.
  pose proof (run_launch_create_fails k apps w) as Hlaunch.
  rewrite run_get_or_create, Hslot, Hprobe, run_create in *.
  destruct (env (GetVisible app) w) as [r w1]. simpl in *.
  destruct (env (Dispatch (progid k)) w1) as [[new|e'] w2]; simpl in *.
  - repeat split. apply insert_insert_eq.
  - repeat split. apply Hlaunch. reflexivity.
Qed.

(** *** Release *)

Lemma is_success_error (message details : string) :
  is_success (get_error_response message (Some details)) = false.
Proof.
  unfold get_error_response. destruct (String.eqb details ""); reflexivity.
Qed.

Lemma keeps_state_save_all (app : Handle) (data : Dict) :
  keeps_state (save_all app data).
Proof.
  unfold save_all. destruct (truthy _); [|exact I].
  simpl. intros [docs|e]; simpl; [|exact I].
  apply keeps_state_for_each. intros d. simpl. intros x.
  apply keeps_state_lift.
Qed.

(** the body of a close: it ends with [Quit] and the slot cleared, or
    raises with [office_apps] as it was *)
Lemma run_release (k : Kind) (app : Handle) (apps : Registry) (w : W) :
  let o := run env (release k app) apps w in
  match out_res o with
  | Ok _ => out_state o = <[key k := None]> apps /\
            last (out_trace o) = Some (Quit app)
  | Err _ => out_state o = apps
  end.
Proof.
  unfold release. simpl.
  destruct (env RequestJson w) as [[body|e] w1]; simpl; [|reflexivity].
  rewrite run_bind. cbv zeta.
  pose proof (keeps_state_run env
                (save_all app (match body with Some d => d | None => [] end))
                apps w1 (keeps_state_save_all _ _)) as Hs.
  destruct (run env (save_all app _) apps w1) as [[[]|e] s2 w2 tr2];
    simpl in *; subst s2; [|reflexivity].
  destruct (env (Quit app) w2) as [[[]|e] w3]; simpl; [|reflexivity].
  split; [reflexivity|].
  change (last ((RequestJson :: tr2) ++ [Quit app]) = Some (Quit app)).
  apply last_snoc.
Qed.

Lemma run_slot_get (key : string) (apps : Registry) (w : W) :
  run env (slot_get key) apps w =
  match apps !! key with
  | Some v => mkOutcome (Ok v) apps w []
  | None => mkOutcome (Err (KeyError key)) apps w []
  end.
Proof. simpl. destruct (apps !! key); reflexivity. Qed.

(** [*_close] case by case *)
Lemma run_close (k : Kind) (apps : Registry) (w : W) :
  run env (close k) apps w =
  match apps !! key k with
  | Some (Some app) =>
      let o := run env (release k app) apps w in
      mkOutcome
        (Ok match out_res o with
            | Ok _ => get_success_response (title k ++ " closed") []
            | Err e => get_error_response ("Failed to close " ++ title k)
                                          (Some (exc_str e))
            end)
        (out_state o) (out_world o) (out_trace o)
  | Some None =>
      mkOutcome (Ok (get_success_response (title k ++ " closed") [])) apps w []
  | None =>
      mkOutcome (Ok (get_error_response ("Failed to close " ++ title k)
                                        (Some (exc_str (KeyError (key k))))))
                apps w []
  end.
Proof.
  unfold close. rewrite run_catch. cbv zeta.
  rewrite run_bind. cbv zeta. rewrite run_slot_get.
  destruct (apps !! key k) as [[app|]|]; try reflexivity.
  cbn [out_res out_state out_world out_trace and_then Datatypes.app].
  rewrite run_bind. cbv zeta.
  destruct (run env (release k app) apps w) as [[[]|e] s1 w1 tr1];
    unfold and_then, raised; simpl; rewrite ?app_nil_r; reflexivity.
Qed.

(** *** One slot per kind *)

Lemma slot_written_refl (key : string) (apps : Registry) :
  slot_written key apps apps.
Proof. left. reflexivity. Qed.

Lemma slot_written_frame (key : string) (apps apps' : Registry) :
  slot_written key apps apps' ->
  key ∈ dom apps ->
  dom apps' = dom apps /\ forall j, j <> key -> apps' !! j = apps !! j.
Proof.
  intros [->|[v ->]] Hdom.
  - split; [reflexivity|auto].
  - split.
    + rewrite dom_insert_L. apply subseteq_union_1_L.
      apply singleton_subseteq_l. exact Hdom.
    + intros j Hj. apply lookup_insert_ne. congruence.
Qed.

Lemma key_in_dom (k : Kind) (apps : Registry) :
  dom apps = dom office_apps_init -> key k ∈ dom apps.
Proof.
  intros ->. apply elem_of_dom. unfold office_apps_init.
  destruct k; simpl; eexists; simplify_map_eq; reflexivity.
Qed.

Lemma get_or_create_writes (k : Kind) (apps : Registry) (w : W) :
  slot_written (key k) apps (out_state (run env (get_or_create k) apps w)).
Proof.
  rewrite run_get_or_create.
  destruct (apps !! key k) as [[app0|]|] eqn:Hk; rewrite ?run_create.
  - destruct (env (GetVisible app0) w) as [[v|e] w1]; simpl.
    + left. reflexivity.
    + destruct (env (Dispatch (progid k)) w1) as [[app'|e'] w2]; simpl;
        right; eexists; [apply insert_insert_eq|reflexivity].
  - simpl. destruct (env (Dispatch (progid k)) w) as [[app'|e'] w2]; simpl;
      [right; eexists; reflexivity|left; reflexivity].
  - simpl. destruct (env (Dispatch (progid k)) w) as [[app'|e'] w2]; simpl;
      right; eexists; [apply insert_insert_eq|reflexivity].
Qed.

(** after [get_or_create_*] the launch endpoints assign no global *)
Lemma launch_state (k : Kind) (apps : Registry) (w : W) :
  out_state (run env (launch k) apps w) =
  out_state (run env (get_or_create k) apps w).
Proof.
  unfold launch. rewrite run_catch. cbv zeta. rewrite run_bind. cbv zeta.
  destruct (run env (get_or_create k) apps w) as [[app|e] s1 w1 tr1];
    cbn [out_res out_state out_world out_trace]; [|reflexivity].
  match goal with
  | |- context [run env ?p s1 w1] =>
      assert (Hrest : out_state (run env p s1 w1) = s1)
  end.
  { apply keeps_state_run. simpl. intros [[]|e]; simpl; [|exact I].
    intros [n|e]; simpl; [|exact I].
    destruct (Z.eqb n 0); simpl; [|exact I].
    intros [[]|e]; exact I. }
  unfold and_then. simpl in *.
  match goal with
  | |- context [out_res ?o] => destruct (out_res o)
  end; simpl; exact Hrest.
Qed.

Lemma close_writes (k : Kind) (apps : Registry) (w : W) :
  slot_written (key k) apps (out_state (run env (close k) apps w)).
Proof.
  rewrite run_close.
  destruct (apps !! key k) as [[app|]|]; try apply slot_written_refl.
  pose proof (run_release k app apps w) as H. cbv zeta in *.
  destruct (out_res (run env (release k app) apps w)); simpl.
  - right. exists None. apply H.
  - left. exact H.
Qed.

Lemma shutdown_app_writes (app_name : string) (apps : Registry) (w : W) :
  slot_written app_name apps (out_state (run env (shutdown_app app_name) apps w)).
Proof.
  unfold shutdown_app. simpl.
  destruct (apps !! app_name) as [[app|]|]; simpl;
    try apply slot_written_refl.
  destruct (env (Quit app) w) as [[[]|e] w1]; simpl.
  - right. eexists. reflexivity.
  - left. reflexivity.
Qed.

Lemma for_each_invariant {A} (P : Registry -> Prop) (l : list A)
    (body : A -> Prog Registry unit) (apps : Registry) (w : W) :
  (forall x s w', In x l -> P s -> P (out_state (run env (body x) s w'))) ->
  P apps -> P (out_state (run env (for_each l body) apps w)).
Proof.
  revert apps w. induction l as [|x l IH]; intros apps w Hbody HP; simpl.
  - exact HP.
  - rewrite run_bind. cbv zeta.
    pose proof (Hbody x apps w (or_introl eq_refl) HP) as Hx.
    destruct (run env (body x) apps w) as [[[]|e] s1 w1 tr1]; simpl in *.
    + apply IH; [|exact Hx]. intros y s w' Hy. apply Hbody. right. exact Hy.
    + exact Hx.
Qed.

Lemma state_then_ret {A} (p : Prog Registry A) (apps : Registry) (w : W) :
  out_state (run env (p ;;; Ret tt) apps w) = out_state (run env p apps w).
Proof.
  rewrite run_bind. cbv zeta.
  destruct (run env p apps w) as [[a|e] s1 w1 tr1]; reflexivity.
Qed.

Lemma shutdown_dom (apps : Registry) (w : W) :
  dom apps = dom office_apps_init ->
  dom (out_state (run env shutdown apps w)) = dom office_apps_init.
Proof.
  intros Hdom. unfold shutdown. rewrite run_bind. cbv zeta.
  pose proof (for_each_invariant (fun s => dom s = dom office_apps_init)
                ["word"; "excel"; "powerpoint"]%string shutdown_app apps w) as Hloop.
  assert (Hin : forall k0 : string,
             In k0 ["word"; "excel"; "powerpoint"]%string ->
             exists k, k0 = key k).
  { intros k0 [ <- | [ <- | [ <- | [] ] ] ];
      [exists Word|exists Excel|exists PowerPoint]; reflexivity. }
  specialize (Hloop ltac:(
    intros x s w' Hx Hs; destruct (Hin x Hx) as [k ->];
    rewrite <- Hs;
    apply (slot_written_frame (key k) s _ (shutdown_app_writes _ s w'));
    apply key_in_dom; exact Hs) Hdom).
  destruct (run env (for_each _ shutdown_app) apps w) as [[[]|e] s1 w1 tr1];
    cbn [out_res out_state out_world out_trace raised] in *; [|exact Hloop].
  unfold and_then. cbn [out_state].
  rewrite keeps_state_run; [exact Hloop|].
  simpl. intros [|]; simpl; [|exact I]. intros [[]|e]; exact I.
Qed.

Lemma exec_writes (op : Op) (k : Kind) (apps : Registry) (w : W) :
  op_kind op = Some k ->
  slot_written (key k) apps (out_state (run env (exec op) apps w)).
Proof.
  destruct op as [k'|k'|k'|]; cbn [op_kind]; intros [= ->]; unfold exec;
    rewrite state_then_ret.
  - apply get_or_create_writes.
  - rewrite launch_state. apply get_or_create_writes.
  - apply close_writes.
Qed.

Lemma exec_dom (op : Op) (apps : Registry) (w : W) :
  dom apps = dom office_apps_init ->
  dom (out_state (run env (exec op) apps w)) = dom office_apps_init.
Proof.
  intros Hdom. destruct (op_kind op) as [k|] eqn:Hop.
  - rewrite <- Hdom.
    apply (slot_written_frame (key k)); [|apply key_in_dom, Hdom].
    apply exec_writes, Hop.
  - destruct op; try discriminate Hop.
    unfold exec. rewrite state_then_ret. apply shutdown_dom, Hdom.
Qed.

Lemma exec_frame (op : Op) (k : Kind) (apps : Registry) (w : W) :
  dom apps = dom office_apps_init ->
  out_state (run env (exec op) apps w) !! key k <> apps !! key k ->
  op_kind op = Some k \/ op = OpShutdown.
Proof.
  intros Hdom Hchanged. destruct (op_kind op) as [k'|] eqn:Hop.
  - left. f_equal. destruct (decide (k' = k)) as [Heq|Hne]; [exact Heq|].
    exfalso. apply Hchanged.
    apply (slot_written_frame (key k') apps);
      [apply exec_writes, Hop|apply key_in_dom, Hdom|].
    intros Hk. apply Hne. symmetry. apply key_inj, Hk.
  - right. destruct op; try discriminate Hop. reflexivity.
Qed.

(** C5, as amended: from a registry with the three slots, every sequence
    of requests leaves the three slots in place; a slot changes only
    under a request that acquires or closes its kind, or under
    [shutdown]; a close of a held handle that reports success has made
    [Quit] its last call and cleared the slot, and the next
    [get_or_create_*] of the kind makes one call, [Dispatch]; a close
    that reports failure leaves [office_apps] as it was. *)
Theorem registry_slots (apps : Registry) (w : W) :
  dom apps = dom office_apps_init ->
  (forall ops : list Op,
      dom (out_state (run env (for_each ops exec) apps w))
      = dom office_apps_init) /\
  (forall (op : Op) (k : Kind),
      out_state (run env (exec op) apps w) !! key k <> apps !! key k ->
      op_kind op = Some k \/ op = OpShutdown) /\
  (forall (k : Kind) (app : Handle),
      apps !! key k = Some (Some app) ->
      let o := run env (close k) apps w in
      exists r : Dict, out_res o = Ok r /\
        if is_success r
        then last (out_trace o) = Some (Quit app) /\
             out_state o = <[key k := None]> apps /\
             out_trace (run env (get_or_create k) (out_state o) (out_world o))
             = [Dispatch (progid k)]
        else out_state o = apps).
Proof.
  intros Hdom. split; [|split].
  - intros ops.
    apply (for_each_invariant (fun s => dom s = dom office_apps_init));
      [|exact Hdom].
    intros op s w' _. apply exec_dom.
  - intros op k. apply exec_frame, Hdom.
  - intros k app Hslot. cbv zeta. rewrite run_close, Hslot. cbv zeta.
    pose proof (run_release k app apps w) as Hrel. cbv zeta in Hrel.
    destruct (run env (release k app) apps w) as [[[]|e] s1 w1 tr1];
      cbn [out_res out_state out_world out_trace] in *.
    + eexists. split; [reflexivity|].
      change (is_success (get_success_response (title k ++ " closed") []))
        with true. cbv iota.
      destruct Hrel as [-> Hlast]. repeat split; [exact Hlast|].
      rewrite run_get_or_create, lookup_insert_eq, run_create.
      destruct (env (Dispatch (progid k)) w1) as [[new|e'] w2]; reflexivity.
    + eexists. split; [reflexivity|]. rewrite is_success_error. exact Hrel.
Qed.

End Registry.

Section BrowserRegistry.
Import Browser.
Context {W : Type} (env : Env W).

(** [browser_close] case by case *)
Lemma run_browser_close (g : Globals) (w : W) :
  run env browser_close g w =
  match browser g with
  | None => mkOutcome (Ok (get_success_response "Browser closed" [])) g w []
  | Some b =>
      let w' := snd (env (BrowserQuit b) w) in
      match fst (env (BrowserQuit b) w) with
      | Ok _ => mkOutcome (Ok (get_success_response "Browser closed" []))
                  (mkGlobals None (browser_type g) (HAS_WIN32 g)) w'
                  [BrowserQuit b]
      | Err e => mkOutcome (Ok (get_error_response "Failed to close browser"
                                  (Some (exc_str e))))
                   g w' [BrowserQuit b]
      end
  end.
Proof.
  unfold browser_close. simpl.
  destruct (browser g) as [b|]; simpl; [|reflexivity].
  destruct (env (BrowserQuit b) w) as [[[]|e] w1]; reflexivity.
Qed.

End BrowserRegistry.

Section Release.
Context {W : Type} (env : Env W).

(** C10, as amended: closing a kind whose slot is empty answers with
    the success response, makes no external call and leaves every
    global as it is, in the Office server and in the browser server;
    and after a close that answered with success, the same close run
    again is exactly that. *)
Theorem release_of_empty_slot :
  (forall (k : Office.Kind) (apps : Office.Registry) (w : W),
      apps !! Office.key k = Some None ->
      run env (Office.close k) apps w =
      mkOutcome (Ok (get_success_response (Office.title k ++ " closed") []))
                apps w []) /\
  (forall (g : Browser.Globals) (w : W),
      Browser.browser g = None ->
      run env Browser.browser_close g w =
      mkOutcome (Ok (get_success_response "Browser closed" [])) g w []) /\
  (forall (k : Office.Kind) (apps : Office.Registry) (w : W) (r : Dict),
      let o := run env (Office.close k) apps w in
      out_res o = Ok r -> is_success r = true ->
      run env (Office.close k) (out_state o) (out_world o) =
      mkOutcome (Ok (get_success_response (Office.title k ++ " closed") []))
                (out_state o) (out_world o) []) /\
  (forall (g : Browser.Globals) (w : W) (r : Dict),
      let o := run env Browser.browser_close g w in
      out_res o = Ok r -> is_success r = true ->
      run env Browser.browser_close (out_state o) (out_world o) =
      mkOutcome (Ok (get_success_response "Browser closed" []))
                (out_state o) (out_world o) []).
Proof.
  assert (H1 : forall (k : Office.Kind) (apps : Office.Registry) (w : W),
             apps !! Office.key k = Some None ->
             run env (Office.close k) apps w =
             mkOutcome (Ok (get_success_response (Office.title k ++ " closed") []))
                       apps w []).
  { intros k apps w H. rewrite run_close, H. reflexivity. }
  assert (H2 : forall (g : Browser.Globals) (w : W),
             Browser.browser g = None ->
             run env Browser.browser_close g w =
             mkOutcome (Ok (get_success_response "Browser closed" [])) g w []).
  { intros g w H. rewrite run_browser_close, H. reflexivity. }
  repeat split; [exact H1|exact H2| |].
  - intros k apps w r o Hres Hok. apply H1. subst o.
    rewrite run_close in *.
    destruct (apps !! Office.key k) as [[app|]|] eqn:Hslot;
      cbn [out_res out_state out_world out_trace] in *.
    + pose proof (run_release env k app apps w) as Hrel. cbv zeta in Hrel.
      destruct (out_res (run env (Office.release k app) apps w)).
      * destruct Hrel as [-> _]. apply lookup_insert_eq.
      * cbv iota in Hres. apply (f_equal succeeded) in Hres.
        cbn [succeeded] in Hres. rewrite is_success_error in Hres.
        congruence.
    + exact Hslot.
    + apply (f_equal succeeded) in Hres. cbn [succeeded] in Hres.
      rewrite is_success_error in Hres. congruence.
  - intros g w r o Hres Hok. apply H2. subst o.
    rewrite run_browser_close in *.
    destruct (Browser.browser g) as [b|] eqn:Hb; [|exact Hb].
    cbv zeta in *.
    destruct (fst (env (BrowserQuit b) w));
      cbn [out_res out_state Browser.browser] in *; [reflexivity|].
    apply (f_equal succeeded) in Hres. cbn [succeeded] in Hres.
    rewrite is_success_error in Hres. congruence.
Qed.

End Release.

(** ** Runs of the registry in the scripted environment *)

Lemma acquire_twice_reuses_handle_witness :
  let o1 := run (sim calm) (Office.get_or_create Office.Word)
                Office.office_apps_init world0 in
  let o2 := run (sim calm) (Office.get_or_create Office.Word)
                (out_state o1) (out_world o1) in
  out_res o1 = Ok 1 /\
  out_res o2 = Ok 1 /\ out_trace o2 = [GetVisible 1] /\
  out_state o2 = out_state o1.
Proof.
  split; [reflexivity|].
  exact (acquire_twice_reuses_handle (sim calm) Office.Word
           Office.office_apps_init world0 1 eq_refl eq_refl).
Defined.

(** C3 fails for the browser: [browser_launch] run twice in a row, with
    nothing killed in between, quits the session of the first run and
    constructs a second one. *)
Lemma browser_launch_twice_constructs_twice :
  let o1 := run (sim calm) (@Browser.browser_launch ascii_lower)
                (Browser.globals_init false) world0 in
  let o2 := run (sim calm) (@Browser.browser_launch ascii_lower)
                (out_state o1) (out_world o1) in
  Browser.browser (out_state o1) = Some 1 /\
  existsb quits (out_trace o2) = true /\
  existsb constructs (out_trace o2) = true /\
  Browser.browser (out_state o2) = Some 2.
Proof. repeat split; vm_compute; reflexivity. Qed.

(** the scenario of a first launch, a close and another launch: two
    instances are constructed, the first one is quit in between *)
Example word_launch_close_launch :
  let o1 := run (sim calm) Office.word_launch Office.office_apps_init world0 in
  let o2 := run (sim calm) Office.word_close (out_state o1) (out_world o1) in
  let o3 := run (sim calm) Office.word_launch (out_state o2) (out_world o2) in
  out_state o1 !! "word" = Some (Some 1) /\
  out_trace o2 = [RequestJson; Quit 1] /\
  out_state o2 !! "word" = Some None /\
  out_state o3 !! "word" = Some (Some 2) /\
  hd_error (out_trace o3) = Some (Dispatch "Word.Application").
Proof. repeat split; vm_compute; reflexivity. Qed.

Lemma stale_handle_is_replaced_witness :
  let o := run (sim killed7) (Office.get_or_create Office.Word) apps7 world0 in
  out_trace o = [GetVisible 7; Dispatch "Word.Application"] /\
  out_res o = Ok 1 /\
  out_state o = <["word" := Some 1]> apps7.
Proof.
  exact (stale_handle_is_replaced (sim killed7) Office.Word apps7 world0 7
           (Error "failed") eq_refl eq_refl).
Defined.

Lemma registry_slots_witness :
  let o := run (sim calm) (Office.close Office.Word) apps7 world0 in
  exists r : Dict, out_res o = Ok r /\
    if is_success r
    then last (out_trace o) = Some (Quit 7) /\
         out_state o = <["word" := None]> apps7 /\
         out_trace (run (sim calm) (Office.get_or_create Office.Word)
                        (out_state o) (out_world o))
         = [Dispatch "Word.Application"]
    else out_state o = apps7.
Proof.
  exact (proj2 (proj2 (registry_slots (sim calm) apps7 world0 eq_refl))
               Office.Word 7 eq_refl).
Defined.

(** C5 fails where a close fails: with a document that cannot be saved,
    [word_close] asked to save never reaches [Quit], leaves the handle in
    the slot, and the next [get_or_create_word] returns that handle after
    the probe, with no [Dispatch]. *)
Lemma failed_close_keeps_the_handle :
  let o1 := run (sim unsaved) (Office.close Office.Word) apps7 world0 in
  let o2 := run (sim unsaved) (Office.get_or_create Office.Word)
                (out_state o1) (out_world o1) in
  out_trace o1 = [RequestJson; DocsList 7; DocSave 3] /\
  out_res o1 = Ok (get_error_response "Failed to close Word" (Some "failed")) /\
  out_state o1 !! "word" = Some (Some 7) /\
  out_res o2 = Ok 7 /\
  out_trace o2 = [GetVisible 7].
Proof. repeat split; vm_compute; reflexivity. Qed.

Lemma release_of_empty_slot_witness :
  let o := run (sim calm) (Office.close Office.Word) apps7 world0 in
  run (sim calm) (Office.close Office.Word) (out_state o) (out_world o) =
  mkOutcome (Ok (get_success_response "Word closed" []))
            (out_state o) (out_world o) [].
Proof.
  exact (proj1 (proj2 (proj2 (release_of_empty_slot (sim calm))))
               Office.Word apps7 world0 _ eq_refl eq_refl).
Defined.

(** C10 fails after a close that failed: when [Quit] raises, the slot
    keeps the handle, and the second close calls [Quit] again and answers
    with the error, where a close of an empty slot makes no call and
    answers with success. *)
Lemma close_after_failed_close :
  let o1 := run (sim killed7) (Office.close Office.Word) apps7 world0 in
  let o2 := run (sim killed7) (Office.close Office.Word)
                (out_state o1) (out_world o1) in
  let empty := run (sim killed7) (Office.close Office.Word)
                   Office.office_apps_init (out_world o1) in
  out_state o1 !! "word" = Some (Some 7) /\
  out_trace o2 = [RequestJson; Quit 7] /\
  out_res o2 = Ok (get_error_response "Failed to close Word" (Some "failed")) /\
  out_trace empty = [] /\
  out_res empty = Ok (get_success_response "Word closed" []).
Proof. repeat split; vm_compute; reflexivity. Qed.

(** ** Window positioner *)

Section Positioner.
Context {W : Type} (env : Env W) {S : Type}.

(** The move of step 2 is one [SetWindowPos] to (50, 50) whose width
    and height are those of the rectangle just read, cut down to 1600
    and 900; a window no larger than 1600x900 is moved at its size. *)
Theorem move_to_primary_size (hwnd : HWND) (s : S) (w : W) (r0 : Rect) :
  fst (env (GetWindowRect hwnd) w) = Ok r0 ->
  let o := run env (Office.move_to_primary hwnd) s w in
  out_trace o !! 1%nat =
    Some (SetWindowPos hwnd 0 50 50 (Z.min (rect_width r0) 1600)
                       (Z.min (rect_height r0) 900) Office.SWP_SHOWWINDOW) /\
  (rect_width r0 <= 1600 -> rect_height r0 <= 900 ->
   out_trace o !! 1%nat =
     Some (SetWindowPos hwnd 0 50 50 (rect_width r0) (rect_height r0)
                        Office.SWP_SHOWWINDOW)).
Proof.
  intros Hrect. cbv zeta. unfold Office.move_to_primary. simpl.
  destruct (env (GetWindowRect hwnd) w) as [r w1]. simpl in *. subst r.
  simpl. split; [reflexivity|].
  intros Hw Hh. rewrite !Z.min_l by assumption. reflexivity.
Qed.

Lemma take_foreground_from (fg tg : Z) (hwnd : HWND) (s : S) (w : W) :
  let o := run env (Browser.foreground_from fg tg hwnd) s w in
  if Z.eqb fg tg
  then out_trace o = [SetForegroundWindow hwnd]
  else exists n : nat,
      (1 <= n)%nat /\
      out_trace o = take n [AttachThreadInput fg tg true;
                            SetForegroundWindow hwnd;
                            AttachThreadInput fg tg false] /\
      (is_ok (out_res o) = true -> n = 3%nat).
Proof.
  cbv zeta. unfold Browser.foreground_from.
  destruct (Z.eqb fg tg); simpl.
  - destruct (env (SetForegroundWindow hwnd) w) as [[[]|e] w1]; reflexivity.
  - destruct (env (AttachThreadInput fg tg true) w) as [[[]|e1] w1]; simpl;
      [|exists 1%nat; repeat split; [lia|discriminate]].
    destruct (env (SetForegroundWindow hwnd) w1) as [[[]|e2] w2]; simpl;
      [|exists 2%nat; repeat split; [lia|discriminate]].
    destruct (env (AttachThreadInput fg tg false) w2) as [[[]|e3] w3]; simpl;
      exists 3%nat; repeat split; lia.
Qed.

Lemma raise_window_total (hwnd : HWND) (s : S) (w : W) :
  is_ok (out_res (run env (Browser.raise_window hwnd) s w)) = true.
Proof.
  unfold Browser.raise_window. apply catch_total.
  intros e s' w'. reflexivity.
Qed.


End Positioner.

(** C7: the move of a window larger than 1600x900 does not keep its
    size, although the comment above the call says "with same size".
    For a 1920x1080 window the call is SetWindowPos(hwnd, 0, 50, 50,
    1600, 900, 0x0040), and the window is 1600x900 after the move. *)
Lemma move_shrinks_a_large_window :
  let o := run (sim calm) (Office.move_to_primary 12) tt full_hd in
  rect_width (window_rect full_hd) = 1920 /\
  rect_height (window_rect full_hd) = 1080 /\
  out_trace o =
    [GetWindowRect 12; SetWindowPos 12 0 50 50 1600 900 64; Sleep 200] /\
  rect_width (window_rect (out_world o)) = 1600 /\
  rect_height (window_rect (out_world o)) = 900.
Proof. repeat split; vm_compute; reflexivity. Qed.

Lemma move_to_primary_size_witness :
  let o := run (sim calm) (Office.move_to_primary 12) tt world0 in
  out_trace o !! 1%nat = Some (SetWindowPos 12 0 50 50 1280 720 64) /\
  rect_width (window_rect (out_world o)) = 1280 /\
  rect_height (window_rect (out_world o)) = 720.
Proof.
  split.
  - refine (proj2 (move_to_primary_size (sim calm) 12 tt world0 inside eq_refl) _ _);
      vm_compute; discriminate.
  - split; reflexivity.
Defined.

(** the thread attach trick of the browser server, and its fallback when
    win32process cannot be imported *)
Example attach_trick_in_order :
  out_trace (run (sim calm) (Browser.set_foreground_attached 12) tt world0) =
  [ImportModule "win32process"; ImportModule "win32api"; GetForegroundWindow;
   GetWindowThreadProcessId 0; GetWindowThreadProcessId 12;
   AttachThreadInput 0 12 true; SetForegroundWindow 12;
   AttachThreadInput 0 12 false].
Proof. reflexivity. Qed.

Example attach_trick_falls_back :
  out_trace (run (sim without_win32process)
                 (Browser.set_foreground_attached 12) tt world0) =
  [ImportModule "win32process"; SetForegroundWindow 12].
Proof. reflexivity. Qed.


(** ** Capture strategy chain *)

Section Capture.
Import Office.
Context {W : Type} (env : Env W) {S : Type}.

(** *** What a program can return *)

Lemma returns_any {A} (p : Prog S A) : returns env (fun _ => True) p.
Proof. intros s w a _. exact I. Qed.

Lemma returns_bind {A B} (R : A -> Prop) (Q : B -> Prop)
    (p : Prog S A) (f : A -> Prog S B) :
  returns env R p -> (forall a, R a -> returns env Q (f a)) ->
  returns env Q (bind p f).
Proof.
  intros Hp Hf s w b. rewrite run_bind. cbv zeta.
  specialize (Hp s w).
  destruct (run env p s w) as [[a|e] s1 w1 tr1]; simpl in *.
  - apply (Hf a (Hp a eq_refl)).
  - discriminate.
Qed.

Lemma returns_lift {A} (Q : A -> Prop) (r : res A) :
  (forall a, r = Ok a -> Q a) -> returns env Q (@lift S A r).
Proof.
  intros Hr s w a. destruct r as [a'|e]; simpl.
  - intros [= <-]. apply Hr. reflexivity.
  - discriminate.
Qed.

Lemma returns_attempt {A} (Q : A -> Prop) (p : Prog S A) :
  returns env Q p ->
  returns env (fun r => forall a, r = Ok a -> Q a) (attempt p).
Proof.
  intros Hp s w r. rewrite run_attempt. cbv zeta. simpl.
  intros [= <-] a Ha. apply (Hp s w a Ha).
Qed.

Lemma b64encode_nonempty (bs : list Byte.byte) :
  bs <> [] -> b64encode bs <> "".
Proof.
  destruct bs as [|a [|b [|c rest]]]; simpl; intros H; [congruence| | |];
    discriminate.
Qed.

Lemma returns_save_png (img : Image) :
  writes_png env ->
  returns env (fun image => image <> "") (@save_png_base64 S img).
Proof.
  intros Hpng s w image. unfold save_png_base64. simpl.
  pose proof (Hpng img w) as Hw.
  destruct (env (ImageSavePNG img) w) as [[png|e] w1]; simpl in *.
  - intros [= <-]. apply b64encode_nonempty, Hw. reflexivity.
  - discriminate.
Qed.

(** peels the calls off the front of a strategy *)
Ltac skip_calls :=
  repeat (cbv zeta;
          lazymatch goal with
          | |- returns _ _ (save_png_base64 _) => fail
          | |- _ => apply returns_bind with (R := fun _ => True);
                    [apply returns_any|intros ? _]
          end).

Lemma strategy_mss_nonempty (rect : Rect) :
  writes_png env ->
  returns env (fun image => image <> "") (@strategy_mss S rect).
Proof.
  intros Hpng. unfold strategy_mss.
  apply returns_bind with (R := fun _ => True); [apply returns_any|intros ? _].
  apply returns_bind with (R := fun _ => True); [apply returns_any|intros ? _].
  apply returns_bind with (R := fun r => forall a, r = Ok a -> a <> "").
  - apply returns_attempt. unfold mss_capture. skip_calls.
    apply returns_save_png, Hpng.
  - intros r Hr.
    apply returns_bind with (R := fun _ => True); [apply returns_any|intros ? _].
    apply returns_lift, Hr.
Qed.

Lemma strategy_pyautogui_nonempty (rect : Rect) :
  writes_png env ->
  returns env (fun image => image <> "") (@strategy_pyautogui S rect).
Proof.
  intros Hpng. unfold strategy_pyautogui. skip_calls.
  apply returns_save_png, Hpng.
Qed.

Lemma strategy_printwindow_nonempty (hwnd : HWND) (rect : Rect) :
  writes_png env ->
  returns env (fun image => image <> "") (@strategy_printwindow S hwnd rect).
Proof.
  intros Hpng. unfold strategy_printwindow. skip_calls.
  apply returns_save_png, Hpng.
Qed.

(** *** The chain *)

Lemma run_bind_ok {A B} (q : Prog S A) (f : A -> Prog S B) (s : S) (w : W) (a : A) :
  out_res (run env q s w) = Ok a ->
  run env (bind q f) s w =
  and_then (run env q s w)
    (run env (f a) (out_state (run env q s w)) (out_world (run env q s w))).
Proof. intros H. rewrite run_bind. cbv zeta. rewrite H. reflexivity. Qed.

(** a [try] whose body starts with a part that returns goes on, after
    that part, as the [try] of the rest *)
Lemma run_catch_seq {A B C} (q : Prog S A) (K : A -> Prog S B)
    (f : B -> Prog S C) (handler : Exc -> Prog S C) (s : S) (w : W) (a : A) :
  out_res (run env q s w) = Ok a ->
  run env (catch (bind (bind q K) f) handler) s w =
  and_then (run env q s w)
    (run env (catch (bind (K a) f) handler)
         (out_state (run env q s w)) (out_world (run env q s w))).
Proof.
  intros H. rewrite !run_catch. cbv zeta. rewrite !run_bind. cbv zeta.
  rewrite H.
  destruct (run env q s w) as [r0 s0 w0 tr0].
  cbn [out_res out_state out_world out_trace and_then].
  destruct (run env (K a) s0 w0) as [[b|e] s1 w1 tr1];
    cbn [out_res out_state out_world out_trace and_then raised].
  - destruct (run env (f b) s1 w1) as [[c|e] s2 w2 tr2];
      unfold and_then, raised; simpl; rewrite ?app_assoc; reflexivity.
  - unfold and_then, raised; simpl; rewrite ?app_assoc; reflexivity.
Qed.

Lemma run_call_ (c : Call) (s : S) (w : W) :
  out_res (run env (call_ c) s w) = Ok (fst (env c w)).
Proof. reflexivity. Qed.

Lemma run_mss_failed (e : Exc) (s : S) (w : W) :
  out_res (run env (mss_failed e) s w) = Ok tt.
Proof.
  destruct e; simpl;
    repeat match goal with
           | |- context [env ?c ?x] => destruct (env c x) as [[] ?]; simpl
           end; reflexivity.
Qed.

Lemma capture_refines (hwnd : HWND) (rect : Rect) (s : S) (w : W) :
  writes_png env ->
  run env (capture hwnd rect) s w =
  run env (try_in_order (strategies hwnd rect)) s w.
Proof.
  intros Hpng. unfold capture, capture_chain, strategies.
  cbn [try_in_order].
  rewrite (run_catch_seq _ _ _ _ s w _ (f_equal out_res (run_attempt env _ s w))).
  rewrite (run_bind_ok _ _ s w _ (f_equal out_res (run_attempt env _ s w))).
  f_equal. rewrite run_attempt. cbv zeta. cbn [out_res out_state out_world].
  pose proof (strategy_mss_nonempty rect Hpng s w) as H1.
  destruct (run env (strategy_mss rect) s w) as [[image|e1] s1 w1 tr1];
    cbn [out_res out_state out_world out_trace] in *.
  { specialize (H1 image eq_refl). apply String.eqb_neq in H1. rewrite H1.
    reflexivity. }
  clear H1.
  rewrite (run_catch_seq _ _ _ _ s1 w1 _ (run_mss_failed e1 s1 w1)).
  rewrite (run_bind_ok _ _ s1 w1 _ (run_mss_failed e1 s1 w1)).
  f_equal.
  destruct (run env (mss_failed e1) s1 w1) as [r s1' w1' tr1'].
  cbn [out_res out_state out_world out_trace].
  rewrite (run_catch_seq _ _ _ _ s1' w1' _ (f_equal out_res (run_attempt env _ s1' w1'))).
  rewrite (run_bind_ok _ _ s1' w1' _ (f_equal out_res (run_attempt env _ s1' w1'))).
  f_equal. rewrite run_attempt. cbv zeta. cbn [out_res out_state out_world].
  pose proof (strategy_pyautogui_nonempty rect Hpng s1' w1') as H2.
  destruct (run env (strategy_pyautogui rect) s1' w1') as [[image|e2] s2 w2 tr2];
    cbn [out_res out_state out_world out_trace] in *.
  { specialize (H2 image eq_refl). apply String.eqb_neq in H2. rewrite H2.
    reflexivity. }
  clear H2. cbv beta.
  rewrite (run_catch_seq _ _ _ _ s2 w2 _
             (run_call_ (Print "pyautogui screenshot failed") s2 w2)).
  rewrite (run_bind_ok _ _ s2 w2 _
             (run_call_ (Print "pyautogui screenshot failed") s2 w2)).
  f_equal. cbn [run logged out_res out_state out_world out_trace].
  rewrite run_catch, !run_bind. cbv zeta. rewrite run_attempt. cbv zeta.
  cbn [out_res out_state out_world out_trace].
  set (w3 := snd (env (Print "pyautogui screenshot failed") w2)).
  pose proof (strategy_printwindow_nonempty hwnd rect Hpng s2 w3) as H3.
  destruct (run env (strategy_printwindow hwnd rect) s2 w3) as [[image|e3] s4 w4 tr4];
    cbn [out_res out_state out_world out_trace] in *.
  - specialize (H3 image eq_refl). apply String.eqb_neq in H3. rewrite H3.
    unfold and_then; simpl. rewrite app_nil_r. reflexivity.
  - unfold and_then, raised; simpl. reflexivity.
Qed.

(** when the chain of the specification fails, every strategy was
    started, in order *)
Lemma try_in_order_exhausted (firsts : list Call)
    (l : list (Prog S string * (Exc -> Prog S unit))) :
  Forall2 (fun c pl => forall s w,
               hd_error (out_trace (run env (fst pl) s w)) = Some c) firsts l ->
  forall (s : S) (w : W),
    out_res (run env (try_in_order l) s w) = Ok None ->
    firsts `sublist_of` out_trace (run env (try_in_order l) s w).
Proof.
  induction 1 as [|c [p log] firsts l Hc _ IH]; intros s w Hnone.
  - apply sublist_nil_l.
  - cbn [try_in_order] in *.
    rewrite (run_bind_ok _ _ s w _ (f_equal out_res (run_attempt env _ s w))) in *.
    rewrite run_attempt in *. cbv zeta in *.
    specialize (Hc s w). cbn [fst] in Hc.
    destruct (run env p s w) as [r s1 w1 tr1].
    cbn [out_res out_state out_world out_trace and_then] in *.
    destruct tr1 as [|c' tr1]; [discriminate Hc|].
    injection Hc as ->. cbn [app]. apply sublist_skip.
    apply sublist_inserts_l.
    destruct r as [image|e].
    + destruct (String.eqb image ""); [apply IH, Hnone|discriminate Hnone].
    + rewrite run_bind in *. cbv zeta in *.
      destruct (run env (log e) s1 w1) as [[[]|e'] s2 w2 tr2];
        cbn [out_res out_state out_world out_trace and_then raised] in *;
        [|discriminate Hnone].
      apply sublist_inserts_l. apply IH, Hnone.
Qed.

Lemma try_in_order_nonempty (l : list (Prog S string * (Exc -> Prog S unit))) :
  returns env (fun r => forall image, r = Some image -> image <> "")
          (try_in_order l).
Proof.
  induction l as [|[p log] l IH]; cbn [try_in_order].
  - intros s w r. simpl. intros [= <-] image. discriminate.
  - apply returns_bind with (R := fun _ => True); [apply returns_any|].
    intros [image|e] _.
    + destruct (String.eqb image "") eqn:E; [exact IH|].
      intros s w r. simpl. intros [= <-] image' [= <-].
      apply String.eqb_neq, E.
    + apply returns_bind with (R := fun _ => True); [apply returns_any|].
      intros _ _. exact IH.
Qed.

Lemma try_in_order_total (l : list (Prog S string * (Exc -> Prog S unit))) :
  (forall pl e s w, In pl l -> is_ok (out_res (run env (snd pl e) s w)) = true) ->
  forall (s : S) (w : W), is_ok (out_res (run env (try_in_order l) s w)) = true.
Proof.
  induction l as [|[p log] l IH]; intros Hlog s w; cbn [try_in_order].
  - reflexivity.
  - rewrite (run_bind_ok _ _ s w _ (f_equal out_res (run_attempt env _ s w))).
    rewrite run_attempt. cbv zeta.
    cbn [out_res out_state out_world out_trace and_then].
    assert (IH' := IH (fun pl e s w H => Hlog pl e s w (or_intror H))).
    destruct (out_res (run env p s w)) as [image|e].
    + destruct (String.eqb image ""); [apply IH'|reflexivity].
    + rewrite run_bind. cbv zeta.
      pose proof (Hlog (p, log) e (out_state (run env p s w))
                    (out_world (run env p s w)) (or_introl eq_refl)) as Hl.
      cbn [snd] in Hl.
      destruct (run env (log e) _ _) as [[[]|e'] s2 w2 tr2];
        cbn [out_res out_state out_world out_trace and_then raised] in *;
        [apply IH'|discriminate Hl].
Qed.



(** [capture_window_screenshot] is the positioning followed, when it
    hands back a rectangle, by the capture of that rectangle *)
Lemma capture_window_screenshot_split (hwnd : HWND) (rect : Rect) (s : S) (w : W) :
  let m := run env (make_capturable hwnd) s w in
  out_res m = Ok (Some rect) ->
  run env (capture_window_screenshot hwnd) s w =
  and_then m (run env (capture hwnd rect) (out_state m) (out_world m)).
Proof.
  intros m Hm. subst m. unfold capture_window_screenshot, capture.
  rewrite !run_catch. cbv zeta. rewrite run_bind. cbv zeta. rewrite Hm.
  destruct (run env (make_capturable hwnd) s w) as [r0 s0 w0 tr0].
  cbn [out_res out_state out_world out_trace and_then].
  destruct (run env (image <- capture_chain hwnd rect;; Ret (Some image)) s0 w0)
    as [[r|e] s1 w1 tr1];
    unfold and_then, raised; simpl; rewrite ?app_assoc; reflexivity.
Qed.

Lemma mss_region_cases (rect : Rect) (primary : Monitor) :
  (0 <= r_left rect -> 0 <= r_top rect ->
   r_right rect <= m_width primary -> r_bottom rect <= m_height primary ->
   mss_region rect primary =
   mkMonitor (r_left rect) (r_top rect) (rect_width rect) (rect_height rect)) /\
  (r_left rect < 0 \/ r_top rect < 0 \/
   m_width primary < r_right rect \/ m_height primary < r_bottom rect ->
   mss_region rect primary = primary).
Proof.
  unfold mss_region, within_primary. split.
  - intros H1 H2 H3 H4.
    rewrite !(proj2 (Z.leb_le _ _)) by assumption. reflexivity.
  - intros H.
    destruct (Z.leb_spec 0 (r_left rect)); [|reflexivity].
    destruct (Z.leb_spec 0 (r_top rect)); [|reflexivity].
    destruct (Z.leb_spec (r_right rect) (m_width primary)); [|reflexivity].
    destruct (Z.leb_spec (r_bottom rect) (m_height primary)); [|reflexivity].
    lia.
Qed.

(** when strategy 1 returns an image, that image is what the capture
    returns, with no call after those of the strategy *)
Lemma capture_first_strategy (hwnd : HWND) (rect : Rect) (s : S) (w : W)
    (image : string) :
  let o := run env (strategy_mss rect) s w in
  out_res o = Ok image ->
  run env (capture hwnd rect) s w =
  mkOutcome (Ok (Some image)) (out_state o) (out_world o) (out_trace o).
Proof.
  intros o Himage. subst o. unfold capture, capture_chain.
  rewrite run_catch. cbv zeta. rewrite !run_bind. cbv zeta.
  rewrite run_attempt. cbv zeta.
  destruct (run env (strategy_mss rect) s w) as [r s1 w1 tr1].
  cbn [out_res out_state out_world out_trace] in *. subst r.
  cbn [out_res out_state out_world out_trace and_then run].
  unfold and_then. cbn [out_res out_state out_world out_trace].
  rewrite !app_nil_r. reflexivity.
Qed.

(** the only [MssGrab] of a trace written out is the one of [region] *)
Ltac only_grab :=
  let m := fresh "m" in
  let Hin := fresh "Hin" in
  intros m Hin; cbn [In] in Hin;
  repeat (destruct Hin as [Hin|Hin];
          [first [discriminate Hin | injection Hin as <-; reflexivity]|]);
  contradiction.


End Capture.

(** ** Runs of the capture in the scripted environment *)


(** without mss the second strategy answers; with nothing left the
    capture fails after the three strategies were started *)
Example capture_falls_back_to_pyautogui :
  let o := run (sim without_mss) (Office.capture 12 inside) tt world0 in
  out_res o = Ok (Some "iVBORw0KGgo=") /\
  out_trace o =
    [ImportModule "mss"; Print "mss not available, trying pyautogui";
     ImportModule "pyautogui"; PyAutoGuiSize;
     PyAutoGuiScreenshot (100, 100, 1280, 720);
     ImageSavePNG (mkImage (1280, 720) [])].
Proof. split; reflexivity. Qed.

Example capture_fails_after_three_strategies :
  let o := run (sim blind) (Office.capture 12 inside) tt world0 in
  out_res o = Ok None /\
  out_trace o =
    [ImportModule "mss"; Print "mss not available, trying pyautogui";
     ImportModule "pyautogui"; Print "pyautogui screenshot failed";
     GetWindowDC 12; Print "Screenshot error"; Print "traceback"].
Proof. split; reflexivity. Qed.

(** the scripted environment lists its monitors, hands back screenshots
    of the size asked for, and has mss when the script says so *)
Lemma sim_obeys_mss (sc : Script) :
  obeys (sim sc) (monitors_listed (sc_monitors sc)) /\
  obeys (sim sc) grab_sized /\
  (sc_modules sc "mss" = true -> obeys (sim sc) mss_available).
Proof.
  split; [|split].
  - intros c w0. destruct c; simpl; try exact I. reflexivity.
  - intros c w0. destruct c; simpl; try exact I.
    destruct (sc_grab_fails sc); simpl; [discriminate|].
    intros shot [= <-]. reflexivity.
  - intros Hmss c w0. destruct c; simpl; try exact I; [|reflexivity].
    intros ->. rewrite Hmss. reflexivity.
Qed.


(** the scenario of a window that starts 200 pixels left of the primary
    display: the whole 1920x1080 display is grabbed *)
Example mss_grabs_the_display_for_a_window_off_screen :
  let rect := mkRect (-200) 100 1080 820 in
  let o := run (sim calm) (Office.strategy_mss rect) tt world0 in
  In (MssGrab (mkMonitor 0 0 1920 1080)) (out_trace o) /\
  In (ImageSavePNG (mkImage (1920, 1080) [])) (out_trace o) /\
  is_ok (out_res o) = true.
Proof. vm_compute. auto 10. Qed.

(** ** Window locator *)

Section Locator.
Import Office.
Context {casing : StrLower} {W : Type} (env : Env W) {S : Type}.
Context (d : Desktop) (class_name : string) (title_pattern : option string).

Section Shown.
Hypothesis Hshows : shows env d.

(** one call of the callback appends the window when it matches *)
Lemma run_enum_callback (hwnd : HWND) (results : list HWND) (s : S) (w : W) :
  In hwnd (top_level d) ->
  let o := run env (enum_callback class_name title_pattern hwnd results) s w in
  out_res o =
    Ok (if matches d class_name title_pattern hwnd
        then (results ++ [hwnd])%list else results) /\
  out_state o = s.
Proof.
  intros Hin. cbv zeta. destruct Hshows as [_ Hq].
  unfold enum_callback, matches, supplied. simpl.
  pose proof (proj1 (Hq hwnd w Hin)) as Hv.
  destruct (env (IsWindowVisible hwnd) w) as [r w1]. simpl in Hv. subst r.
  simpl. destruct (visible d hwnd); simpl; [|split; reflexivity].
  pose proof (proj1 (proj2 (Hq hwnd w1 Hin))) as Ht.
  destruct (env (GetWindowText hwnd) w1) as [r w2]. simpl in Ht. subst r.
  simpl.
  pose proof (proj2 (proj2 (Hq hwnd w2 Hin))) as Hc.
  destruct (env (GetClassName hwnd) w2) as [r w3]. simpl in Hc. subst r.
  simpl.
  destruct (negb (String.eqb class_name "") &&
            contains_ci class_name (class_of d hwnd))%bool;
    simpl; [split; reflexivity|].
  destruct title_pattern as [t|]; simpl; [|split; reflexivity].
  destruct (negb (String.eqb t "") && contains_ci t (title_of d hwnd))%bool;
    split; reflexivity.
Qed.

(** the enumeration collects the matching windows in the order listed *)
Lemma run_enum_loop (hwnds results : list HWND) (s : S) (w : W) :
  (forall hwnd, In hwnd hwnds -> In hwnd (top_level d)) ->
  out_res (run env (enum_loop (enum_callback class_name title_pattern)
                              hwnds results) s w) =
  Ok (results ++ List.filter (matches d class_name title_pattern) hwnds)%list.
Proof.
  revert results s w.
  induction hwnds as [|hwnd hwnds IH]; intros results s w Hsub;
    cbn [enum_loop List.filter].
  - simpl. rewrite app_nil_r. reflexivity.
  - rewrite run_bind. cbv zeta.
    destruct (run_enum_callback hwnd results s w (Hsub hwnd (or_introl eq_refl)))
      as [Hres _].
    destruct (run env (enum_callback class_name title_pattern hwnd results) s w)
      as [r s1 w1 tr1].
    cbn [out_res out_state out_world out_trace and_then] in *. subst r.
    cbn [out_res out_state out_world out_trace and_then].
    rewrite IH by (intros h Hh; apply Hsub; right; exact Hh).
    destruct (matches d class_name title_pattern hwnd).
    + rewrite <- app_assoc. reflexivity.
    + reflexivity.
Qed.

(** what the lookup does while the window manager shows [d] and
    FindWindow answers *)
Lemma locate_shown (s : S) (w : W) (found : HWND) :
  fst (env (FindWindow class_name) w) = Ok found ->
  let o := run env (find_window_by_class_or_title class_name title_pattern) s w in
  (found <> 0 ->
   out_res o = Ok (Some found) /\ out_trace o = [FindWindow class_name]) /\
  (found = 0 ->
   out_res o = Ok (head (List.filter (matches d class_name title_pattern)
                                     (top_level d))) /\
   take 2 (out_trace o) = [FindWindow class_name; EnumWindows]) /\
  (found = 0 ->
   (forall hwnd, In hwnd (top_level d) ->
                 matches d class_name title_pattern hwnd = false) ->
   out_res o = Ok None).
Proof.
  intros Hfind. cbv zeta.
  assert (Hzero : found = 0 ->
            out_res (run env (find_window_by_class_or_title class_name
                                title_pattern) s w) =
            Ok (head (List.filter (matches d class_name title_pattern)
                                  (top_level d))) /\
            take 2 (out_trace (run env (find_window_by_class_or_title
                                          class_name title_pattern) s w)) =
            [FindWindow class_name; EnumWindows]).
  { intros ->. unfold find_window_by_class_or_title, enum_windows. simpl.
    destruct (env (FindWindow class_name) w) as [r w1]. simpl in Hfind.
    subst r. simpl.
    pose proof (proj1 Hshows w1) as Henum.
    destruct (env EnumWindows w1) as [r w2]. simpl in Henum. subst r. simpl.
    rewrite run_bind. cbv zeta.
    rewrite (run_enum_loop (top_level d) [] s w2 (fun _ H => H)).
    cbn [app].
    destruct (List.filter (matches d class_name title_pattern) (top_level d));
      split; reflexivity. }
  split; [|split; [exact Hzero|]].
  - intros Hne. unfold find_window_by_class_or_title. simpl.
    destruct (env (FindWindow class_name) w) as [r w1]. simpl in Hfind.
    subst r. simpl.
    destruct (Z.eqb_spec found 0) as [->|_]; [contradiction|].
    split; reflexivity.
  - intros Hz Hnone. rewrite (proj1 (Hzero Hz)). f_equal.
    revert Hnone. generalize (top_level d) as l.
    induction l as [|hwnd l IH]; intros Hnone; [reflexivity|].
    cbn [List.filter]. rewrite (Hnone hwnd (or_introl eq_refl)).
    apply IH. intros h Hh. apply Hnone. right. exact Hh.
Qed.

End Shown.

(** the callback raises nothing of its own: when it raises, the last
    thing it did was a query on the window *)
Lemma enum_callback_raises (hwnd : HWND) (results : list HWND) (s : S) (w : W)
    (e : Exc) :
  let o := run env (enum_callback class_name title_pattern hwnd results) s w in
  out_res o = Err e ->
  exists c, last (out_trace o) = Some c /\ window_query c = true.
Proof.
  cbv zeta. unfold enum_callback. simpl.
  destruct (env (IsWindowVisible hwnd) w) as [[v|e1] w1]; simpl;
    [|intros _; eexists; split; reflexivity].
  destruct v; simpl; [|discriminate].
  destruct (env (GetWindowText hwnd) w1) as [[t|e1] w2]; simpl;
    [|intros _; eexists; split; reflexivity].
  destruct (env (GetClassName hwnd) w2) as [[cls|e1] w3]; simpl;
    [|intros _; eexists; split; reflexivity].
  destruct (negb (String.eqb class_name "") && contains_ci class_name cls)%bool;
    simpl; [discriminate|].
  destruct title_pattern as [t'|]; simpl; [|discriminate].
  destruct (negb (String.eqb t' "") && contains_ci t' t)%bool; discriminate.
Qed.

Lemma enum_loop_raises (hwnds results : list HWND) (s : S) (w : W) (e : Exc) :
  let o := run env (enum_loop (enum_callback class_name title_pattern)
                              hwnds results) s w in
  out_res o = Err e ->
  exists c, last (out_trace o) = Some c /\ window_query c = true.
Proof.
  cbv zeta. revert results s w.
  induction hwnds as [|hwnd hwnds IH]; intros results s w; cbn [enum_loop].
  - discriminate.
  - rewrite run_bind. cbv zeta.
    pose proof (enum_callback_raises hwnd results s w) as Hcb. cbv zeta in Hcb.
    destruct (run env (enum_callback class_name title_pattern hwnd results) s w)
      as [[results'|e1] s1 w1 tr1];
      cbn [out_res out_state out_world out_trace and_then raised] in *.
    + intros Hloop. destruct (IH results' s1 w1 Hloop) as (c & Hlast & Hc).
      exists c. split; [|exact Hc]. rewrite last_app, Hlast. reflexivity.
    + intros _. apply (Hcb e1). reflexivity.
Qed.


End Locator.



(** a title pattern finds the window whatever its class, and a lookup
    that matches nothing answers [None] *)
Example locate_by_title :
  out_res (run (sim calm)
             (@Office.find_window_by_class_or_title ascii_lower unit
                "WordFrame" (Some "REPORT"))
             tt world0) = Ok (Some 12).
Proof. reflexivity. Qed.

Example locate_nothing :
  out_res (run (sim calm)
             (@Office.find_window_by_class_or_title ascii_lower unit
                "XLMAIN" (Some "Excel"))
             tt world0) = Ok None.
Proof. reflexivity. Qed.

(** ** Screenshot of the browser session *)

Section Screenshot.
Import Browser.
Context {W : Type} (env : Env W).

(** taking the screenshot never resizes the window *)
Lemma take_screenshot_no_resize (b : Session) (g : Globals) (w : W) :
  existsb resizes (out_trace (run env (take_screenshot b) g w)) = false.
Proof.
  unfold take_screenshot. simpl.
  destruct (env (GetScreenshotAsBase64 b) w) as [[shot|e] w1]; simpl;
    [|reflexivity].
  destruct (env (CurrentUrl b) w1) as [[url|e] w2]; simpl; [|reflexivity].
  destruct (env (Title b) w2) as [[t|e] w3]; reflexivity.
Qed.

(** C9: a screenshot asked with [full_page=true] (in any case of the
    letters) reads the scroll height and width of the page and resizes
    the window to at least 1920x1080 and at least the page; when the
    resize succeeds the screenshot is the call after the wait; and no
    call after the resize is another resize, so the size set is the size
    the session is left with. *)
Theorem full_page_screenshot_resizes (g : Globals) (w : W) (b : Session)
    (arg : string) (total_height total_width : Z) :
  browser g = Some b ->
  let height_js := "return document.body.scrollHeight" in
  let width_js := "return document.body.scrollWidth" in
  let w1 := snd (env (RequestArg "full_page") w) in
  let w2 := snd (env (ExecuteScript b height_js) w1) in
  let w3 := snd (env (ExecuteScript b width_js) w2) in
  fst (env (RequestArg "full_page") w) = Ok (Some arg) ->
  lower arg = "true" ->
  fst (env (ExecuteScript b height_js) w1) = Ok total_height ->
  fst (env (ExecuteScript b width_js) w2) = Ok total_width ->
  let width := Z.max total_width 1920 in
  let height := Z.max total_height 1080 in
  let o := run env browser_screenshot g w in
  1920 <= width /\ total_width <= width /\
  1080 <= height /\ total_height <= height /\
  take 4 (out_trace o) =
    [RequestArg "full_page"; ExecuteScript b height_js;
     ExecuteScript b width_js; SetWindowSize b width height] /\
  existsb resizes (drop 4 (out_trace o)) = false /\
  (is_ok (fst (env (SetWindowSize b width height) w3)) = true ->
   take 2 (drop 4 (out_trace o)) = [Sleep 500; GetScreenshotAsBase64 b]) /\
  out_state o = g.
Proof.
  intros Hb. cbv zeta. intros Harg Htrue Hh Hw.
  repeat (split; [lia|]).
  unfold browser_screenshot. rewrite run_catch. cbv zeta.
  simpl. rewrite Hb. simpl.
  destruct (env (RequestArg "full_page") w) as [r w1]. simpl in *. subst r.
  simpl. unfold is_full_page. rewrite Htrue. simpl.
  destruct (env (ExecuteScript b "return document.body.scrollHeight") w1)
    as [r w2]. simpl in *. subst r. simpl.
  destruct (env (ExecuteScript b "return document.body.scrollWidth") w2)
    as [r w3]. simpl in *. subst r. simpl.
  destruct (env (SetWindowSize b (Z.max total_width 1920)
                               (Z.max total_height 1080)) w3)
    as [[[]|e] w4]; simpl;
    [|repeat split; first [reflexivity|discriminate]].
  destruct (env (Sleep 500) w4) as [[] w5]. simpl.
  destruct (env (GetScreenshotAsBase64 b) w5) as [[shot|e] w6]; simpl;
    [|repeat split; reflexivity].
  destruct (env (CurrentUrl b) w6) as [[url|e] w7]; simpl;
    [|repeat split; reflexivity].
  destruct (env (Title b) w7) as [[t|e] w8]; simpl;
    repeat split; reflexivity.
Qed.

(** a screenshot that is not full-page makes no resize *)
Lemma plain_screenshot_keeps_size (g : Globals) (w : W) (arg : option string) :
  fst (env (RequestArg "full_page") w) = Ok arg ->
  is_full_page arg = false ->
  existsb resizes (out_trace (run env browser_screenshot g w)) = false.
Proof.
  intros Harg Hplain. unfold browser_screenshot. rewrite run_catch. cbv zeta.
  simpl. destruct (browser g) as [b|]; simpl; [|reflexivity].
  destruct (env (RequestArg "full_page") w) as [r w1]. simpl in *. subst r.
  simpl. rewrite Hplain. simpl.
  pose proof (take_screenshot_no_resize b g w1) as Hno.
  unfold take_screenshot in *. simpl in *.
  destruct (env (GetScreenshotAsBase64 b) w1) as [[shot|e] w6]; simpl in *;
    [|reflexivity].
  destruct (env (CurrentUrl b) w6) as [[url|e] w7]; simpl in *; [|reflexivity].
  destruct (env (Title b) w7) as [[t|e] w8]; reflexivity.
Qed.

End Screenshot.

(** in the scripted environment a 1280x720 window showing a page 1200
    wide and 5000 high is 1920x5000 after the full-page screenshot, and
    still 1920x5000 after a plain screenshot that follows *)
Lemma full_page_screenshot_resizes_witness :
  let g := Browser.mkGlobals (Some 5) "chrome" false in
  let o := run (sim full_page) Browser.browser_screenshot g world0 in
  let o' := run (sim calm) Browser.browser_screenshot (out_state o) (out_world o) in
  take 4 (out_trace o) =
    [RequestArg "full_page";
     ExecuteScript 5 "return document.body.scrollHeight";
     ExecuteScript 5 "return document.body.scrollWidth";
     SetWindowSize 5 1920 5000] /\
  window_size world0 = (1280, 720) /\
  window_size (out_world o) = (1920, 5000) /\
  window_size (out_world o') = (1920, 5000).
Proof.
  split; [|repeat split; reflexivity].
  exact (proj1 (proj2 (proj2 (proj2 (proj2
           (full_page_screenshot_resizes (sim full_page)
              (Browser.mkGlobals (Some 5) "chrome" false) world0 5 "True"
              5000 1200 eq_refl eq_refl eq_refl eq_refl eq_refl)))))).
Defined.

(** ** Whatever the environment answers *)

Section Always.
Context {W : Type} (env : Env W) (R : Answers).

Lemma always_run {S A} (p : Prog S A) (Q : res A -> S -> list Call -> Prop)
    (s : S) (w : W) (tr : list Call) :
  obeys env R -> always R p Q s tr ->
  Q (out_res (run env p s w)) (out_state (run env p s w))
    (tr ++ out_trace (run env p s w))%list.
Proof.
  intros Henv. revert s w tr.
  induction p as [a|e|k IH|s' k IH|c k IH]; intros s w tr Hp; simpl in *.
  - rewrite app_nil_r. exact Hp.
  - rewrite app_nil_r. exact Hp.
  - apply IH, Hp.
  - apply IH, Hp.
  - specialize (IH _ s (snd (env c w)) _ (Hp _ (Henv c w))).
    rewrite <- app_assoc in IH. exact IH.
Qed.

Lemma always_mono {S A} (p : Prog S A) (Q Q' : res A -> S -> list Call -> Prop)
    (s : S) (tr : list Call) :
  (forall r s' tr', Q r s' tr' -> Q' r s' tr') ->
  always R p Q s tr -> always R p Q' s tr.
Proof.
  intros HQ. revert s tr.
  induction p as [a|e|k IH|s' k IH|c k IH]; intros s tr Hp; simpl in *; auto.
Qed.

Lemma always_bind {S A B} (p : Prog S A) (f : A -> Prog S B)
    (Q : res B -> S -> list Call -> Prop) (s : S) (tr : list Call) :
  always R p (fun r s' tr' => match r with
                              | Ok a => always R (f a) Q s' tr'
                              | Err e => Q (Err e) s' tr'
                              end) s tr ->
  always R (bind p f) Q s tr.
Proof.
  revert s tr.
  induction p as [a|e|k IH|s' k IH|c k IH]; intros s tr Hp; simpl in *; auto.
Qed.

Lemma always_catch {S A} (p : Prog S A) (handler : Exc -> Prog S A)
    (Q : res A -> S -> list Call -> Prop) (s : S) (tr : list Call) :
  always R p (fun r s' tr' => match r with
                              | Ok a => Q (Ok a) s' tr'
                              | Err e => always R (handler e) Q s' tr'
                              end) s tr ->
  always R (catch p handler) Q s tr.
Proof.
  revert s tr.
  induction p as [a|e|k IH|s' k IH|c k IH]; intros s tr Hp; simpl in *; auto.
Qed.

Lemma always_lift {S A} (r : res A) (Q : res A -> S -> list Call -> Prop)
    (s : S) (tr : list Call) :
  Q r s tr -> always R (lift r) Q s tr.
Proof. destruct r; exact (fun H => H). Qed.

End Always.

(** ** Calls a program never makes *)

Section NeverCalls.
Context (P : Call -> bool).

Lemma never_calls_bind {S A B} (p : Prog S A) (f : A -> Prog S B) :
  never_calls P p -> (forall a, never_calls P (f a)) -> never_calls P (bind p f).
Proof.
  intros Hp Hf.
  induction p as [a|e|k IH|s' k IH|c k IH]; simpl in *; auto.
  split; [apply Hp|]. intros x. apply IH, Hp.
Qed.

Lemma never_calls_catch {S A} (p : Prog S A) (handler : Exc -> Prog S A) :
  never_calls P p -> (forall e, never_calls P (handler e)) ->
  never_calls P (catch p handler).
Proof.
  intros Hp Hh.
  induction p as [a|e|k IH|s' k IH|c k IH]; simpl in *; auto.
  split; [apply Hp|]. intros x. apply IH, Hp.
Qed.

Lemma never_calls_lift {S A} (r : res A) : never_calls P (@lift S A r).
Proof. destruct r; exact I. Qed.

Lemma never_calls_enum_loop {S} (callback : HWND -> list HWND -> Prog S (list HWND))
    (hwnds results : list HWND) :
  (forall hwnd rs, never_calls P (callback hwnd rs)) ->
  never_calls P (enum_loop callback hwnds results).
Proof.
  intros Hc. revert results.
  induction hwnds as [|hwnd hwnds IH]; intros results; simpl.
  - exact I.
  - apply never_calls_bind; auto.
Qed.

Lemma keeps_state_enum_loop {S} (callback : HWND -> list HWND -> Prog S (list HWND))
    (hwnds results : list HWND) :
  (forall hwnd rs, keeps_state (callback hwnd rs)) ->
  keeps_state (enum_loop callback hwnds results).
Proof.
  intros Hc. revert results.
  induction hwnds as [|hwnd hwnds IH]; intros results; simpl.
  - exact I.
  - apply keeps_state_bind; auto.
Qed.

Lemma extends_refl (tr : list Call) : extends P tr tr.
Proof. exists []. rewrite app_nil_r. split; reflexivity. Qed.

Lemma extends_trans (tr1 tr2 tr3 : list Call) :
  extends P tr1 tr2 -> extends P tr2 tr3 -> extends P tr1 tr3.
Proof.
  intros [e1 [-> H1]] [e2 [-> H2]]. exists (e1 ++ e2)%list.
  rewrite app_assoc, existsb_app, H1, H2. split; reflexivity.
Qed.

Lemma extends_snoc (tr : list Call) (c : Call) :
  P c = false -> extends P tr (tr ++ [c])%list.
Proof. intros Hc. exists [c]. simpl. rewrite Hc. split; reflexivity. Qed.

Lemma extends_existsb (tr tr' : list Call) :
  extends P tr tr' -> existsb P tr' = existsb P tr.
Proof. intros [ext [-> H]]. rewrite existsb_app, H. apply orb_false_r. Qed.

Lemma extends_filter (tr tr' : list Call) :
  extends P tr tr' -> List.filter P tr' = List.filter P tr.
Proof.
  intros [ext [-> H]]. rewrite List.filter_app.
  assert (Hext : List.filter P ext = []).
  { induction ext as [|c ext IH]; [reflexivity|].
    simpl in *. apply orb_false_elim in H as [Hc Hext].
    rewrite Hc. apply IH, Hext. }
  rewrite Hext. apply app_nil_r.
Qed.

Lemma extends_in (tr tr' : list Call) (c : Call) :
  extends P tr tr' -> In c tr -> In c tr'.
Proof. intros [ext [-> _]] H. apply in_or_app. left. exact H. Qed.

(** a program that assigns no global and never makes a call of [P]
    leaves the globals alone and adds no call of [P] to the trace *)
Lemma always_quiet {S A} (R : Answers) (p : Prog S A) (s : S) (tr : list Call) :
  keeps_state p -> never_calls P p ->
  always R p (fun _ s' tr' => s' = s /\ extends P tr tr') s tr.
Proof.
  revert tr.
  induction p as [a|e|k IH|s' k IH|c k IH]; intros tr Hk Hn; simpl in *.
  - split; [reflexivity|apply extends_refl].
  - split; [reflexivity|apply extends_refl].
  - apply IH; auto.
  - contradiction.
  - intros x _. destruct Hn as [Hc Hn].
    eapply always_mono; [|apply IH; auto].
    intros r s' tr' [-> Hext]. split; [reflexivity|].
    eapply extends_trans; [apply extends_snoc, Hc|exact Hext].
Qed.

Lemma always_never_calls {S A} (R : Answers) (p : Prog S A) (s : S)
    (tr : list Call) :
  never_calls P p -> always R p (fun _ _ tr' => extends P tr tr') s tr.
Proof.
  revert s tr.
  induction p as [a|e|k IH|s' k IH|c k IH]; intros s tr Hn; simpl in *.
  - apply extends_refl.
  - apply extends_refl.
  - apply IH; auto.
  - apply IH; auto.
  - intros x _. destruct Hn as [Hc Hn].
    eapply always_mono; [|apply IH; auto].
    intros r s' tr' Hext.
    eapply extends_trans; [apply extends_snoc, Hc|exact Hext].
Qed.

End NeverCalls.

(** ** Launching and closing the browser *)

(** settles that a program assigns no global or never makes some call
    by going through its text *)
Ltac quiet_with known :=
  repeat first
    [ exact I
    | reflexivity
    | known
    | apply never_calls_lift
    | apply keeps_state_lift
    | apply never_calls_enum_loop
    | apply keeps_state_enum_loop
    | apply never_calls_bind
    | apply keeps_state_bind
    | apply never_calls_catch
    | apply keeps_state_catch
    | split
    | intro
    | progress simpl
    | match goal with
      | |- context [match ?x with _ => _ end] => destruct x
      end ].

Ltac quiet := quiet_with fail.

Section LaunchSteps.
Import Browser.
Context {casing : StrLower} (R : Answers).

Lemma keeps_state_bring_window_to_front (t : string) :
  keeps_state (bring_window_to_front t).
Proof.
  unfold bring_window_to_front, enum_windows, raise_window,
    set_foreground_attached, attach_trick, foreground_from, title_callback.
  quiet.
Qed.

Lemma bring_window_to_front_no_start (t : string) :
  never_calls constructs (bring_window_to_front t).
Proof.
  unfold bring_window_to_front, enum_windows, raise_window,
    set_foreground_attached, attach_trick, foreground_from, title_callback.
  quiet.
Qed.

Lemma keeps_state_launched (headless : JVal) : keeps_state (launched headless).
Proof.
  unfold launched.
  quiet_with ltac:(apply keeps_state_bring_window_to_front).
Qed.

Lemma launched_no_start (headless : JVal) :
  never_calls constructs (launched headless).
Proof.
  unfold launched.
  quiet_with ltac:(apply bring_window_to_front_no_start).
Qed.

Lemma find_chrome_path_quiet :
  keeps_state (@find_chrome_path Globals) /\
  never_calls constructs (@find_chrome_path Globals).
Proof. unfold find_chrome_path. quiet. Qed.

Lemma find_edge_path_quiet :
  keeps_state (@find_edge_path Globals) /\
  never_calls constructs (@find_edge_path Globals).
Proof. unfold find_edge_path. quiet. Qed.

Lemma always_and {S A} (p : Prog S A) (Q1 Q2 : res A -> S -> list Call -> Prop)
    (s : S) (tr : list Call) :
  always R p Q1 s tr -> always R p Q2 s tr ->
  always R p (fun r s' tr' => Q1 r s' tr' /\ Q2 r s' tr') s tr.
Proof.
  revert s tr.
  induction p as [a|e|k IH|s' k IH|c k IH]; intros s tr H1 H2; simpl in *; auto.
Qed.

Lemma always_true {S A} (p : Prog S A) (s : S) (tr : list Call) :
  always R p (fun _ _ _ => True) s tr.
Proof.
  revert s tr.
  induction p as [a|e|k IH|s' k IH|c k IH]; intros s tr; simpl in *; auto.
Qed.

(** what [launched] returns is a success response *)
Lemma launched_succeeds (headless : JVal) (g : Globals) (tr : list Call) :
  always R (launched headless)
    (fun r _ _ => forall resp, r = Ok resp -> is_success resp = true) g tr.
Proof.
  unfold launched. apply always_bind.
  eapply always_mono; [|apply always_true].
  intros [[]|e] s' tr' _; [|discriminate].
  cbn [get_state bind always]. intros resp [= <-]. reflexivity.
Qed.

Lemma always_launched (headless : JVal) (g : Globals) (tr : list Call) :
  always R (launched headless)
    (fun r g' tr' =>
       g' = g /\ extends constructs tr tr' /\
       forall resp, r = Ok resp -> is_success resp = true) g tr.
Proof.
  eapply always_mono;
    [|apply always_and;
      [apply (always_quiet constructs);
       [apply keeps_state_launched|apply launched_no_start]
      |apply launched_succeeds]].
  intros r s' tr' [[-> Hext] Hres]. auto.
Qed.

Lemma launch_failed (g g' : Globals) (tr : list Call) (e : Exc) :
  HAS_WIN32 g' = HAS_WIN32 g ->
  (length (List.filter constructs tr) <= 1)%nat ->
  (forall b0, browser g = Some b0 -> existsb constructs tr = true ->
   [RequestJson; Print "[launch] Starting browser launch"; BrowserQuit b0]
     `prefix_of` tr) ->
  launch_outcome g (get_error_response "Failed to launch browser"
                                       (Some (exc_str e))) g' tr.
Proof.
  intros Hwin Hlen Hquit. unfold launch_outcome.
  split; [exact Hwin|]. split; [exact Hlen|]. split; [|split; [exact Hquit|]].
  - rewrite is_success_error. discriminate.
  - unfold get_error_response.
    destruct (String.eqb (exc_str e) ""); simpl; discriminate.
Qed.

Lemma quit_first_extends (g : Globals) (tr tr' : list Call) :
  quit_first g tr -> extends constructs tr tr' -> quit_first g tr'.
Proof.
  intros [Hno Hq] Hext. split.
  - rewrite (extends_existsb _ _ _ Hext). exact Hno.
  - intros b0 Hb. destruct Hext as [ext [-> _]].
    apply prefix_app_r, Hq, Hb.
Qed.

(** after a constructor call that follows [quit_first] calls, and calls
    that construct nothing *)
Lemma constructed_once (g : Globals) (tr tr' : list Call) (c : Call) :
  quit_first g tr -> constructs c = true ->
  extends constructs (tr ++ [c]) tr' ->
  (length (List.filter constructs tr') <= 1)%nat /\
  existsb constructs tr' = true /\
  forall b0, browser g = Some b0 ->
    [RequestJson; Print "[launch] Starting browser launch"; BrowserQuit b0]
      `prefix_of` tr'.
Proof.
  intros [Hno Hq] Hc Hext.
  rewrite (extends_filter _ _ _ Hext), (extends_existsb _ _ _ Hext).
  rewrite List.filter_app, existsb_app. simpl. rewrite Hc, orb_true_r.
  assert (Hnil : List.filter constructs tr = []).
  { clear -Hno. induction tr as [|c0 tr IH]; [reflexivity|].
    simpl in *. apply orb_false_elim in Hno as [Hc0 Hno].
    rewrite Hc0. apply IH, Hno. }
  rewrite Hnil. simpl. split; [lia|]. split; [reflexivity|].
  intros b0 Hb. destruct Hext as [ext [-> _]].
  apply prefix_app_r, prefix_app_r, Hq, Hb.
Qed.

Lemma launch_not_started (g g' : Globals) (tr : list Call) (resp : Dict) :
  existsb constructs tr = false -> HAS_WIN32 g' = HAS_WIN32 g ->
  is_success resp = false ->
  (resp = get_error_response "No browser found"
            (Some "Neither Chrome nor Edge is installed") ->
   browser g' = None) ->
  launch_outcome g resp g' tr.
Proof.
  intros Hno Hwin Hresp Hnone. unfold launch_outcome.
  split; [exact Hwin|]. split; [|split; [|split; [|exact Hnone]]].
  - assert (Hnil : List.filter constructs tr = []).
    { clear -Hno. induction tr as [|c0 tr IH]; [reflexivity|].
      simpl in *. apply orb_false_elim in Hno as [Hc0 Hno].
      rewrite Hc0. apply IH, Hno. }
    rewrite Hnil. simpl. lia.
  - rewrite Hresp. discriminate.
  - intros b0 _. rewrite Hno. discriminate.
Qed.

Lemma launch_started (g g' : Globals) (tr tr' : list Call) (c : Call)
    (resp : Dict) :
  quit_first g tr -> constructs c = true ->
  extends constructs (tr ++ [c]) tr' ->
  HAS_WIN32 g' = HAS_WIN32 g ->
  (is_success resp = true -> exists b, browser g' = Some b) ->
  resp <> get_error_response "No browser found"
            (Some "Neither Chrome nor Edge is installed") ->
  launch_outcome g resp g' tr'.
Proof.
  intros Hq Hc Hext Hwin Hresp Hne.
  destruct (constructed_once g tr tr' c Hq Hc Hext) as (Hlen & Hex & Hpre).
  unfold launch_outcome.
  split; [exact Hwin|]. split; [exact Hlen|]. split; [|split].
  - intros H. split; [exact Hex|apply Hresp, H].
  - intros b0 Hb _. apply Hpre, Hb.
  - intros H. contradiction.
Qed.

Lemma failed_is_not_no_browser (e : Exc) :
  get_error_response "Failed to launch browser" (Some (exc_str e)) <>
  get_error_response "No browser found"
    (Some "Neither Chrome nor Edge is installed").
Proof.
  unfold get_error_response.
  destruct (String.eqb (exc_str e) ""); simpl; discriminate.
Qed.

(** the end of both branches of [browser_launch], from the constructor
    call on *)
Lemma always_construct (g g1 : Globals) (tr : list Call) (c : Call)
    (x : res Session) (t : string) (rest : Prog Globals Dict) :
  quit_first g tr -> constructs c = true ->
  HAS_WIN32 g1 = HAS_WIN32 g ->
  (forall g2 tr2,
      always R rest
        (fun r g' tr' =>
           g' = g2 /\ extends constructs tr2 tr' /\
           forall resp, r = Ok resp -> is_success resp = true) g2 tr2) ->
  always R (b <- lift x ;; set_browser (Some b) ;;; set_browser_type t ;;; rest)
    (fun r g' tr' =>
       exists resp,
         launch_outcome g resp g' tr' /\
         match r with
         | Ok a => resp = a
         | Err e => resp = get_error_response "Failed to launch browser"
                             (Some (exc_str e))
         end)
    g1 (tr ++ [c]).
Proof.
  intros Hq Hc Hwin Hrest. destruct x as [b|e];
    cbn [bind always lift set_browser set_browser_type].
  - eapply always_mono; [|apply Hrest].
    intros r g' tr' (-> & Hext & Hres). destruct r as [resp|e].
    + exists resp. split; [|reflexivity].
      apply (launch_started g _ tr tr' c); auto.
      * intros _. eexists. reflexivity.
      * intros ->. specialize (Hres _ eq_refl). discriminate Hres.
    + eexists. split; [|reflexivity].
      apply (launch_started g _ tr tr' c); auto.
      * rewrite is_success_error. discriminate.
      * apply failed_is_not_no_browser.
  - eexists. split; [|reflexivity].
    apply (launch_started g _ tr _ c); auto.
    + apply extends_refl.
    + rewrite is_success_error. discriminate.
    + apply failed_is_not_no_browser.
Qed.

Lemma always_browser_launch (g : Globals) :
  always R browser_launch
    (fun r g' tr => exists resp, r = Ok resp /\ launch_outcome g resp g' tr)
    g [].
Proof.
  unfold browser_launch. apply always_catch.
  apply always_mono with
    (Q := fun r g' tr' =>
            exists resp,
              launch_outcome g resp g' tr' /\
              match r with
              | Ok a => resp = a
              | Err e => resp = get_error_response "Failed to launch browser"
                                  (Some (exc_str e))
              end).
  { intros [a|e] g' tr' (resp & H & ->); cbn [always]; eauto. }
  cbn [bind always lift]. intros [body|e] _; cbn [bind always lift].
  2: { eexists. split; [|reflexivity].
       apply launch_not_started;
         [reflexivity|reflexivity|apply is_success_error|].
       intros H. contradiction (failed_is_not_no_browser e H). }
  intros [] _. cbn [get_state bind always].
  generalize (dict_get match body with Some d => d | None => [] end
                       "headless" (JBool false)) as headless.
  generalize (dict_get match body with Some d => d | None => [] end
                       "browser" (JStr "chrome")) as preferred.
  intros preferred headless.
  apply always_bind.
  apply always_mono with
    (Q := fun r g1 tr1 => r = Ok tt /\ browser g1 = None /\
                          HAS_WIN32 g1 = HAS_WIN32 g /\ quit_first g tr1).
  2: { destruct (browser g) as [b0|] eqn:Hb.
       - cbn [catch bind always lift set_browser].
         intros [[]|e] _; cbn [catch bind always lift set_browser].
         all: (split; [reflexivity|]); (split; [reflexivity|]);
           (split; [reflexivity|]); (split; [reflexivity|]).
         all: intros b Hbb; rewrite Hb in Hbb; injection Hbb as <-;
           exists []; reflexivity.
       - cbn [always]. repeat split; try assumption.
         intros b0 H. rewrite Hb in H. discriminate H. }
  intros r g1 tr1 (-> & Hnone & Hwin & Hq).
  apply always_bind.
  apply always_mono with
    (Q := fun _ g2 tr2 => g2 = g1 /\ extends constructs tr1 tr2).
  2: { apply (always_quiet constructs).
       - destruct (is_str preferred "chrome"); [|exact I].
         apply keeps_state_bind; [apply find_chrome_path_quiet|intros; exact I].
       - destruct (is_str preferred "chrome"); [|exact I].
         apply never_calls_bind; [apply find_chrome_path_quiet|intros; exact I]. }
  intros r g2 tr2 [-> Hext1].
  pose proof (quit_first_extends _ _ _ Hq Hext1) as Hq2.
  destruct r as [chrome|e].
  2: { eexists. split; [|reflexivity].
       apply launch_not_started;
         [apply Hq2|exact Hwin|apply is_success_error|].
       intros H. contradiction (failed_is_not_no_browser e H). }
  destruct chrome.
  - cbn [bind always]. intros [] _ [] _ x _.
    apply (always_construct g); auto.
    + apply (quit_first_extends g tr2); [exact Hq2|].
      eapply extends_trans; apply extends_snoc; reflexivity.
    + intros g3 tr3. cbn [always]. intros [] _.
      eapply always_mono; [|apply always_launched].
      intros r g' tr' (-> & Hext & Hres). split; [reflexivity|].
      split; [|exact Hres].
      eapply extends_trans; [|exact Hext]. apply extends_snoc. reflexivity.
  - apply always_bind.
    apply always_mono with
      (Q := fun _ g3 tr3 => g3 = g1 /\ extends constructs tr2 tr3).
    2: { apply (always_quiet constructs); apply find_edge_path_quiet. }
    intros r g3 tr3 [-> Hext2].
    pose proof (quit_first_extends _ _ _ Hq2 Hext2) as Hq3.
    destruct r as [p|e].
    2: { eexists. split; [|reflexivity].
         apply launch_not_started;
           [apply Hq3|exact Hwin|apply is_success_error|].
         intros H. contradiction (failed_is_not_no_browser e H). }
    destruct (path_truthy p).
    + cbn [bind always]. intros x _.
      apply (always_construct g); auto.
      intros g4 tr4. apply always_launched.
    + cbn [always]. eexists. split; [|reflexivity].
      apply launch_not_started;
        [apply Hq3|exact Hwin|reflexivity|intros _; exact Hnone].
Qed.

End LaunchSteps.

Section Launch.
Import Browser.
Context {casing : StrLower} {W : Type} (env : Env W).

(** [browser_launch] always answers.  It calls a constructor at most
    once; a response that reports success comes with a constructor call
    and a session held; when a constructor is called and a session was
    held at the start, that session was asked to quit first, as the third
    call; and the response "No browser found" leaves no session held.
    [HAS_WIN32] is never assigned. *)
Theorem browser_launch_session (g : Globals) (w : W) :
  let o := run env browser_launch g w in
  exists resp : Dict,
    out_res o = Ok resp /\
    HAS_WIN32 (out_state o) = HAS_WIN32 g /\
    (length (List.filter constructs (out_trace o)) <= 1)%nat /\
    (is_success resp = true ->
     existsb constructs (out_trace o) = true /\
     exists b, browser (out_state o) = Some b) /\
    (forall b0, browser g = Some b0 ->
     existsb constructs (out_trace o) = true ->
     [RequestJson; Print "[launch] Starting browser launch"; BrowserQuit b0]
       `prefix_of` out_trace o) /\
    (resp = get_error_response "No browser found"
              (Some "Neither Chrome nor Edge is installed") ->
     browser (out_state o) = None).
Proof.
  cbv zeta.
  assert (Henv : obeys env any_answer) by (intros c w'; exact I).
  destruct (always_run env any_answer browser_launch _ g w [] Henv
              (always_browser_launch any_answer g)) as (resp & Hres & Hout).
  exists resp. split; [exact Hres|]. exact Hout.
Qed.

(** A headless launch never waits for a window and never looks at or
    touches the desktop. *)
Theorem headless_launch_leaves_desktop (g : Globals) (w : W)
    (body : option Dict) :
  obeys env (request_json body) ->
  truthy (dict_get match body with Some d => d | None => [] end
                   "headless" (JBool false)) = true ->
  existsb window_step (out_trace (run env browser_launch g w)) = false.
Proof.
  intros Henv Hheadless.
  change (out_trace (run env browser_launch g w))
    with ([] ++ out_trace (run env browser_launch g w))%list.
  apply (always_run env (request_json body) browser_launch
           (fun _ _ tr => existsb window_step tr = false) g w [] Henv).
  unfold browser_launch. apply always_catch.
  cbn [bind always lift]. intros x Hx. cbn in Hx. subst x.
  cbn [bind always lift]. intros [] _.
  eapply always_mono; [|apply (always_never_calls window_step)].
  { intros [a|e] g' tr' Hext; cbn [always];
      rewrite (extends_existsb _ _ _ Hext); reflexivity. }
  unfold find_chrome_path, find_edge_path, launched.
  rewrite Hheadless. quiet.
Qed.

End Launch.

Lemma browser_launch_session_witness :
  let g := Browser.mkGlobals (Some 5) "chrome" true in
  let o := run (sim calm) (@Browser.browser_launch ascii_lower) g world0 in
  [RequestJson; Print "[launch] Starting browser launch"; BrowserQuit 5]
    `prefix_of` out_trace o /\
  Browser.browser (out_state o) = Some 1.
Proof.
  destruct (browser_launch_session (casing := ascii_lower) (sim calm)
              (Browser.mkGlobals (Some 5) "chrome" true) world0)
    as (resp & _ & _ & _ & _ & Hquit & _).
  split; [|reflexivity].
  apply (Hquit 5 eq_refl). reflexivity.
Defined.

Lemma headless_launch_leaves_desktop_witness :
  existsb window_step
    (out_trace (run (sim chrome_x86) (@Browser.browser_launch ascii_lower)
                    (Browser.globals_init true) world0)) = false.
Proof.
  apply (headless_launch_leaves_desktop (casing := ascii_lower)
           (sim chrome_x86)
           (Browser.globals_init true) world0 (Some [("headless", JBool true)])).
  - intros c w. destruct c; exact I || reflexivity.
  - reflexivity.
Defined.

(** ** Shutting the servers down *)

Section Shutdown.
Import Office.
Context (R : Answers).

Lemma held_snoc (apps : Registry) (done : list string) (key : string) :
  held apps (done ++ [key]) =
  (held apps done ++ match apps !! key with
                     | Some (Some app) => [app]
                     | _ => []
                     end)%list.
Proof.
  unfold held. rewrite omap_app. f_equal. simpl.
  destruct (apps !! key) as [[app|]|]; reflexivity.
Qed.

Lemma quit_done_step (apps : Registry) (done : list string) (key : string)
    (apps0 : Registry) (tr : list Call) :
  ~ In key done -> quit_done R apps done apps0 tr ->
  always R (shutdown_app key)
    (fun r apps' tr' => r = Ok tt /\ quit_done R apps (done ++ [key]) apps' tr')
    apps0 tr.
Proof.
  intros Hnew (Htr & Hrest & Hframe & Hquit).
  assert (Hkey : apps0 !! key = apps !! key) by (apply Hrest, Hnew).
  assert (Hnot : forall k, ~ In k (done ++ [key]) -> ~ In k done /\ k <> key).
  { intros k Hk. split.
    - intros H. apply Hk, in_or_app. left. exact H.
    - intros ->. apply Hk, in_or_app. right. left. reflexivity. }
  unfold shutdown_app.
  cbn [slot_get slot_set catch bind always lift]. rewrite Hkey.
  destruct (apps !! key) as [[app|]|] eqn:Hslot; cbn [catch bind always lift].
  - intros [[]|e] Hx; cbn [catch bind always lift]; (split; [reflexivity|]).
    + repeat split.
      * rewrite List.filter_app, Htr, held_snoc, Hslot, map_app. reflexivity.
      * intros k Hk. destruct (Hnot k Hk) as [Hk1 Hk2].
        rewrite lookup_insert_ne by congruence. apply Hrest, Hk1.
      * intros k. destruct (decide (k = key)) as [->|Hne].
        -- right. rewrite lookup_insert_eq. split; [reflexivity|]. eauto.
        -- rewrite lookup_insert_ne by congruence. apply Hframe.
      * intros Hok k Hk Hheld. destruct (decide (k = key)) as [->|Hne].
        -- apply lookup_insert_eq.
        -- rewrite lookup_insert_ne by congruence.
           apply Hquit; auto.
           apply in_app_or in Hk as [Hk|[Hk|[]]]; [exact Hk|congruence].
    + repeat split.
      * rewrite List.filter_app, Htr, held_snoc, Hslot, map_app. reflexivity.
      * intros k Hk. apply Hrest, (Hnot k Hk).
      * exact Hframe.
      * intros Hok. specialize (Hok app _ Hx). discriminate Hok.
  - split; [reflexivity|]. repeat split.
    + rewrite held_snoc, Hslot, app_nil_r. exact Htr.
    + intros k Hk. apply Hrest, (Hnot k Hk).
    + exact Hframe.
    + intros Hok k Hk Hheld. destruct (decide (k = key)) as [->|Hne].
      * exact Hkey.
      * apply Hquit; auto.
        apply in_app_or in Hk as [Hk|[Hk|[]]]; [exact Hk|congruence].
  - split; [reflexivity|]. repeat split.
    + rewrite held_snoc, Hslot, app_nil_r. exact Htr.
    + intros k Hk. apply Hrest, (Hnot k Hk).
    + exact Hframe.
    + intros Hok k Hk Hheld. destruct (decide (k = key)) as [->|Hne].
      * contradiction.
      * apply Hquit; auto.
        apply in_app_or in Hk as [Hk|[Hk|[]]]; [exact Hk|congruence].
Qed.

Lemma quit_done_loop (apps : Registry) (keys done : list string)
    (apps0 : Registry) (tr : list Call) :
  List.NoDup keys -> (forall key, In key keys -> ~ In key done) ->
  quit_done R apps done apps0 tr ->
  always R (for_each keys shutdown_app)
    (fun r apps' tr' => r = Ok tt /\ quit_done R apps (done ++ keys) apps' tr')
    apps0 tr.
Proof.
  revert done apps0 tr.
  induction keys as [|key keys IH]; intros done apps0 tr Hnodup Hnew Hdone.
  - cbn [for_each always]. rewrite app_nil_r. auto.
  - cbn [for_each]. apply always_bind.
    apply List.NoDup_cons_iff in Hnodup as [Hkey Hnodup].
    eapply always_mono; [|apply (quit_done_step apps done key); [|exact Hdone]].
    + intros r apps1 tr1 [-> Hstep].
      replace (done ++ key :: keys)%list with ((done ++ [key]) ++ keys)%list
        by (rewrite <- app_assoc; reflexivity).
      apply IH; [exact Hnodup| |exact Hstep].
      intros k Hk Hin. apply in_app_or in Hin as [Hin|[->|[]]].
      * apply (Hnew k); [right; exact Hk|exact Hin].
      * contradiction.
    + apply Hnew. left. reflexivity.
Qed.

Lemma filter_quits_same (tr : list Call) (c : Call) :
  quits c = false ->
  List.filter quits (tr ++ [c]) = List.filter quits tr.
Proof.
  intros Hc. rewrite List.filter_app. simpl. rewrite Hc. apply app_nil_r.
Qed.

Lemma always_shutdown (apps : Registry) :
  always R shutdown
    (fun r apps' tr =>
       quit_done R apps ["word"; "excel"; "powerpoint"] apps' tr /\
       (is_ok r = false -> last tr = Some CallShutdownFunc))
    apps [].
Proof.
  unfold shutdown. apply always_bind.
  eapply always_mono;
    [|apply (quit_done_loop apps ["word"; "excel"; "powerpoint"] [] apps [])].
  - intros r apps1 tr1 [-> Hdone]. cbn [app] in Hdone.
    assert (Hsame : forall tr2, List.filter quits tr2 = List.filter quits tr1 ->
                quit_done R apps ["word"; "excel"; "powerpoint"] apps1 tr2).
    { intros tr2 Heq. destruct Hdone as (Htr & Hrest).
      split; [|exact Hrest]. rewrite Heq. exact Htr. }
    cbn [bind always lift]. intros [|] _; cbn [bind always lift].
    + intros [[]|e] _; cbn [bind always lift].
      * split; [|discriminate]. apply Hsame.
        rewrite !filter_quits_same by reflexivity. reflexivity.
      * split; [|intros _; apply last_snoc]. apply Hsame.
        rewrite !filter_quits_same by reflexivity. reflexivity.
    + split; [|discriminate]. apply Hsame.
      rewrite !filter_quits_same by reflexivity. reflexivity.
  - repeat constructor; simpl; intuition discriminate.
  - intros key _ [].
  - repeat split; auto. intros Hok key [].
Qed.

End Shutdown.

Section ShutdownRuns.
Context {casing : StrLower} {W : Type} (env : Env W).

(** [shutdown] of the Office server asks every application it holds to
    quit, once each, in the order word, excel, powerpoint, and quits
    nothing else; a slot is left as it was or, when it held a handle,
    cleared; when no [Quit] raises, every slot is cleared; and the only
    exception it can raise is one of the server's shutdown function. *)
Theorem shutdown_quits_what_is_held (apps : Office.Registry) (w : W) :
  let o := run env Office.shutdown apps w in
  List.filter quits (out_trace o) =
    map Quit (held apps ["word"; "excel"; "powerpoint"]) /\
  (forall key,
      out_state o !! key = apps !! key \/
      out_state o !! key = Some None /\
      exists app, apps !! key = Some (Some app)) /\
  (obeys env quit_succeeds ->
   forall k : Office.Kind,
     apps !! Office.key k <> None -> out_state o !! Office.key k = Some None) /\
  (is_ok (out_res o) = false -> last (out_trace o) = Some CallShutdownFunc).
Proof.
  cbv zeta.
  assert (Hany : obeys env any_answer) by (intros c w'; exact I).
  destruct (always_run env any_answer Office.shutdown _ apps w [] Hany
              (always_shutdown any_answer apps))
    as ((Htr & _ & Hframe & _) & Hraise).
  split; [exact Htr|]. split; [exact Hframe|]. split; [|exact Hraise].
  intros Hquit k Hheld.
  destruct (always_run env quit_succeeds Office.shutdown _ apps w [] Hquit
              (always_shutdown quit_succeeds apps))
    as ((_ & _ & _ & Hall) & _).
  apply Hall; [|destruct k; simpl; auto|exact Hheld].
  intros app x Hx. exact Hx.
Qed.

(** [shutdown] of the browser server asks the session it holds to quit
    and quits nothing else; the session is dropped when [quit] returns
    and kept when it raises; and the only exception it can raise is one
    of the server's shutdown function. *)
Theorem browser_shutdown_quits_session (g : Browser.Globals) (w : W) :
  let o := run env BrowserEndpoints.shutdown g w in
  List.filter quits (out_trace o) =
    match Browser.browser g with Some b => [BrowserQuit b] | None => [] end /\
  (out_state o = g \/
   out_state o = Browser.mkGlobals None (Browser.browser_type g)
                                   (Browser.HAS_WIN32 g)) /\
  (obeys env quit_succeeds -> Browser.browser (out_state o) = None) /\
  (is_ok (out_res o) = false -> last (out_trace o) = Some CallShutdownFunc).
Proof.
  cbv zeta. unfold BrowserEndpoints.shutdown. simpl.
  destruct (Browser.browser g) as [b|] eqn:Hb; simpl.
  - pose proof (fun H : obeys env quit_succeeds => H (BrowserQuit b) w) as Hq.
    simpl in Hq.
    destruct (env (BrowserQuit b) w) as [[[]|e] w1]; simpl;
      destruct (env WerkzeugShutdownFunc w1) as [[|] w2]; simpl;
      try (destruct (env CallShutdownFunc w2) as [[[]|e'] w3]; simpl);
      repeat split; auto; try discriminate;
      intros H; specialize (Hq H); discriminate Hq.
  - destruct (env WerkzeugShutdownFunc w) as [[|] w2]; simpl;
      try (destruct (env CallShutdownFunc w2) as [[[]|e'] w3]; simpl);
      repeat split; auto; discriminate.
Qed.

(** After a [browser_close] that answered with success, the screenshot,
    page-information and focus endpoints answer "Browser not running"
    without a call to the outside and without touching the globals. *)
Theorem closed_browser_is_not_running (g : Browser.Globals) (w : W)
    (resp : Dict) :
  let o := run env Browser.browser_close g w in
  out_res o = Ok resp -> is_success resp = true ->
  Forall (fun endpoint =>
            run env endpoint (out_state o) (out_world o) =
            mkOutcome (Ok BrowserEndpoints.not_running)
                      (out_state o) (out_world o) [])
         [Browser.browser_screenshot; BrowserEndpoints.browser_get_info;
          BrowserEndpoints.browser_focus].
Proof.
  intros o Hres Hok.
  assert (Hnone : Browser.browser (out_state o) = None).
  { subst o. rewrite run_browser_close in *.
    destruct (Browser.browser g) as [b|] eqn:Hb; [|exact Hb].
    cbv zeta in *.
    destruct (fst (env (BrowserQuit b) w));
      cbn [out_res out_state Browser.browser] in *; [reflexivity|].
    apply (f_equal succeeded) in Hres. cbn [succeeded] in Hres.
    rewrite is_success_error in Hres. congruence. }
  repeat constructor.
  - unfold Browser.browser_screenshot. simpl. rewrite Hnone. reflexivity.
  - unfold BrowserEndpoints.browser_get_info. simpl. rewrite Hnone. reflexivity.
  - unfold BrowserEndpoints.browser_focus. simpl. rewrite Hnone. reflexivity.
Qed.

End ShutdownRuns.

Lemma shutdown_quits_what_is_held_witness :
  let o := run (sim calm) Office.shutdown apps7 world0 in
  out_trace o = [Quit 7; WerkzeugShutdownFunc] /\
  out_state o !! "word" = Some None.
Proof.
  split; [reflexivity|].
  refine (proj1 (proj2 (proj2 (shutdown_quits_what_is_held (sim calm) apps7 world0)))
                _ Office.Word _).
  - intros c w. destruct c; exact I || reflexivity.
  - vm_compute. discriminate.
Defined.

Lemma browser_shutdown_quits_session_witness :
  let g := Browser.mkGlobals (Some 5) "chrome" false in
  let o := run (sim calm) BrowserEndpoints.shutdown g world0 in
  out_trace o = [BrowserQuit 5; WerkzeugShutdownFunc] /\
  Browser.browser (out_state o) = None.
Proof.
  split; [reflexivity|].
  refine (proj1 (proj2 (proj2 (browser_shutdown_quits_session (sim calm)
                                 (Browser.mkGlobals (Some 5) "chrome" false)
                                 world0))) _).
  intros c w. destruct c; exact I || reflexivity.
Defined.

Lemma closed_browser_is_not_running_witness :
  let g := Browser.mkGlobals (Some 5) "chrome" false in
  let o := run (sim calm) Browser.browser_close g world0 in
  out_trace o = [BrowserQuit 5] /\
  out_res (run (sim calm) BrowserEndpoints.browser_get_info
               (out_state o) (out_world o)) =
  Ok BrowserEndpoints.not_running.
Proof.
  split; [reflexivity|].
  pose proof (closed_browser_is_not_running (casing := ascii_lower) (sim calm)
                (Browser.mkGlobals (Some 5) "chrome" false) world0 _
                eq_refl eq_refl) as H.
  apply Forall_cons in H as [_ H]. apply Forall_cons in H as [H _].
  exact (f_equal out_res H).
Defined.

(** ** More on the capture *)

Section CaptureSteps.
Import Office.
Context {W : Type} (env : Env W) {S : Type}.

(** A window that has no extent is not captured: the positioning stops
    at the rectangle read after maximizing, the function returns [None],
    and no pixel was taken and no window brought to the foreground. *)
Theorem window_without_extent_is_not_captured (hwnd : HWND) (s : S) (w : W) :
  obeys env (no_extent hwnd) ->
  let o := run env (capture_window_screenshot hwnd) s w in
  out_res o = Ok None /\
  existsb takes_pixels (out_trace o) = false /\
  existsb sets_foreground (out_trace o) = false /\
  out_state o = s.
Proof.
  intros Henv.
  apply (always_run env (no_extent hwnd) (capture_window_screenshot hwnd)
           (fun r s' tr => r = Ok None /\ existsb takes_pixels tr = false /\
                           existsb sets_foreground tr = false /\ s' = s)
           s w [] Henv).
  unfold capture_window_screenshot, make_capturable, restore_window,
    move_to_primary, maximize_window, screenshot_error.
  apply always_catch. cbn [bind always lift].
  intros [[]|e] _; cbn [bind always lift]; [|intros [] _ [] _; auto].
  intros [z|e] _; cbn [bind always lift]; [|intros [] _ [] _; auto].
  intros [] _.
  intros [r0|e] _; cbn [bind always lift]; [|intros [] _ [] _; auto].
  intros [z1|e] _; cbn [bind always lift]; [|intros [] _ [] _; auto].
  intros [] _.
  intros [z2|e] _; cbn [bind always lift]; [|intros [] _ [] _; auto].
  intros [] _.
  intros [r1|e] Hr1; cbn [bind always lift]; [|intros [] _ [] _; auto].
  cbn in Hr1. specialize (Hr1 eq_refl r1 eq_refl).
  assert (Hdeg : (Z.leb (rect_width r1) 0 || Z.leb (rect_height r1) 0)%bool = true).
  { apply orb_true_iff. destruct Hr1; [left|right]; apply Z.leb_le; assumption. }
  rewrite Hdeg. cbn [bind always lift]. intros [] _. auto.
Qed.


(** leaves aside the calls of the trace that come before the next one
    looked for *)
Ltac find_sublist :=
  repeat first [ apply sublist_nil_l | apply sublist_skip | apply sublist_cons ].

Ltac find_in := repeat first [ left; reflexivity | right ].

Lemma always_printwindow (R : Answers) (hwnd : HWND) (rect : Rect) (s : S) :
  always R (@strategy_printwindow S hwnd rect)
    (fun r _ tr =>
       forall image, r = Ok image ->
       exists hwnd_dc mfc_dc save_dc bmp handle,
         take 3 tr =
           [GetWindowDC hwnd; CreateDCFromHandle hwnd_dc;
            CreateCompatibleDC mfc_dc] /\
         In (SelectObject save_dc bmp) tr /\
         [SelectObject save_dc bmp; GetHandle bmp; DeleteObject handle;
          DeleteDC save_dc; DeleteDC mfc_dc; ReleaseDC hwnd hwnd_dc]
           `sublist_of` tr /\
         ((forall hdc x, R (PrintWindow hwnd hdc 2) x ->
                         x = Ok 0 \/ exists e, x = Err e) ->
          In (BitBlt save_dc (rect_width rect) (rect_height rect) mfc_dc SRCCOPY)
             tr))
    s [].
Proof.
  unfold strategy_printwindow, save_png_base64.
  cbn [bind catch always lift].
  intros [hwnd_dc|?] _; cbn [bind catch always lift].
  2: { intros image' Himage; discriminate Himage. }
  intros [mfc_dc|?] _; cbn [bind catch always lift].
  2: { intros image' Himage; discriminate Himage. }
  intros [save_dc|?] _; cbn [bind catch always lift].
  2: { intros image' Himage; discriminate Himage. }
  intros [bmp|?] _; cbn [bind catch always lift].
  2: { intros image' Himage; discriminate Himage. }
  intros [?|?] _; cbn [bind catch always lift].
  2: { intros image' Himage; discriminate Himage. }
  intros [?|?] _; cbn [bind catch always lift].
  2: { intros image' Himage; discriminate Himage. }
  assert (Htail : forall middle,
    ((forall hdc x, R (PrintWindow hwnd hdc 2) x ->
                    x = Ok 0 \/ exists e, x = Err e) ->
     In (BitBlt save_dc (rect_width rect) (rect_height rect) mfc_dc SRCCOPY)
        middle) ->
    always R
      (bmp_info <- Vis (GetInfo bmp) lift ;;
       bmp_str <- Vis (GetBitmapBits bmp) lift ;;
       pixels <- Vis (ImageFromBuffer bmp_info bmp_str) lift ;;
       handle <- Vis (GetHandle bmp) lift ;;
       Vis (DeleteObject handle) lift ;;;
       Vis (DeleteDC save_dc) lift ;;;
       Vis (DeleteDC mfc_dc) lift ;;;
       Vis (ReleaseDC hwnd hwnd_dc) lift ;;;
       png <- Vis (ImageSavePNG (mkImage bmp_info pixels)) lift ;;
       Ret (b64encode png))
      (fun r (_ : S) tr =>
         forall image, r = Ok image ->
         exists hwnd_dc0 mfc_dc0 save_dc0 bmp0 handle,
           take 3 tr =
             [GetWindowDC hwnd; CreateDCFromHandle hwnd_dc0;
              CreateCompatibleDC mfc_dc0] /\
           In (SelectObject save_dc0 bmp0) tr /\
           [SelectObject save_dc0 bmp0; GetHandle bmp0; DeleteObject handle;
            DeleteDC save_dc0; DeleteDC mfc_dc0; ReleaseDC hwnd hwnd_dc0]
             `sublist_of` tr /\
           ((forall hdc x, R (PrintWindow hwnd hdc 2) x ->
                           x = Ok 0 \/ exists e, x = Err e) ->
            In (BitBlt save_dc0 (rect_width rect) (rect_height rect) mfc_dc0
                       SRCCOPY) tr))
      s ([GetWindowDC hwnd; CreateDCFromHandle hwnd_dc;
          CreateCompatibleDC mfc_dc; CreateBitmap;
          CreateCompatibleBitmap bmp mfc_dc (rect_width rect) (rect_height rect);
          SelectObject save_dc bmp] ++ middle)).
  { intros middle Hmiddle. cbn [bind catch always lift].
    intros [bmp_info|?] _; cbn [bind catch always lift].
  2: { intros image' Himage; discriminate Himage. }
    intros [bmp_str|?] _; cbn [bind catch always lift].
  2: { intros image' Himage; discriminate Himage. }
    intros [pixels|?] _; cbn [bind catch always lift].
  2: { intros image' Himage; discriminate Himage. }
    intros [handle|?] _; cbn [bind catch always lift].
  2: { intros image' Himage; discriminate Himage. }
    intros [?|?] _; cbn [bind catch always lift].
  2: { intros image' Himage; discriminate Himage. }
    intros [?|?] _; cbn [bind catch always lift].
  2: { intros image' Himage; discriminate Himage. }
    intros [?|?] _; cbn [bind catch always lift].
  2: { intros image' Himage; discriminate Himage. }
    intros [?|?] _; cbn [bind catch always lift].
  2: { intros image' Himage; discriminate Himage. }
    intros [png|?] _; cbn [bind catch always lift].
  2: { intros image' Himage; discriminate Himage. }
    intros image _. exists hwnd_dc, mfc_dc, save_dc, bmp, handle.
    rewrite <- !app_assoc. cbn [app take].
    split; [reflexivity|]. split; [find_in|]. split.
    - do 5 apply sublist_cons. apply sublist_skip. apply sublist_inserts_l.
      find_sublist.
    - intros Href. do 6 right. apply in_or_app. left. apply Hmiddle, Href. }
  intros [hdc|?] _; cbn [bind catch always lift].
  - intros [result|?] Hprint; cbn [bind catch always lift].
    + destruct (Z.eqb_spec result 0) as [->|Hne]; cbn [bind catch always lift].
      * intros [?|?] _; cbn [bind catch always lift].
        -- rewrite <- !app_assoc. cbn [app].
           apply (Htail [GetSafeHdc save_dc; PrintWindow hwnd hdc 2;
                         BitBlt save_dc (rect_width rect) (rect_height rect)
                                mfc_dc SRCCOPY]).
           intros _. find_in.
        -- intros [?|?] _; cbn [bind catch always lift].
           2: { intros image' Himage; discriminate Himage. }
           rewrite <- !app_assoc. cbn [app].
           apply (Htail [GetSafeHdc save_dc; PrintWindow hwnd hdc 2;
                         BitBlt save_dc (rect_width rect) (rect_height rect)
                                mfc_dc SRCCOPY;
                         BitBlt save_dc (rect_width rect) (rect_height rect)
                                mfc_dc SRCCOPY]).
           intros _. find_in.
      * rewrite <- !app_assoc. cbn [app].
        apply (Htail [GetSafeHdc save_dc; PrintWindow hwnd hdc 2]).
        intros Href. destruct (Href _ _ Hprint) as [Hzero|[e Herr]].
        -- injection Hzero as ->. contradiction.
        -- discriminate Herr.
    + intros [?|?] _; cbn [bind catch always lift].
      2: { intros image' Himage; discriminate Himage. }
      rewrite <- !app_assoc. cbn [app].
      apply (Htail [GetSafeHdc save_dc; PrintWindow hwnd hdc 2;
                    BitBlt save_dc (rect_width rect) (rect_height rect)
                           mfc_dc SRCCOPY]).
      intros _. find_in.
  - intros [?|?] _; cbn [bind catch always lift].
    2: { intros image' Himage; discriminate Himage. }
    rewrite <- !app_assoc. cbn [app].
    apply (Htail [GetSafeHdc save_dc;
                  BitBlt save_dc (rect_width rect) (rect_height rect)
                         mfc_dc SRCCOPY]).
    intros _. find_in.
Qed.


End CaptureSteps.

Lemma window_without_extent_is_not_captured_witness :
  let o := run (collapsed calm) (Office.capture_window_screenshot 12) tt world0 in
  out_res o = Ok None /\
  existsb takes_pixels (out_trace o) = false /\
  last (out_trace o) = Some (Print "Invalid window dimensions").
Proof.
  assert (Henv : obeys (collapsed calm) (no_extent 12)).
  { intros c w. destruct c; try exact I.
    simpl. intros _ r [= <-]. left. vm_compute. discriminate. }
  destruct (window_without_extent_is_not_captured (collapsed calm) 12 tt world0 Henv)
    as (Hres & Hpix & _).
  split; [exact Hres|]. split; [exact Hpix|reflexivity].
Defined.



(** ** Finding the browser and its window *)

Section Finding.
Import Browser.
Context {casing : StrLower} {W : Type} (env : Env W).

Lemma run_first_existing (expand : string -> string) (exists_ : string -> bool)
    {S} (paths : list string) (s : S) (w : W) :
  obeys env (filesystem expand exists_) ->
  out_res (run env (first_existing paths) s w) = Ok (List.find exists_ paths) /\
  out_trace (run env (first_existing paths) s w) =
    map PathExists (until_found exists_ paths).
Proof.
  intros Henv. revert w.
  induction paths as [|p ps IH]; intros w; simpl.
  - split; reflexivity.
  - pose proof (Henv (PathExists p) w) as Hp. simpl in Hp.
    destruct (env (PathExists p) w) as [x w1]. simpl in *. subst x.
    destruct (exists_ p); simpl.
    + split; reflexivity.
    + destruct (IH w1) as [Hres Htr]. rewrite Hres, Htr. split; reflexivity.
Qed.

(** answers the calls on the files from the hypothesis on them *)
Ltac files :=
  repeat first
    [ match goal with
      | Henv : obeys ?env (filesystem _ _) |- context [?env ?c ?x] =>
          let H := fresh in
          pose proof (Henv c x) as H; simpl in H;
          destruct (env c x) as [? ?]; simpl in H; subst; simpl
      end
    | match goal with
      | |- context [if ?b then _ else _] => destruct b eqn:?; simpl
      end
    | reflexivity ].

(** While the files of the machine stay as they are, the search through
    a list of paths returns the first path that exists, [None] when none
    does, and asks for no path after the one it returns;
    [find_chrome_path] and [find_edge_path] are that search through
    their candidates, expanded, in the order written. *)
Theorem installed_browser_is_first_candidate (expand : string -> string)
    (exists_ : string -> bool) {S} (s : S) (w : W) :
  obeys env (filesystem expand exists_) ->
  (forall paths,
      let o := run env (first_existing paths) s w in
      out_res o = Ok (List.find exists_ paths) /\
      out_trace o = map PathExists (until_found exists_ paths)) /\
  out_res (run env find_chrome_path s w) =
    Ok (List.find exists_ (map expand chrome_candidates)) /\
  out_res (run env find_edge_path s w) =
    Ok (List.find exists_ (map expand edge_candidates)).
Proof.
  intros Henv. split; [|split].
  - intros paths. apply (run_first_existing expand exists_), Henv.
  - unfold find_chrome_path, chrome_candidates. simpl. files.
  - unfold find_edge_path, edge_candidates. simpl. files.
Qed.

Lemma never_calls_nothing {S A} (p : Prog S A) : never_calls (fun _ => false) p.
Proof.
  induction p as [a|e|k IH|s' k IH|c k IH]; simpl; auto.
Qed.

Lemma always_forall {S A X} (R : Answers) (p : Prog S A)
    (Q : X -> res A -> S -> list Call -> Prop) (s : S) (tr : list Call) :
  (forall x, always R p (Q x) s tr) ->
  always R p (fun r s' tr' => forall x, Q x r s' tr') s tr.
Proof.
  revert s tr.
  induction p as [a|e|k IH|s' k IH|c k IH]; intros s tr H; simpl in *; auto.
Qed.

Section Desktop.
Context (d : Desktop) (pattern : string).

(** the enumeration of [bring_window_to_front] collects the visible
    windows whose title contains the pattern, and raises none *)
Lemma always_title_loop (hwnds results : list HWND) (g : Globals)
    (tr : list Call) :
  (forall h, In h hwnds -> In h (top_level d)) ->
  always (desktop d) (enum_loop (title_callback pattern) hwnds results)
    (fun r g' tr' =>
       r = Ok (results ++ List.filter (titled d pattern) hwnds)%list /\
       g' = g /\ forall h, extends (raises h) tr tr')
    g tr.
Proof.
  revert results tr.
  induction hwnds as [|hwnd hwnds IH]; intros results tr Hsub;
    cbn [enum_loop List.filter].
  - cbn [always]. rewrite app_nil_r. repeat split. intros h. apply extends_refl.
  - assert (Hin : In hwnd (top_level d)) by (apply Hsub; left; reflexivity).
    assert (Hrest : forall h, In h hwnds -> In h (top_level d))
      by (intros h Hh; apply Hsub; right; exact Hh).
    assert (Hnext : forall results' tr',
               (forall h, extends (raises h) tr tr') ->
               always (desktop d)
                 (enum_loop (title_callback pattern) hwnds results')
                 (fun r g' tr'' =>
                    r = Ok (results' ++ List.filter (titled d pattern) hwnds)%list /\
                    g' = g /\ forall h, extends (raises h) tr tr'')
                 g tr').
    { intros results' tr' Hext.
      eapply always_mono; [|apply IH, Hrest].
      intros r g' tr'' (-> & -> & Hext'). repeat split.
      intros h. eapply extends_trans; [apply Hext|apply Hext']. }
    apply always_bind. unfold title_callback, titled.
    cbn [bind always lift]. intros x Hx. cbn in Hx. rewrite (Hx Hin).
    cbn [bind always lift]. destruct (visible d hwnd); cbn [andb bind always lift].
    + intros t Ht. cbn in Ht. rewrite (Ht Hin). cbn [bind always lift].
      destruct (contains_ci pattern (title_of d hwnd)); cbn [always].
      * eapply always_mono; [|apply Hnext].
        -- intros r g' tr' (-> & -> & Hext). rewrite <- app_assoc. auto.
        -- intros h. eapply extends_trans; apply extends_snoc; reflexivity.
      * apply Hnext.
        intros h. eapply extends_trans; apply extends_snoc; reflexivity.
    + apply Hnext. intros h. apply extends_snoc. reflexivity.
Qed.

(** raising the window found touches no other window; an answer [True]
    comes after the window was shown and brought to the top *)
Lemma always_raise_window (R : Answers) (hwnd : HWND) (g : Globals)
    (tr : list Call) :
  always R (raise_window hwnd)
    (fun r g' tr' =>
       (g' = g /\
        exists b, r = Ok b /\
          (b = true -> In (ShowWindow hwnd SW_SHOW) tr' /\
                       In (BringWindowToTop hwnd) tr')) /\
       forall h, h <> hwnd -> extends (raises h) tr tr')
    g tr.
Proof.
  apply always_and.
  - unfold raise_window. apply always_catch. cbn [bind always lift].
    assert (Hfail : forall tr', always R
              (Vis (Print "[bring_window_to_front] Error")
                   (fun _ => @Ret Globals bool false))
              (fun r g' tr'' =>
                 g' = g /\ exists b, r = Ok b /\
                   (b = true -> In (ShowWindow hwnd SW_SHOW) tr'' /\
                                In (BringWindowToTop hwnd) tr'')) g tr').
    { intros tr'. cbn [always]. intros _ _. split; [reflexivity|].
      exists false. split; [reflexivity|discriminate]. }
    assert (Hshow : forall tr', always R
              (Vis (ShowWindow hwnd SW_SHOW)
                 (fun x => lift x ;;;
                    Vis (BringWindowToTop hwnd)
                      (fun x0 => lift x0 ;;;
                         set_foreground_attached hwnd ;;; Ret true)))
              (fun r g' tr'' =>
                 match r with
                 | Ok a => g' = g /\ exists b, Ok a = Ok b /\
                     (b = true -> In (ShowWindow hwnd SW_SHOW) tr'' /\
                                  In (BringWindowToTop hwnd) tr'')
                 | Err e => always R
                     (Vis (Print "[bring_window_to_front] Error")
                          (fun _ => Ret false))
                     (fun r g' tr'' =>
                        g' = g /\ exists b, r = Ok b /\
                          (b = true -> In (ShowWindow hwnd SW_SHOW) tr'' /\
                                       In (BringWindowToTop hwnd) tr''))
                     g' tr''
                 end) g tr').
    { intros tr'. cbn [bind always lift].
      intros [?|?] _; cbn [bind always lift]; [|apply Hfail].
      intros [?|?] _; cbn [bind always lift]; [|apply Hfail].
      apply always_bind.
      eapply always_mono;
        [|apply always_and;
          [apply (always_quiet (fun _ => false));
           [unfold set_foreground_attached, attach_trick, foreground_from; quiet
           |apply never_calls_nothing]
          |apply always_true]].
      intros [[]|e] g' tr'' [[-> [ext [-> _]]] _]; [|apply Hfail].
      cbn [always]. split; [reflexivity|]. exists true.
      split; [reflexivity|]. intros _.
      split; apply in_or_app; left; apply in_or_app.
      - left. apply in_or_app. right. left. reflexivity.
      - right. left. reflexivity. }
    intros [[|]|?] _; cbn [bind always lift]; [| |apply Hfail].
    + intros [?|?] _; cbn [bind always lift]; [|apply Hfail].
      apply Hshow.
    + apply Hshow.
  - apply always_forall. intros h. apply always_forall. intros Hne.
    eapply always_mono; [|apply (always_never_calls (raises h))].
    + intros r g' tr' H. exact H.
    + unfold raise_window, set_foreground_attached, attach_trick,
        foreground_from.
      quiet_with ltac:(apply Z.eqb_neq; congruence).
Qed.

End Desktop.

(** Without pywin32 [bring_window_to_front] answers [False] with no
    call.  With it, and while the window manager shows [d], it goes for
    the first visible window, in the order listed, whose title contains
    the pattern whatever the case of the letters: it never raises an
    exception, answers [False] when there is no such window, answers
    [True] only after that window was shown and brought to the top, and
    shows or raises no other window. *)
Theorem bring_window_to_front_first_match (d : Desktop) (pattern : string)
    (g : Globals) (w : W) :
  obeys env (desktop d) ->
  let o := run env (bring_window_to_front pattern) g w in
  let target := head (List.filter (titled d pattern) (top_level d)) in
  out_state o = g /\
  (HAS_WIN32 g = false -> o = mkOutcome (Ok false) g w []) /\
  (HAS_WIN32 g = true ->
   (exists b, out_res o = Ok b /\
      (b = true -> exists hwnd,
          target = Some hwnd /\
          In (ShowWindow hwnd SW_SHOW) (out_trace o) /\
          In (BringWindowToTop hwnd) (out_trace o))) /\
   (target = None -> out_res o = Ok false) /\
   (forall hwnd, existsb (raises hwnd) (out_trace o) = true ->
                 target = Some hwnd)).
Proof.
  intros Henv. cbv zeta.
  split; [apply keeps_state_run, keeps_state_bring_window_to_front|].
  split.
  { intros Hwin. unfold bring_window_to_front. simpl. rewrite Hwin. reflexivity. }
  intros Hwin.
  apply (always_run env (desktop d) (bring_window_to_front pattern)
           (fun r _ tr =>
              (exists b, r = Ok b /\
                 (b = true -> exists hwnd,
                     head (List.filter (titled d pattern) (top_level d)) = Some hwnd /\
                     In (ShowWindow hwnd SW_SHOW) tr /\
                     In (BringWindowToTop hwnd) tr)) /\
              (head (List.filter (titled d pattern) (top_level d)) = None ->
               r = Ok false) /\
              (forall hwnd, existsb (raises hwnd) tr = true ->
                            head (List.filter (titled d pattern) (top_level d))
                            = Some hwnd))
           g w [] Henv).
  unfold bring_window_to_front, enum_windows.
  cbn [get_state bind always lift]. rewrite Hwin. cbn [negb bind always lift].
  intros x Hx. cbn in Hx. subst x. cbn [bind always lift].
  apply always_bind.
  eapply always_mono; [|apply (always_title_loop d pattern); auto].
  intros r g' tr' (-> & -> & Hext). cbn [app].
  destruct (List.filter (titled d pattern) (top_level d)) as [|hwnd rest];
    cbn [head always].
  - split; [|split].
    + exists false. split; [reflexivity|discriminate].
    + reflexivity.
    + intros h Hh. rewrite (extends_existsb _ _ _ (Hext h)) in Hh.
      discriminate Hh.
  - eapply always_mono; [|apply always_raise_window].
    intros r g'' tr'' [[-> (b & -> & Hb)] Hother].
    split; [|split].
    + exists b. split; [reflexivity|]. intros Htrue. exists hwnd.
      split; [reflexivity|apply Hb, Htrue].
    + discriminate.
    + intros h Hh. destruct (Z.eq_dec h hwnd) as [->|Hne]; [reflexivity|].
      rewrite (extends_existsb _ _ _ (Hother h Hne)) in Hh.
      rewrite (extends_existsb _ _ _ (Hext h)) in Hh. discriminate Hh.
Qed.

End Finding.

Lemma installed_browser_is_first_candidate_witness :
  out_res (run (sim chrome_x86) (@Browser.find_chrome_path unit) tt world0) =
  Ok (Some "%ProgramFiles(x86)%\Google\Chrome\Application\chrome.exe") /\
  out_res (run (sim chrome_x86) (@Browser.find_edge_path unit) tt world0) = Ok None.
Proof.
  assert (Henv : obeys (sim chrome_x86)
                   (filesystem (fun p => p) (sc_paths chrome_x86))).
  { intros c w. destruct c; exact I || reflexivity. }
  destruct (installed_browser_is_first_candidate (sim chrome_x86) (fun p => p)
              (sc_paths chrome_x86) tt world0 Henv) as (_ & Hchrome & Hedge).
  split; [exact Hchrome|exact Hedge].
Defined.

Lemma plain_screenshot_keeps_size_witness :
  let g := Browser.mkGlobals (Some 5) "chrome" false in
  let o := run (sim calm) Browser.browser_screenshot g world0 in
  existsb resizes (out_trace o) = false /\
  window_size (out_world o) = window_size world0.
Proof.
  split; [|reflexivity].
  apply (plain_screenshot_keeps_size (sim calm)
           (Browser.mkGlobals (Some 5) "chrome" false) world0 None);
    reflexivity.
Defined.

Lemma bring_window_to_front_first_match_witness :
  let g := Browser.globals_init true in
  let o := run (sim chrome_x86)
               (@Browser.bring_window_to_front ascii_lower "chrome") g world0 in
  out_res o = Ok true /\
  existsb (raises 21) (out_trace o) = true /\
  head (List.filter (@titled ascii_lower (desktop_of chrome_x86) "chrome")
                    (top_level (desktop_of chrome_x86))) = Some 21.
Proof.
  assert (Henv : obeys (sim chrome_x86) (desktop (desktop_of chrome_x86))).
  { intros c w. destruct c; try exact I; try reflexivity;
      simpl; intros [ <- | [] ]; reflexivity. }
  destruct (bring_window_to_front_first_match (casing := ascii_lower)
              (sim chrome_x86)
              (desktop_of chrome_x86) "chrome" (Browser.globals_init true)
              world0 Henv) as (_ & _ & Hwin).
  destruct (Hwin eq_refl) as (_ & _ & Honly).
  split; [reflexivity|]. split; [reflexivity|].
  apply Honly. reflexivity.
Defined.

(** ** Colours *)

Section ColorFacts.
Import Formatting.
Variable int_of_str : string -> Z -> res Z.

Lemma hex_value_range (c : ascii) (x : Z) : hex_value c = Some x -> 0 <= x < 16.
Proof.
  unfold hex_value.
  repeat match goal with
  | |- context [(N.leb ?a ?b && N.leb ?c ?d)%bool] =>
      destruct (N.leb_spec a b); destruct (N.leb_spec c d); cbn [andb]
  end; intros [= <-]; lia.
Qed.

Lemma lstrip_hash_hashes (n : nat) (s : string) :
  lstrip_hash (hashes n s) = lstrip_hash s.
Proof. induction n as [|n IH]; simpl; [reflexivity|exact IH]. Qed.

Lemma lstrip_hash_hex (c : ascii) (x : Z) (s : string) :
  hex_value c = Some x -> lstrip_hash (String c s) = String c s.
Proof.
  intros H.
  destruct c as [[] [] [] [] [] [] [] []]; try reflexivity.
  vm_compute in H. discriminate.
Qed.

Lemma rgb_hex6 r1 r2 g1 g2 b1 b2 rest x1 x2 y1 y2 z1 z2 :
  reads_hex_pairs int_of_str ->
  hex_value r1 = Some x1 -> hex_value r2 = Some x2 ->
  hex_value g1 = Some y1 -> hex_value g2 = Some y2 ->
  hex_value b1 = Some z1 -> hex_value b2 = Some z2 ->
  rgb int_of_str (hex6 r1 r2 g1 g2 b1 b2 rest) =
  Ok (16 * x1 + x2, 16 * y1 + y2, 16 * z1 + z2).
Proof.
  intros Hhex H1 H2 H3 H4 H5 H6. unfold rgb, hex6. cbn [substring].
  replace (substring 0 0 _) with "" by (destruct rest; reflexivity).
  rewrite (Hhex _ _ _ _ H1 H2), (Hhex _ _ _ _ H3 H4), (Hhex _ _ _ _ H5 H6).
  reflexivity.
Qed.

Lemma is_hex_hashes (n : nat) (s : string) :
  is_hex (JStr (hashes (S n) s)) = Some (hashes (S n) s).
Proof. unfold is_hex. simpl. destruct (hashes n s); reflexivity. Qed.

(** the parsing of a colour written with six hexadecimal digits *)
Lemma rgb_of_hex_colour (n : nat) (r1 r2 g1 g2 b1 b2 : ascii) (rest : string)
    (x1 x2 y1 y2 z1 z2 : Z) :
  reads_hex_pairs int_of_str ->
  hex_value r1 = Some x1 -> hex_value r2 = Some x2 ->
  hex_value g1 = Some y1 -> hex_value g2 = Some y2 ->
  hex_value b1 = Some z1 -> hex_value b2 = Some z2 ->
  is_hex (JStr (hashes (S n) (hex6 r1 r2 g1 g2 b1 b2 rest))) =
    Some (hashes (S n) (hex6 r1 r2 g1 g2 b1 b2 rest)) /\
  rgb int_of_str (lstrip_hash (hashes (S n) (hex6 r1 r2 g1 g2 b1 b2 rest))) =
    Ok (16 * x1 + x2, 16 * y1 + y2, 16 * z1 + z2).
Proof.
  intros Hhex H1 H2 H3 H4 H5 H6. split; [apply is_hex_hashes|].
  rewrite lstrip_hash_hashes. unfold hex6 at 1.
  rewrite (lstrip_hash_hex _ _ _ H1). fold (hex6 r1 r2 g1 g2 b1 b2 rest).
  apply rgb_hex6; assumption.
Qed.

(** For a colour written as one or more hash signs and six hexadecimal
    digits, the Word and Excel endpoints compute red + 256 green +
    65536 blue: a number below 2^24 whose low byte is red, whose next
    byte is green and whose third byte is blue.  Characters after the
    sixth digit are ignored. *)
Theorem color_int_packs_channels (n : nat) (r1 r2 g1 g2 b1 b2 : ascii)
    (rest : string) (x1 x2 y1 y2 z1 z2 : Z) :
  reads_hex_pairs int_of_str ->
  hex_value r1 = Some x1 -> hex_value r2 = Some x2 ->
  hex_value g1 = Some y1 -> hex_value g2 = Some y2 ->
  hex_value b1 = Some z1 -> hex_value b2 = Some z2 ->
  let red := 16 * x1 + x2 in
  let green := 16 * y1 + y2 in
  let blue := 16 * z1 + z2 in
  exists v : Z,
    color_int int_of_str (JStr (hashes (S n) (hex6 r1 r2 g1 g2 b1 b2 rest)))
      = Ok v /\
    v = red + 256 * green + 65536 * blue /\
    0 <= v < 16777216 /\
    Z.land v 255 = red /\
    Z.land (Z.shiftr v 8) 255 = green /\
    Z.shiftr v 16 = blue.
Proof.
  intros Hhex H1 H2 H3 H4 H5 H6. cbv zeta.
  destruct (rgb_of_hex_colour n _ _ _ _ _ _ rest _ _ _ _ _ _
              Hhex H1 H2 H3 H4 H5 H6) as [Hhash Hrgb].
  unfold color_int. rewrite Hhash, Hrgb. cbn [res_bind].
  apply hex_value_range in H1, H2, H3, H4, H5, H6.
  eexists. split; [reflexivity|].
  rewrite !Z.shiftl_mul_pow2 by lia.
  change (2 ^ 8) with 256. change (2 ^ 16) with 65536.
  split; [lia|]. split; [lia|].
  change 255 with (Z.ones 8). rewrite !Z.land_ones by lia.
  rewrite !Z.shiftr_div_pow2 by lia.
  change (2 ^ 8) with 256. change (2 ^ 16) with 65536.
  repeat split; Z.to_euclidean_division_equations; lia.
Qed.

(** The PowerPoint endpoints pack the same colour the other way round:
    blue + 256 green + 65536 red, which is what the Word and Excel
    endpoints compute for the colour with red and blue exchanged; the
    two agree exactly when red equals blue. *)
Theorem powerpoint_color_int_swaps_red_and_blue (n : nat)
    (r1 r2 g1 g2 b1 b2 : ascii) (rest : string) (x1 x2 y1 y2 z1 z2 : Z) :
  reads_hex_pairs int_of_str ->
  hex_value r1 = Some x1 -> hex_value r2 = Some x2 ->
  hex_value g1 = Some y1 -> hex_value g2 = Some y2 ->
  hex_value b1 = Some z1 -> hex_value b2 = Some z2 ->
  let red := 16 * x1 + x2 in
  let green := 16 * y1 + y2 in
  let blue := 16 * z1 + z2 in
  let colour := JStr (hashes (S n) (hex6 r1 r2 g1 g2 b1 b2 rest)) in
  let swapped := JStr (hashes (S n) (hex6 b1 b2 g1 g2 r1 r2 rest)) in
  powerpoint_color_int int_of_str colour = Ok (blue + 256 * green + 65536 * red) /\
  powerpoint_color_int int_of_str colour = color_int int_of_str swapped /\
  (powerpoint_color_int int_of_str colour = color_int int_of_str colour <->
   red = blue).
Proof.
  intros Hhex H1 H2 H3 H4 H5 H6. cbv zeta.
  destruct (rgb_of_hex_colour n _ _ _ _ _ _ rest _ _ _ _ _ _
              Hhex H1 H2 H3 H4 H5 H6) as [Hhash Hrgb].
  destruct (rgb_of_hex_colour n _ _ _ _ _ _ rest _ _ _ _ _ _
              Hhex H5 H6 H3 H4 H1 H2) as [Hhash' Hrgb'].
  unfold powerpoint_color_int, color_int.
  rewrite Hhash, Hrgb, Hhash', Hrgb'. cbn [res_bind].
  apply hex_value_range in H1, H2, H3, H4, H5, H6.
  rewrite !Z.shiftl_mul_pow2 by lia.
  change (2 ^ 8) with 256. change (2 ^ 16) with 65536.
  split; [f_equal; lia|]. split; [reflexivity|].
  split.
  - intros [= H]. lia.
  - intros H. f_equal. lia.
Qed.

Lemma substring_short (s : string) (i m : nat) :
  (String.length s <= i)%nat -> substring i m s = "".
Proof.
  revert s. induction i as [|i IH]; intros s Hlen.
  - destruct s; [|simpl in Hlen; lia]. destruct m; reflexivity.
  - destruct s as [|c s]; [reflexivity|].
    simpl. apply IH. simpl in Hlen. lia.
Qed.

(** A colour that starts with a hash sign and has fewer than five
    characters after the hash signs raises, in the Word and Excel
    endpoints and in the PowerPoint endpoints: its third slice is empty,
    and [int] of the empty string raises. *)
Theorem short_hex_colour_raises (s : string) :
  is_ok (int_of_str "" 16) = false ->
  String.prefix "#" s = true ->
  (String.length (lstrip_hash s) < 5)%nat ->
  is_ok (color_int int_of_str (JStr s)) = false /\
  is_ok (powerpoint_color_int int_of_str (JStr s)) = false.
Proof.
  intros Hempty Hhash Hshort.
  assert (Hrgb : is_ok (rgb int_of_str (lstrip_hash s)) = false).
  { unfold rgb. rewrite (substring_short _ 4 2) by lia.
    destruct (int_of_str (substring 0 2 (lstrip_hash s)) 16); [|reflexivity].
    destruct (int_of_str (substring 2 2 (lstrip_hash s)) 16); [|reflexivity].
    simpl. destruct (int_of_str "" 16); [discriminate Hempty|reflexivity]. }
  unfold color_int, powerpoint_color_int, is_hex. rewrite Hhash.
  destruct (rgb int_of_str (lstrip_hash s)); [discriminate Hrgb|].
  split; reflexivity.
Qed.

End ColorFacts.

Lemma int_hex_pair_reads_hex_pairs : reads_hex_pairs int_hex_pair.
Proof.
  intros a b x y Ha Hb. unfold int_hex_pair. rewrite Ha, Hb. reflexivity.
Qed.

Lemma color_int_packs_channels_witness :
  Formatting.color_int int_hex_pair (JStr "#FF8000") = Ok 33023 /\
  Z.land 33023 255 = 255.
Proof.
  destruct (color_int_packs_channels int_hex_pair 0 "F" "F" "8" "0" "0" "0" ""
              15 15 8 0 0 0 int_hex_pair_reads_hex_pairs
              eq_refl eq_refl eq_refl eq_refl eq_refl eq_refl)
    as (v & Hv & -> & _ & Hred & _).
  split; [exact Hv|exact Hred].
Defined.

Lemma powerpoint_color_int_swaps_red_and_blue_witness :
  Formatting.powerpoint_color_int int_hex_pair (JStr "#FF8000") = Ok 16744448 /\
  Formatting.powerpoint_color_int int_hex_pair (JStr "#FF8000") =
  Formatting.color_int int_hex_pair (JStr "#0080FF").
Proof.
  destruct (powerpoint_color_int_swaps_red_and_blue int_hex_pair 0
              "F" "F" "8" "0" "0" "0" "" 15 15 8 0 0 0
              int_hex_pair_reads_hex_pairs
              eq_refl eq_refl eq_refl eq_refl eq_refl eq_refl)
    as (Hv & Hswap & _).
  split; [exact Hv|exact Hswap].
Defined.

Lemma short_hex_colour_raises_witness :
  is_ok (Formatting.color_int int_hex_pair (JStr "#FFF")) = false.
Proof.
  apply (short_hex_colour_raises int_hex_pair "#FFF"); [reflexivity|reflexivity|].
  simpl. lia.
Defined.

(** ** Column letters *)

Section Columns.
Import Formatting.

Lemma end_col_loop_step (n : Z) (acc : string) :
  0 < n ->
  end_col_loop n acc =
  end_col_loop ((n - 1) / 26) (String (chr (65 + (n - 1) mod 26)) acc).
Proof.
  intros Hn. rewrite end_col_loop_equation_1.
  destruct (Z_lt_dec 0 n); [reflexivity|contradiction].
Qed.

Lemma end_col_loop_stop (n : Z) (acc : string) :
  n <= 0 -> end_col_loop n acc = acc.
Proof.
  intros Hn. rewrite end_col_loop_equation_1.
  destruct (Z_lt_dec 0 n); [lia|reflexivity].
Qed.

(** a letter counts for 1 to 26, and [chr] finds its capital again *)
Lemma letter_value (c : ascii) :
  is_letter c = true ->
  1 <= ord (upper_ascii c) - ord "A" + 1 <= 26 /\
  chr (65 + (ord (upper_ascii c) - ord "A")) = upper_ascii c /\
  is_letter (upper_ascii c) = true.
Proof.
  destruct c as [[] [] [] [] [] [] [] []]; intros H;
    try discriminate H; vm_compute; repeat split; congruence.
Qed.

Lemma letters_only_upper (s : string) :
  letters_only s = true -> letters_only (upper s) = true.
Proof.
  induction s as [|c s IH]; simpl; [reflexivity|].
  intros H. apply andb_true_iff in H as [Hc Hs].
  rewrite (proj2 (proj2 (letter_value c Hc))). apply IH, Hs.
Qed.

Lemma col_num_loop_nonneg (s : string) (acc : Z) :
  letters_only s = true -> 0 <= acc -> acc <= col_num_loop (upper s) acc.
Proof.
  revert acc. induction s as [|c s IH]; intros acc Hs Hacc; simpl.
  - lia.
  - simpl in Hs. apply andb_true_iff in Hs as [Hc Hs].
    pose proof (proj1 (letter_value c Hc)) as Hv.
    specialize (IH (acc * 26 + (ord (upper_ascii c) - ord "A" + 1)) Hs).
    lia.
Qed.

(** writing a number as letters and reading the letters gives the
    number *)
Lemma col_num_of_end_col (n : Z) (acc : string) :
  0 <= n -> col_num_loop (end_col_loop n acc) 0 = col_num_loop acc n.
Proof.
  revert acc.
  induction n as [n IH] using (well_founded_induction (Z.lt_wf 0)).
  intros acc Hn. destruct (Z.eq_dec n 0) as [->|Hpos].
  - rewrite end_col_loop_stop by lia. reflexivity.
  - rewrite end_col_loop_step by lia.
    assert (Hq : 0 <= (n - 1) / 26 < n).
    { split; [apply Z.div_pos; lia|apply Z.div_lt_upper_bound; lia]. }
    rewrite IH by lia. cbn [col_num_loop]. f_equal.
    assert (Hr : 0 <= (n - 1) mod 26 < 26) by (apply Z.mod_pos_bound; lia).
    assert (Hord : ord (chr (65 + (n - 1) mod 26)) = 65 + (n - 1) mod 26).
    { unfold ord, chr. rewrite N_ascii_embedding; [apply Z2N.id; lia|].
      apply N2Z.inj_lt. rewrite Z2N.id by lia. simpl. lia. }
    rewrite Hord. change (ord "A") with 65.
    pose proof (Z.div_mod (n - 1) 26). lia.
Qed.

(** the letters the loop writes are capital letters *)
Lemma capitals_only_end_col_loop (n : Z) (acc : string) :
  0 <= n -> capitals_only acc = true ->
  capitals_only (end_col_loop n acc) = true.
Proof.
  revert acc.
  induction n as [n IH] using (well_founded_induction (Z.lt_wf 0)).
  intros acc Hn Hacc. destruct (Z.eq_dec n 0) as [->|Hpos].
  - rewrite end_col_loop_stop by lia. exact Hacc.
  - rewrite end_col_loop_step by lia.
    assert (Hq : 0 <= (n - 1) / 26 < n).
    { split; [apply Z.div_pos; lia|apply Z.div_lt_upper_bound; lia]. }
    apply IH; [lia|lia|]. cbn [capitals_only]. rewrite Hacc, andb_true_r.
    assert (Hr : 0 <= (n - 1) mod 26 < 26) by (apply Z.mod_pos_bound; lia).
    unfold is_capital, chr. rewrite N_ascii_embedding.
    + apply andb_true_iff. split; apply N.leb_le; lia.
    + apply N2Z.inj_lt. rewrite Z2N.id by lia. simpl. lia.
Qed.

(** a capital letter is a letter that [upper] leaves as it is *)
Lemma capital_is_upper (c : ascii) :
  is_capital c = true -> is_letter c = true /\ upper_ascii c = c.
Proof.
  destruct c as [[] [] [] [] [] [] [] []]; intros H;
    try discriminate H; split; reflexivity.
Qed.

Lemma capitals_only_upper (s : string) :
  capitals_only s = true -> letters_only s = true /\ upper s = s.
Proof.
  induction s as [|c s IH]; simpl; [split; reflexivity|].
  intros H. apply andb_true_iff in H as [Hc Hs].
  destruct (capital_is_upper c Hc) as [Hl Hu].
  destruct (IH Hs) as [Hls Hus].
  rewrite Hl, Hls, Hu, Hus. split; reflexivity.
Qed.

(** reading letters and writing the number gives the letters, in
    capitals *)
Lemma end_col_of_col_num (s tail : string) (acc : Z) :
  letters_only s = true -> 0 <= acc ->
  end_col_loop (col_num_loop (upper s) acc) tail =
  end_col_loop acc (upper s ++ tail).
Proof.
  revert acc. induction s as [|c s IH]; intros acc Hs Hacc.
  - reflexivity.
  - simpl in Hs. apply andb_true_iff in Hs as [Hc Hs].
    destruct (letter_value c Hc) as (Hv & Hchr & _).
    cbn [upper col_num_loop]. rewrite IH by (try assumption; lia).
    rewrite end_col_loop_step by lia.
    replace ((acc * 26 + (ord (upper_ascii c) - ord "A" + 1) - 1) / 26)
      with acc by (Z.to_euclidean_division_equations; lia).
    replace ((acc * 26 + (ord (upper_ascii c) - ord "A" + 1) - 1) mod 26)
      with (ord (upper_ascii c) - ord "A")
      by (Z.to_euclidean_division_equations; lia).
    rewrite Hchr. reflexivity.
Qed.

Lemma append_empty (s : string) : (s ++ "")%string = s.
Proof.
  induction s as [|c s IH]; [reflexivity|].
  change (String c (String.append s "") = String c s). rewrite IH. reflexivity.
Qed.

(** The end column [excel_delete_column] computes for a column written
    in letters and a count of at least one is written in capital
    letters, A to Z, and names the column [count - 1] to the right of
    the first: it is the one name in capital letters of that column, so
    the range [column:end_col] spans [count] columns.  For a count of
    one it is the column itself, in capitals. *)
Theorem end_col_spans_count (column : string) (count : Z) :
  letters_only column = true -> 1 <= count ->
  capitals_only (end_col column count) = true /\
  col_num_loop (end_col column count) 0 =
    col_num_loop (upper column) 0 + count - 1 /\
  (forall name : string,
      capitals_only name = true ->
      col_num_loop name 0 = col_num_loop (upper column) 0 + count - 1 ->
      end_col column count = name) /\
  (count = 1 -> end_col column count = upper column).
Proof.
  intros Hletters Hcount. unfold end_col. cbv zeta.
  pose proof (col_num_loop_nonneg column 0 Hletters (Z.le_refl 0)) as Hnum.
  split; [|split; [|split]].
  - apply capitals_only_end_col_loop; [lia|reflexivity].
  - rewrite col_num_of_end_col by lia. reflexivity.
  - intros name Hname Hsame.
    destruct (capitals_only_upper name Hname) as [Hl Hu].
    rewrite <- Hsame, <- Hu.
    rewrite end_col_of_col_num by (try assumption; lia).
    rewrite end_col_loop_stop by lia. apply append_empty.
  - intros ->.
    replace (col_num_loop (upper column) 0 + 1 - 1)
      with (col_num_loop (upper column) 0) by lia.
    rewrite end_col_of_col_num by (try assumption; lia).
    rewrite end_col_loop_stop by lia. apply append_empty.
Qed.

End Columns.

Lemma end_col_spans_count_witness :
  Formatting.end_col "z" 3 = "AB" /\
  Formatting.col_num_loop "AB" 0 = Formatting.col_num_loop "Z" 0 + 3 - 1.
Proof.
  assert (Hcount : 1 <= 3) by lia.
  destruct (end_col_spans_count "z" 3 eq_refl Hcount) as (_ & Hnum & Hname & _).
  split; [apply Hname; reflexivity|exact Hnum].
Defined.

(** ** Loops over cells *)

Section CellLoops.
Import Formatting.
Context {W : Type} (env : Env W) {S : Type}.

Lemma run_bind_assoc {A B C} (p : Prog S A) (f : A -> Prog S B)
    (g : B -> Prog S C) (s : S) (w : W) :
  run env (bind (bind p f) g) s w =
  run env (bind p (fun x => bind (f x) g)) s w.
Proof.
  revert s w.
  induction p as [a|e|k IH|s' k IH|c k IH]; intros s w; simpl; auto.
  rewrite IH. reflexivity.
Qed.

Lemma run_bind_ext {A B} (p p' : Prog S A) (f f' : A -> Prog S B) (s : S) (w : W) :
  (forall s w, run env p s w = run env p' s w) ->
  (forall a s w, run env (f a) s w = run env (f' a) s w) ->
  run env (bind p f) s w = run env (bind p' f') s w.
Proof.
  intros Hp Hf. rewrite !run_bind. cbv zeta. rewrite Hp.
  destruct (out_res (run env p' s w)); [rewrite Hf|]; reflexivity.
Qed.

Lemma run_for_each_app {A} (l1 l2 : list A) (body : A -> Prog S unit)
    (s : S) (w : W) :
  run env (for_each (l1 ++ l2) body) s w =
  run env (for_each l1 body ;;; for_each l2 body) s w.
Proof.
  revert s w. induction l1 as [|x l1 IH]; intros s w.
  - reflexivity.
  - cbn [app for_each]. rewrite run_bind_assoc.
    apply run_bind_ext; [reflexivity|]. intros _ s' w'. apply IH.
Qed.

Lemma cells_from_cons {A} (r0 c0 : Z) (row : list A) (rest : list (list A)) :
  cells_from r0 c0 (row :: rest) =
  (imap (fun j v => (r0, c0 + Z.of_nat j, v)) row ++
   cells_from (r0 + 1) c0 rest)%list.
Proof.
  unfold cells_from. rewrite imap_cons. cbn [concat]. f_equal.
  - apply imap_ext. intros j v _. rewrite Z.add_0_r. reflexivity.
  - f_equal. apply imap_ext. intros i row' _. unfold compose.
    apply imap_ext. intros j v _. rewrite Nat2Z.inj_succ. solve [repeat (f_equal; try lia)].
Qed.

(** every cell listed lies in the first rows and columns of the values *)
Lemma cells_from_bounds {A} (r0 c0 : Z) (values : list (list A))
    (r c : Z) (v : A) :
  In (r, c, v) (cells_from r0 c0 values) ->
  exists (i j : nat) (row : list A),
    values !! i = Some row /\ row !! j = Some v /\
    r = r0 + Z.of_nat i /\ c = c0 + Z.of_nat j.
Proof.
  unfold cells_from. intros Hin. apply in_concat in Hin as (l & Hl & Hin).
  apply list_elem_of_In, elem_of_lookup_imap in Hl as (i & row & -> & Hrow).
  apply list_elem_of_In, elem_of_lookup_imap in Hin as (j & v' & Heq & Hv).
  injection Heq as -> -> ->. eauto 10.
Qed.

Section Table.
Variable html_unescape : string -> string.
Variable str : JVal -> string.
Variable set_cell_text : Z -> Z -> string -> Prog S unit.

Lemma run_fill_row (cols i j : Z) (row_data : list JVal) (s : S) (w : W) :
  run env (fill_row html_unescape str set_cell_text cols i j row_data) s w =
  run env (for_each (imap (fun k v => (i + 1, j + 1 + Z.of_nat k, v))
                          (take (Z.to_nat (cols - j)) row_data))
                    (set_text html_unescape str set_cell_text)) s w.
Proof.
  revert j s w. induction row_data as [|v rest IH]; intros j s w.
  - rewrite take_nil. reflexivity.
  - cbn [fill_row]. rewrite Z.geb_leb.
    destruct (Z.leb_spec cols j) as [Hle|Hlt].
    + replace (Z.to_nat (cols - j)) with 0%nat by lia. reflexivity.
    + replace (Z.to_nat (cols - j)) with (Datatypes.S (Z.to_nat (cols - (j + 1))))
        by lia.
      cbn [take]. rewrite imap_cons. cbn [for_each set_text].
      rewrite Z.add_0_r.
      apply run_bind_ext; [reflexivity|]. intros _ s' w'. rewrite IH.
      f_equal. f_equal. apply imap_ext. intros k x _. unfold compose.
      rewrite Nat2Z.inj_succ. solve [repeat (f_equal; try lia)].
Qed.

Lemma run_fill_rows (rows cols i : Z) (values : list (list JVal)) (s : S) (w : W) :
  run env (fill_rows html_unescape str set_cell_text rows cols i values) s w =
  run env (for_each
             (cells_from (i + 1) 1
                (map (take (Z.to_nat cols)) (take (Z.to_nat (rows - i)) values)))
             (set_text html_unescape str set_cell_text)) s w.
Proof.
  revert i s w. induction values as [|row_data rest IH]; intros i s w.
  - rewrite take_nil. reflexivity.
  - cbn [fill_rows]. rewrite Z.geb_leb.
    destruct (Z.leb_spec rows i) as [Hle|Hlt].
    + replace (Z.to_nat (rows - i)) with 0%nat by lia. reflexivity.
    + replace (Z.to_nat (rows - i)) with (Datatypes.S (Z.to_nat (rows - (i + 1))))
        by lia.
      cbn [take map]. rewrite cells_from_cons, run_for_each_app.
      apply run_bind_ext.
      * intros s' w'. rewrite run_fill_row. rewrite Z.sub_0_r. reflexivity.
      * intros _ s' w'. apply IH.
Qed.

(** The loops of [word_add_table] make the assignments of the cells in
    the first [rows] rows and the first [cols] columns of [values], row
    by row, and no other: every cell assigned has a row number from 1 to
    [rows] and a column number from 1 to [cols], whatever the size of
    [values]. *)
Theorem table_fill_stays_in_the_table (rows cols : Z)
    (values : list (list JVal)) (s : S) (w : W) :
  run env (fill_table html_unescape str set_cell_text rows cols values) s w =
  run env (for_each (table_cells rows cols values)
                    (set_text html_unescape str set_cell_text)) s w /\
  forall r c v, In (r, c, v) (table_cells rows cols values) ->
                1 <= r <= rows /\ 1 <= c <= cols.
Proof.
  split.
  - unfold fill_table, table_cells. destruct values as [|row_data rest].
    + rewrite take_nil. reflexivity.
    + rewrite run_fill_rows. rewrite Z.sub_0_r. reflexivity.
  - intros r c v Hin. unfold table_cells in Hin.
    apply cells_from_bounds in Hin as (i & j & row & Hrow & Hv & -> & ->).
    rewrite list_lookup_fmap in Hrow.
    destruct (take (Z.to_nat rows) values !! i) as [row'|] eqn:Hi;
      [|discriminate Hrow].
    injection Hrow as <-.
    apply lookup_take_Some in Hi as [_ Hi].
    apply lookup_take_Some in Hv as [_ Hj]. lia.
Qed.

End Table.

Section Range.
Variable range_row_column : string -> Prog S (Z * Z).
Variable set_cell_value : Z -> Z -> JVal -> Prog S unit.

Lemma run_write_row (start_row start_col i j : Z) (row_data : list JVal)
    (s : S) (w : W) :
  run env (write_row set_cell_value start_row start_col i j row_data) s w =
  run env (for_each (imap (fun k v => (start_row + i,
                                       start_col + j + Z.of_nat k, v))
                          row_data)
                    (set_value set_cell_value)) s w.
Proof.
  revert j s w. induction row_data as [|v rest IH]; intros j s w.
  - reflexivity.
  - cbn [write_row]. rewrite imap_cons. cbn [for_each set_value].
    rewrite Z.add_0_r.
    apply run_bind_ext; [reflexivity|]. intros _ s' w'. rewrite IH.
    f_equal. f_equal. apply imap_ext. intros k x _. unfold compose.
    rewrite Nat2Z.inj_succ. solve [repeat (f_equal; try lia)].
Qed.

Lemma run_write_rows (start_row start_col i : Z) (values : list (list JVal))
    (s : S) (w : W) :
  run env (write_rows set_cell_value start_row start_col i values) s w =
  run env (for_each (cells_from (start_row + i) start_col values)
                    (set_value set_cell_value)) s w.
Proof.
  revert i s w. induction values as [|row_data rest IH]; intros i s w.
  - reflexivity.
  - cbn [write_rows]. rewrite cells_from_cons, run_for_each_app.
    apply run_bind_ext.
    + intros s' w'. rewrite run_write_row.
      f_equal. f_equal. apply imap_ext. intros k x _. solve [repeat (f_equal; try lia)].
    + intros _ s' w'. rewrite IH. f_equal. solve [repeat (f_equal; try lia)].
Qed.

Lemma length_cells_from {A} (r0 c0 : Z) (values : list (list A)) :
  length (cells_from r0 c0 values) = length (concat values).
Proof.
  revert r0. induction values as [|row rest IH]; intros r0.
  - reflexivity.
  - rewrite cells_from_cons. cbn [concat].
    rewrite !length_app, length_imap, IH. reflexivity.
Qed.

(** [excel_write_range] looks at the first row only to decide whether
    to write: when the first row is empty nothing is written and the
    start cell is not even looked up, although later rows may hold
    values; otherwise every value of every row is assigned, the value at
    index [(i, j)] to the cell [i] rows below and [j] columns right of
    the start cell, also in rows longer than the first.  The [rows] and
    [cols] reported are the number of rows and the length of the first
    row. *)
Theorem write_range_follows_first_row (start_cell : string)
    (values : list (list JVal)) (s : S) (w : W) :
  let rows := Z.of_nat (length values) in
  let o := run env (write_range range_row_column set_cell_value
                                start_cell values) s w in
  (forall rest, values = [] :: rest -> o = mkOutcome (Ok (rows, 0)) s w []) /\
  (forall v first rest, values = (v :: first) :: rest ->
     o = run env (start <- range_row_column start_cell ;;
                  for_each (cells_from (fst start) (snd start) values)
                           (set_value set_cell_value) ;;;
                  Ret (rows, Z.of_nat (length (v :: first)))) s w /\
     forall r0 c0, length (cells_from r0 c0 values) = length (concat values)).
Proof.
  cbv zeta. split.
  - intros rest ->. reflexivity.
  - intros v first rest ->. split; [|intros r0 c0; apply length_cells_from].
    unfold write_range.
    replace (Z.ltb 0 (Z.of_nat (length ((v :: first) :: rest)))) with true
      by (symmetry; apply Z.ltb_lt; simpl; lia).
    replace (Z.ltb 0 (Z.of_nat (length (v :: first)))) with true
      by (symmetry; apply Z.ltb_lt; simpl; lia).
    cbn [andb]. rewrite run_bind_assoc.
    apply run_bind_ext; [reflexivity|]. intros start s' w'.
    apply run_bind_ext; [|reflexivity]. intros s'' w''.
    rewrite run_write_rows. rewrite Z.add_0_r. reflexivity.
Qed.

End Range.

End CellLoops.

(** a 3x3 list of values put into a table of two rows and two columns,
    and values written from the cell in row 2, column 3 *)
Example table_fill_two_by_two :
  out_state (run (sim calm)
               (Formatting.fill_table (fun t => t) (fun _ => "x") assign_cell 2 2
                  [[JInt 1; JInt 2; JInt 3]; [JInt 4; JInt 5; JInt 6];
                   [JInt 7; JInt 8; JInt 9]])
               [] world0) =
  [(1, 1, "x"); (1, 2, "x"); (2, 1, "x"); (2, 2, "x")].
Proof. reflexivity. Qed.

Lemma write_range_follows_first_row_witness :
  let write := Formatting.write_range (fun _ => Ret (2, 3)) assign_cell "C2" in
  run (sim calm) (write [[]; [JInt 1]]) [] world0 =
    mkOutcome (Ok (2, 0)) [] world0 [] /\
  out_state (run (sim calm) (write [[JInt 1]; [JInt 2; JInt 3]]) [] world0) =
    [(2, 3, JInt 1); (3, 3, JInt 2); (3, 4, JInt 3)].
Proof.
  split; [|reflexivity].
  exact (proj1 (write_range_follows_first_row (sim calm) (fun _ => Ret (2, 3))
                  assign_cell "C2" [[]; [JInt 1]] [] world0)
               [[JInt 1]] eq_refl).
Defined.

(** ** Responses *)

Section Responses.

Lemma dict_get_set (d : Dict) (k : string) (v : JVal) (key : string)
    (dflt : JVal) :
  dict_get (dict_set d k v) key dflt =
  if String.eqb k key then v else dict_get d key dflt.
Proof.
  induction d as [|[k0 v0] d IH]; simpl.
  - reflexivity.
  - destruct (String.eqb_spec k0 k) as [->|Hne]; simpl.
    + destruct (String.eqb k key); reflexivity.
    + rewrite IH. destruct (String.eqb_spec k0 key) as [->|Hne'].
      * destruct (String.eqb_spec k key) as [->|_]; [contradiction|reflexivity].
      * reflexivity.
Qed.

Lemma dict_get_missing (d : Dict) (key : string) (dflt : JVal) :
  ~ In key (map fst d) -> dict_get d key dflt = dflt.
Proof.
  induction d as [|[k0 v0] d IH]; simpl; intros Hnot.
  - reflexivity.
  - destruct (String.eqb_spec k0 key) as [->|Hne].
    + contradiction Hnot. left. reflexivity.
    + apply IH. intros H. apply Hnot. right. exact H.
Qed.

Lemma dict_get_update (d data : Dict) (key : string) (dflt : JVal) :
  List.NoDup (map fst data) ->
  dict_get (dict_update d data) key dflt =
  dict_get data key (dict_get d key dflt).
Proof.
  unfold dict_update. revert d.
  induction data as [|[k v] data IH]; intros d Hnodup; simpl.
  - reflexivity.
  - simpl in Hnodup. apply List.NoDup_cons_iff in Hnodup as [Hk Hnodup].
    rewrite IH by exact Hnodup. rewrite dict_get_set.
    destruct (String.eqb_spec k key) as [->|Hne]; [|reflexivity].
    apply dict_get_missing, Hk.
Qed.

(** What a client reads in a response.  In a success response every
    entry of [data] is found under its key, and the keys [data] does not
    have are those of the plain response, "success" (true) and
    "message"; so the response reads as a success unless [data] itself
    has a key "success".  An error response never reads as a success; it
    carries the message under "error", and the details under "details"
    only when they are not empty. *)
Theorem responses_read_back (message : string) :
  (forall (data : Dict) (key : string) (dflt : JVal),
      List.NoDup (map fst data) ->
      dict_get (get_success_response message data) key dflt =
      dict_get data key
        (dict_get [("success", JBool true); ("message", JStr message)] key dflt)) /\
  (forall data : Dict,
      List.NoDup (map fst data) -> ~ In "success" (map fst data) ->
      is_success (get_success_response message data) = true) /\
  (forall details : option string,
      let r := get_error_response message details in
      is_success r = false /\
      dict_get r "error" JNull = JStr message /\
      dict_get r "details" JNull =
        match details with
        | Some d => if String.eqb d "" then JNull else JStr d
        | None => JNull
        end).
Proof.
  assert (Hget : forall (data : Dict) (key : string) (dflt : JVal),
             List.NoDup (map fst data) ->
             dict_get (get_success_response message data) key dflt =
             dict_get data key
               (dict_get [("success", JBool true); ("message", JStr message)]
                         key dflt)).
  { intros data key dflt Hnodup. unfold get_success_response.
    destruct data as [|kv data]; [reflexivity|].
    apply dict_get_update, Hnodup. }
  split; [exact Hget|]. split.
  - intros data Hnodup Hnot. unfold is_success.
    rewrite Hget by exact Hnodup. rewrite dict_get_missing by exact Hnot.
    reflexivity.
  - intros [d|]; cbv zeta; unfold get_error_response;
      [destruct (String.eqb d "")|]; repeat split.
Qed.

End Responses.

Lemma responses_read_back_witness :
  dict_get (get_success_response "Values written" [("rows", JInt 2); ("cols", JInt 0)])
           "cols" JNull = JInt 0 /\
  is_success (get_success_response "Sent" [("success", JBool false)]) = false.
Proof.
  split; [|reflexivity].
  refine (proj1 (responses_read_back "Values written")
                [("rows", JInt 2); ("cols", JInt 0)] "cols" JNull _).
  repeat constructor; simpl; intuition discriminate.
Defined.

(** ** Escapes *)

Section Escapes.
Import Formatting.

Lemma has_pair_cons (a b prev : ascii) (s : string) :
  has_pair a b (String prev s) = false -> has_pair a b s = false.
Proof. simpl. intros H. apply orb_false_elim in H as [_ H]. exact H. Qed.

Lemma has_pair_cons2 (a b prev c : ascii) (s : string) :
  has_pair a b (String prev (String c s)) =
  ((Ascii.eqb prev a && Ascii.eqb c b) || has_pair a b (String c s))%bool.
Proof. reflexivity. Qed.

Lemma replace2_cons2 (a b new c c' : ascii) (s : string) :
  replace2 a b new (String c (String c' s)) =
  if (Ascii.eqb c a && Ascii.eqb c' b)%bool
  then String new (replace2 a b new s)
  else String c (replace2 a b new (String c' s)).
Proof. reflexivity. Qed.

(** a replacement by a character that is neither [a] nor [b] brings no
    [a] in front of a [b] *)
Lemma replace2_keeps_free (a b a' b' new : ascii) (n : nat) :
  Ascii.eqb new a = false -> Ascii.eqb new b = false ->
  forall (s : string) (prev : ascii),
    (String.length s <= n)%nat ->
    has_pair a b (String prev s) = false ->
    has_pair a b (String prev (replace2 a' b' new s)) = false.
Proof.
  intros Ha Hb. induction n as [|n IH]; intros s prev Hlen Hfree.
  - destruct s; [exact Hfree|simpl in Hlen; lia].
  - destruct s as [|c [|c' s'']]; try exact Hfree.
    rewrite replace2_cons2.
    destruct (Ascii.eqb c a' && Ascii.eqb c' b')%bool.
    + rewrite has_pair_cons2, Hb, andb_false_r. cbn [orb].
      apply IH; [simpl in Hlen; lia|].
      apply has_pair_cons, has_pair_cons, has_pair_cons in Hfree.
      destruct s'' as [|c'' s3]; [reflexivity|].
      rewrite has_pair_cons2, Ha, Hfree. reflexivity.
    + rewrite has_pair_cons2. rewrite has_pair_cons2 in Hfree.
      apply orb_false_elim in Hfree as [Hhead Hfree]. rewrite Hhead. cbn [orb].
      apply IH; [simpl in Hlen |- *; lia|exact Hfree].
Qed.

(** the replacement of [a] followed by [b] leaves no [a] followed by
    [b] *)
Lemma replace2_frees (a b new : ascii) (n : nat) :
  Ascii.eqb new a = false -> Ascii.eqb new b = false ->
  forall (s : string) (prev : ascii),
    (String.length s <= n)%nat ->
    match s with
    | String c _ => (Ascii.eqb prev a && Ascii.eqb c b)%bool = false
    | EmptyString => True
    end ->
    has_pair a b (String prev (replace2 a b new s)) = false.
Proof.
  intros Ha Hb. induction n as [|n IH]; intros s prev Hlen Hhead.
  - destruct s; [reflexivity|simpl in Hlen; lia].
  - destruct s as [|c [|c' s'']].
    + reflexivity.
    + simpl. rewrite Hhead. reflexivity.
    + rewrite replace2_cons2.
      destruct (Ascii.eqb c a && Ascii.eqb c' b)%bool eqn:Hmatch.
      * rewrite has_pair_cons2, Hb, andb_false_r. cbn [orb].
        apply IH; [simpl in Hlen; lia|].
        destruct s''; [exact I|]. rewrite Ha. reflexivity.
      * rewrite has_pair_cons2, Hhead. cbn [orb].
        apply IH; [simpl in Hlen |- *; lia|exact Hmatch].
Qed.

Lemma replace2_plain (a b new : ascii) (n : nat) :
  forall s : string,
    (String.length s <= n)%nat ->
    has_char a s = false -> replace2 a b new s = s.
Proof.
  induction n as [|n IH]; intros s Hlen Hplain.
  - destruct s; [reflexivity|simpl in Hlen; lia].
  - destruct s as [|c [|c' s'']]; try reflexivity.
    rewrite replace2_cons2. simpl in Hplain.
    apply orb_false_elim in Hplain as [Hc Hrest]. rewrite Hc. cbn [andb].
    f_equal. apply IH; [simpl in Hlen |- *; lia|exact Hrest].
Qed.

(** a replacement passes over a character that is not the first of
    the pair *)
Lemma replace2_other (a b new c : ascii) (s : string) :
  Ascii.eqb c a = false ->
  replace2 a b new (String c s) = String c (replace2 a b new s).
Proof.
  intros Hc. destruct s as [|c' s'']; [reflexivity|].
  rewrite replace2_cons2, Hc. reflexivity.
Qed.

(** what a replacement leaves of a text that is not empty starts with
    the first character of the text or with the new character *)
Lemma replace2_head (a b new c : ascii) (s : string) :
  exists h rest,
    replace2 a b new (String c s) = String h rest /\ (h = c \/ h = new).
Proof.
  destruct s as [|c' s'']; [exists c, ""; split; [reflexivity|left; reflexivity]|].
  rewrite replace2_cons2.
  destruct (Ascii.eqb c a && Ascii.eqb c' b)%bool; eexists; eexists;
    (split; [reflexivity|]); [right|left]; reflexivity.
Qed.

(** the first of the pair followed by a character that is not the second
    stays *)
Lemma replace2_first (a b new h : ascii) (rest : string) :
  Ascii.eqb h b = false ->
  replace2 a b new (String a (String h rest)) =
  String a (replace2 a b new (String h rest)).
Proof.
  intros Hh. rewrite replace2_cons2, Hh, andb_false_r. reflexivity.
Qed.

(** the three replacements of [normalize_text], one after the other,
    are one pass over the text *)
Lemma replacements_are_one_pass (n : nat) (s : string) :
  (String.length s <= n)%nat ->
  replace2 "\" "r" "013" (replace2 "\" "t" "009" (replace2 "\" "n" "010" s)) =
  unescaped s.
Proof.
  revert s. induction n as [|n IH]; intros s Hlen.
  - destruct s; [reflexivity|simpl in Hlen; lia].
  - destruct s as [|c [|c' s'']]; try reflexivity.
    assert (IH1 := IH (String c' s'')).
    assert (IH2 := IH s'').
    cbn [unescaped].
    destruct (Ascii.eqb c "\") eqn:Hc; cbn [andb].
    + apply Ascii.eqb_eq in Hc. subst c.
      destruct (Ascii.eqb c' "n") eqn:Hn.
      { apply Ascii.eqb_eq in Hn. subst c'.
        rewrite replace2_cons2. cbn [Ascii.eqb Bool.eqb andb].
        rewrite !replace2_other by reflexivity.
        rewrite IH2 by (simpl in Hlen; lia). reflexivity. }
      destruct (Ascii.eqb c' "t") eqn:Ht.
      { apply Ascii.eqb_eq in Ht. subst c'.
        rewrite replace2_first by reflexivity.
        rewrite (replace2_other "\" "n" "010" "t") by reflexivity.
        rewrite replace2_cons2. cbn [Ascii.eqb Bool.eqb andb].
        rewrite replace2_other by reflexivity.
        rewrite IH2 by (simpl in Hlen; lia). reflexivity. }
      destruct (Ascii.eqb c' "r") eqn:Hr.
      { apply Ascii.eqb_eq in Hr. subst c'.
        rewrite replace2_first by reflexivity.
        rewrite (replace2_other "\" "n" "010" "r") by reflexivity.
        rewrite replace2_first by reflexivity.
        rewrite (replace2_other "\" "t" "009" "r") by reflexivity.
        rewrite replace2_cons2. cbn [Ascii.eqb Bool.eqb andb].
        rewrite IH2 by (simpl in Hlen; lia). reflexivity. }
      rewrite replace2_first by exact Hn.
      destruct (replace2_head "\" "n" "010" c' s'') as (h1 & rest1 & E1 & Hh1).
      rewrite E1 in *.
      assert (Ht1 : Ascii.eqb h1 "t" = false)
        by (destruct Hh1 as [->| ->]; [exact Ht|reflexivity]).
      assert (Hr1 : Ascii.eqb h1 "r" = false)
        by (destruct Hh1 as [->| ->]; [exact Hr|reflexivity]).
      rewrite replace2_first by exact Ht1.
      destruct (replace2_head "\" "t" "009" h1 rest1) as (h2 & rest2 & E2 & Hh2).
      rewrite E2 in *.
      assert (Hr2 : Ascii.eqb h2 "r" = false)
        by (destruct Hh2 as [->| ->]; [exact Hr1|reflexivity]).
      rewrite replace2_first by exact Hr2.
      rewrite IH1 by (simpl in Hlen |- *; lia). reflexivity.
    + rewrite !replace2_other by exact Hc.
      rewrite IH1 by (simpl in Hlen |- *; lia). reflexivity.
Qed.

(** [normalize_text] hands to [html.unescape] the text in which one
    pass from the left has put a line feed, a tab or a carriage return
    in place of each backslash followed by n, t or r: the three
    replacements done one after the other neither miss a pair nor make
    one.  So that text holds no backslash followed by n, t or r any
    more, and a text without a backslash is handed over as it is. *)
Theorem normalize_text_replaces_every_escape (html_unescape : string -> string)
    (text : string) :
  normalize_text html_unescape text = html_unescape (unescaped text) /\
  has_pair "\" "n" (unescaped text) = false /\
  has_pair "\" "t" (unescaped text) = false /\
  has_pair "\" "r" (unescaped text) = false /\
  (has_char "\" text = false -> unescaped text = text).
Proof.
  rewrite <- (replacements_are_one_pass (String.length text) text (le_n _)).
  unfold normalize_text. split; [reflexivity|].
  set (t1 := replace2 "\" "n" "010" text).
  set (t2 := replace2 "\" "t" "009" t1).
  assert (H1 : has_pair "\" "n" (String "010" t1) = false).
  { apply (replace2_frees _ _ _ (String.length text)); try reflexivity.
    destruct text; [exact I|reflexivity]. }
  assert (H2 : has_pair "\" "t" (String "009" t2) = false).
  { apply (replace2_frees _ _ _ (String.length t1)); try reflexivity.
    destruct t1; [exact I|reflexivity]. }
  assert (H12 : has_pair "\" "n" (String "010" t2) = false).
  { apply (replace2_keeps_free _ _ _ _ _ (String.length t1));
      try reflexivity. exact H1. }
  split; [|split; [|split]].
  - apply (has_pair_cons _ _ "010").
    apply (replace2_keeps_free _ _ _ _ _ (String.length t2));
      try reflexivity. exact H12.
  - apply (has_pair_cons _ _ "009").
    apply (replace2_keeps_free _ _ _ _ _ (String.length t2));
      try reflexivity. exact H2.
  - apply (has_pair_cons _ _ "013").
    apply (replace2_frees _ _ _ (String.length t2)); try reflexivity.
    destruct t2; [exact I|reflexivity].
  - intros Hplain. subst t2 t1.
    rewrite (replace2_plain _ _ _ _ text (le_n _) Hplain).
    rewrite (replace2_plain _ _ _ _ text (le_n _) Hplain).
    apply (replace2_plain _ _ _ _ text (le_n _) Hplain).
Qed.

End Escapes.

Lemma normalize_text_replaces_every_escape_witness :
  Formatting.normalize_text (fun t => t) "Total" = "Total" /\
  Formatting.normalize_text (fun t => t) "a\nb\\tc\d" =
    String "a" (String "010" (String "b" (String "\" (String "009" "c\d")))).
Proof.
  destruct (normalize_text_replaces_every_escape (fun t => t) "Total")
    as (Heq & _ & _ & _ & Hplain).
  destruct (normalize_text_replaces_every_escape (fun t => t) "a\nb\\tc\d")
    as (Heq' & _).
  split.
  - rewrite Heq. apply Hplain. reflexivity.
  - rewrite Heq'. reflexivity.
Defined.
